(** * Occupancy engine of the grid floorplanning GUI (src/src/main.py)

    Shallow embedding of the parts of [BlockPlacement] that read or write the
    occupancy grid [grid_state], the dictionary [block_objects], the selection
    [selected_blocks] and the persisted placement database.  Rendering
    (canvas items, colours, text, guide lines) is left out; only the
    dictionary lookups it performs, which can raise, are kept. *)

From Stdlib Require Import ZArith List String Ascii Bool Lia Permutation.
Import ListNotations.
Open Scope string_scope.
Open Scope list_scope.
Open Scope Z_scope.

(** ** Python-level effects: a state monad with exceptions.

    A Python exception keeps every mutation made before it was raised, so
    a raised exception carries the state reached at that point. *)

Inductive exn : Type :=
| KeyError      (* missing key of a dict *)
| IndexError    (* list index out of range *)
| ValueError.   (* max() of an empty sequence *)

Inductive Out (S A : Type) : Type :=
| Ok    : A -> S -> Out S A
| Raise : exn -> S -> Out S A.
Arguments Ok {S A} _ _.
Arguments Raise {S A} _ _.

Definition M (S A : Type) : Type := S -> Out S A.

Definition ret {S A} (a : A) : M S A := fun s => Ok a s.
Definition bind {S A B} (m : M S A) (k : A -> M S B) : M S B :=
  fun s => match m s with
           | Ok a s' => k a s'
           | Raise e s' => Raise e s'
           end.
Definition get {S} : M S S := fun s => Ok s s.
Definition put {S} (s : S) : M S unit := fun _ => Ok tt s.
Definition raise {S A} (e : exn) : M S A := fun s => Raise e s.

Declare Scope py_scope.
Delimit Scope py_scope with py.
Notation "x <- m ;; k" := (bind m (fun x => k))
  (at level 61, m at next level, right associativity) : py_scope.
Notation "m ;; k" := (bind m (fun _ => k))
  (at level 61, right associativity) : py_scope.
Open Scope py_scope.

(** [for v in l: body(v)] *)
Fixpoint for_ {S A} (l : list A) (body : A -> M S unit) : M S unit :=
  match l with
  | [] => ret tt
  | v :: l' => body v ;; for_ l' body
  end.

(** [range(a, b)] over integers. *)
Definition zrange (a b : Z) : list Z :=
  map (fun i => a + Z.of_nat i) (seq 0 (Z.to_nat (b - a))).

(** Python's [max] of a non-empty sequence of integers (on the empty one
    Python raises; the callers never reach it, see [new_block]). *)
Definition py_max (l : list Z) : Z :=
  match l with
  | [] => 0
  | v :: r => fold_left Z.max r v
  end.

(** Python list indexing: negative indices count from the end, anything else
    out of range raises [IndexError] (modelled as [None]). *)
Definition py_index (len i : Z) : option Z :=
  if (0 <=? i) && (i <? len) then Some i
  else if (- len <=? i) && (i <? 0) then Some (i + len)
  else None.

(** ** Data model *)

Inductive Orientation : Type := R0 | MX | MY | R180 | R90.

Definition orientation_eqb (a b : Orientation) : bool :=
  match a, b with
  | R0, R0 | MX, MX | MY, MY | R180, R180 | R90, R90 => true
  | _, _ => false
  end.

Definition Cell : Type := (Z * Z)%type.

(** [BlockObject]: [data['cell_name']], [data['x']], [data['y']],
    [data['orientation']] and [block_shape].  [data['shape_ids']] holds
    canvas item handles only and is left out.  [llx_in_canvas] ...
    [ury_in_canvas] are recomputed from [x], [y] and [block_shape] by both
    [__init__] and [update_location], so they are functions here. *)
Record BlockObject : Type := mkBlock {
  cell_name : string;
  data_x : Z;
  data_y : Z;
  orientation : Orientation;
  block_shape : list Cell }.

Definition llx_in_canvas (b : BlockObject) : Z := data_x b.
Definition lly_in_canvas (b : BlockObject) : Z := data_y b.
Definition urx_in_canvas (b : BlockObject) : Z :=
  data_x b + py_max (map fst (block_shape b)).
Definition ury_in_canvas (b : BlockObject) : Z :=
  data_y b + py_max (map snd (block_shape b)).

(** [BlockObject.update_location] *)
Definition update_location (b : BlockObject) (x y : Z) : BlockObject :=
  {| cell_name := cell_name b; data_x := x; data_y := y;
     orientation := orientation b; block_shape := block_shape b |}.

(** [BlockObject.update_orientation]: R0 -> MX -> MY -> R180 -> R90 -> R0. *)
Definition next_orientation (o : Orientation) : Orientation :=
  match o with R0 => MX | MX => MY | MY => R180 | R180 => R90 | R90 => R0 end.

Definition update_orientation (b : BlockObject) : BlockObject :=
  {| cell_name := cell_name b; data_x := data_x b; data_y := data_y b;
     orientation := next_orientation (orientation b);
     block_shape := block_shape b |}.

(** [read_block_config]: [[(dx, dy) for dy in range(height) for dx in range(width)]]. *)
Definition buttons_of (width height : Z) : list Cell :=
  flat_map (fun dy => map (fun dx => (dx, dy)) (zrange 0 width)) (zrange 0 height).

(** Session configuration: grid size and the catalog [SHAPE_BUTTONS]
    (as an association list in the CSV's row order; [SHAPE_COLORS] and
    [SHAPE_PINSIDES] are filled by the same loop with the same keys). *)
Record Cfg : Type := mkCfg {
  GRID_WIDTH : Z;
  GRID_HEIGHT : Z;
  SHAPE_BUTTONS : list (string * list Cell) }.

Fixpoint assoc {A} (k : string) (l : list (string * A)) : option A :=
  match l with
  | [] => None
  | (k', v) :: l' => if String.eqb k k' then Some v else assoc k l'
  end.

(** [grid_state[x][y]]: the grid is always a [GRID_WIDTH]-long list of
    [GRID_HEIGHT]-long lists (built at lines 146, 782 and 808 and only
    assigned cell by cell afterwards); it is modelled as its lookup
    function, [None] outside the grid.  Python's [id(block)] is a [nat]. *)
Definition Grid : Type := Z -> Z -> option nat.

Definition empty_grid : Grid := fun _ _ => None.

(** The interpreter state the engine touches.  [heap] maps [id(obj)] to the
    object: [block_objects] and [selected_blocks] share the objects, so a
    mutation through one is seen through the other. *)
Record St : Type := mkSt {
  grid_state : Grid;
  heap : nat -> BlockObject;
  block_objects : list nat;     (* keys of [self.block_objects], in order *)
  selected_blocks : list nat;   (* keys of [self.selected_blocks], by id *)
  selected_shape : option string;
  next_id : nat }.             (* the id the next new object receives *)

Definition with_grid (st : St) (g : Grid) : St :=
  mkSt g (heap st) (block_objects st) (selected_blocks st) (selected_shape st) (next_id st).
Definition with_heap (st : St) (h : nat -> BlockObject) : St :=
  mkSt (grid_state st) h (block_objects st) (selected_blocks st) (selected_shape st) (next_id st).
Definition with_block_objects (st : St) (l : list nat) : St :=
  mkSt (grid_state st) (heap st) l (selected_blocks st) (selected_shape st) (next_id st).
Definition with_selected (st : St) (l : list nat) : St :=
  mkSt (grid_state st) (heap st) (block_objects st) l (selected_shape st) (next_id st).
Definition with_selected_shape (st : St) (s : option string) : St :=
  mkSt (grid_state st) (heap st) (block_objects st) (selected_blocks st) s (next_id st).

Definition is_some {A} (o : option A) : bool :=
  match o with Some _ => true | None => false end.

(** Python's [==] between an int (or [None]) and an int. *)
Definition opt_eqb (o : option nat) (i : nat) : bool :=
  match o with Some j => Nat.eqb j i | None => false end.

Definition mem (i : nat) (l : list nat) : bool := existsb (Nat.eqb i) l.

Section Engine.

Variable cfg : Cfg.
Local Abbreviation W := (GRID_WIDTH cfg).
Local Abbreviation H := (GRID_HEIGHT cfg).

(** [self.grid_state[x][y] = v] *)
Definition set_cell (x y : Z) (v : option nat) : M St unit :=
  fun st =>
    match py_index W x, py_index H y with
    | Some i, Some j =>
        Ok tt (with_grid st (fun a b =>
                 if (a =? i) && (b =? j) then v else grid_state st a b))
    | _, _ => Raise IndexError st
    end.

(** [self.SHAPE_BUTTONS[name]] (and [SHAPE_COLORS[name]], same keys) *)
Definition lookup_shape (name : string) : M St (list Cell) :=
  match assoc name (SHAPE_BUTTONS cfg) with
  | Some bs => ret bs
  | None => raise KeyError
  end.

(** [self.block_objects[oid]] *)
Definition lookup_block (oid : nat) : M St BlockObject :=
  fun st => if mem oid (block_objects st) then Ok (heap st oid) st
            else Raise KeyError st.

(** Mutation of the object [oid] in place. *)
Definition store (oid : nat) (b : BlockObject) : M St unit :=
  fun st => Ok tt (with_heap st (fun j => if Nat.eqb j oid then b else heap st j)).

(** [BlockObject(cell_name, x, y, block_shape, orientation)]: a fresh object;
    [__init__] takes [max] over the footprint, which raises on an empty one. *)
Definition new_block (name : string) (x y : Z) (shape : list Cell)
    (o : Orientation) : M St nat :=
  fun st =>
    match shape with
    | [] => Raise ValueError st
    | _ :: _ =>
        let oid := next_id st in
        let b := mkBlock name x y o shape in
        Ok oid (mkSt (grid_state st)
                     (fun j => if Nat.eqb j oid then b else heap st j)
                     (block_objects st) (selected_blocks st)
                     (selected_shape st) (S oid))
    end.

(** [self.block_objects[id(obj)] = obj] for a new object *)
Definition register (oid : nat) : M St unit :=
  fun st => Ok tt (with_block_objects st (block_objects st ++ [oid])).

(** [draw_block]: the colour lookup raises [KeyError] for a name absent from
    the catalog; then every footprint cell is marked with the block's id. *)
Definition draw_block (oid : nat) : M St unit :=
  st <- get ;;
  let b := heap st oid in
  _ <- lookup_shape (cell_name b) ;;
  for_ (block_shape b) (fun '(dx, dy) =>
    set_cell (data_x b + dx) (data_y b + dy) (Some oid)).

(** [draw]: redraws every block of [self.block_objects] (grid lines and
    guide lines are rendering only). *)
Definition draw : M St unit :=
  st <- get ;;
  for_ (block_objects st) draw_block.

(** The body of [is_legal_location] once the footprint is looked up. *)
Definition legal_cells (g : Grid) (x y : Z) (bs : list Cell) : bool :=
  forallb (fun '(dx, dy) =>
    let grid_x := x + dx in
    let grid_y := y + dy in
    negb ((grid_x <? 0) || (grid_x >=? W) || (grid_y <? 0) || (grid_y >=? H)
          || is_some (g grid_x grid_y))) bs.

(** [is_legal_location(x, y, shape, warning)] *)
Definition is_legal_location (x y : Z) (shape : string) : M St bool :=
  bs <- lookup_shape shape ;;
  st <- get ;;
  ret (legal_cells (grid_state st) x y bs).

(** [select_shape]: clicking a catalog button. *)
Definition select_shape (shape : string) : M St unit :=
  st <- get ;; put (with_selected_shape st (Some shape)).

(** [canvas_operations] in mode "Place", at grid cell [(x, y)]. *)
Definition place_click (x y : Z) : M St unit :=
  if (x >? W) || (y >? H) then ret tt else
  st <- get ;;
  match selected_shape st with
  | None => ret tt
  | Some shape =>
      if String.eqb shape "" then ret tt else
      ok <- is_legal_location x y shape ;;
      if negb ok then ret tt else
      bs <- lookup_shape shape ;;
      oid <- new_block shape x y bs R0 ;;
      draw_block oid ;;
      register oid
  end.

(** [on_release] in modes "Select wi blockage" ([with_blockage = true]) and
    "Select wo blockage", for a drag from [(x0, y0)] to [(x1, y1)]; it ends
    with [update_cell_size], which calls [draw]. *)
Definition select_region (with_blockage : bool) (x0 y0 x1 y1 : Z) : M St unit :=
  let x_start := Z.min x0 x1 in
  let x_end := Z.max x0 x1 in
  let y_start := Z.min y0 y1 in
  let y_end := Z.max y0 y1 in
  st0 <- get ;;
  put (with_selected st0 []) ;;
  for_ (zrange x_start (x_end + 1)) (fun x =>
    for_ (zrange y_start (y_end + 1)) (fun y =>
      st <- get ;;
      if (0 <=? x) && (x <? W) && (0 <=? y) && (y <? H) then
        match grid_state st x y with
        | None => ret tt
        | Some block_id =>
            b <- lookup_block block_id ;;
            if mem block_id (selected_blocks st) then ret tt
            else if negb with_blockage && String.eqb (cell_name b) "Blockage"
            then ret tt
            else put (with_selected st (selected_blocks st ++ [block_id]))
        end
      else ret tt)) ;;
  draw.

(** [is_position_free(x, y, grid_state)] *)
Definition is_position_free (x y : Z) (g : Grid) : bool :=
  if (0 <=? x) && (x <? W) && (0 <=? y) && (y <? H) then
    negb (is_some (g x y))
  else false.

(** The snapshot of [can_move]: [deepcopy(self.grid_state)] with every cell
    holding the id of a selected block set to [None]. *)
Definition cleared_grid (g : Grid) (block_ids : list nat) : Grid :=
  fun x y =>
    if (0 <=? x) && (x <? W) && (0 <=? y) && (y <? H) then
      match g x y with
      | Some i => if mem i block_ids then None else Some i
      | None => None
      end
    else g x y.

(** [can_move(x_offset, y_offset)] *)
Definition can_move (st : St) (x_offset y_offset : Z) : bool :=
  let block_ids := selected_blocks st in
  let new_grid_state := cleared_grid (grid_state st) block_ids in
  forallb (fun oid =>
    let block := heap st oid in
    let new_llx := llx_in_canvas block + x_offset in
    let new_lly := lly_in_canvas block + y_offset in
    let new_urx := urx_in_canvas block + x_offset in
    let new_ury := ury_in_canvas block + y_offset in
    forallb (fun y =>
      let x := if x_offset <? 0 then new_llx else new_urx in
      is_position_free x y new_grid_state) (zrange new_lly (new_ury + 1))
    && forallb (fun x =>
      let y := if y_offset <? 0 then new_lly else new_ury in
      is_position_free x y new_grid_state) (zrange new_llx (new_urx + 1)))
    block_ids.

(** [move(x_offset, y_offset)] *)
Definition move (x_offset y_offset : Z) : M St bool :=
  st <- get ;;
  if Nat.eqb (List.length (selected_blocks st)) 0 then ret false else
  if negb (can_move st x_offset y_offset) then ret false else
  for_ (selected_blocks st) (fun oid =>
    st1 <- get ;;
    let block := heap st1 oid in
    for_ (block_shape block) (fun '(dx, dy) =>
      set_cell (data_x block + dx) (data_y block + dy) None) ;;
    store oid (update_location block (data_x block + x_offset)
                                     (data_y block + y_offset)) ;;
    draw_block oid) ;;
  ret true.


(** [self.grid_state[x][y]] read at a clicked cell, which is not bounds
    checked by [canvas_operations] (it only rejects [x > GRID_WIDTH]). *)
Definition get_cell (x y : Z) : M St (option nat) :=
  fun st =>
    match py_index W x, py_index H y with
    | Some i, Some j => Ok (grid_state st i j) st
    | _, _ => Raise IndexError st
    end.

(** [can_move_to(x_offset, y_offset, block)] for the block [oid] *)
Definition can_move_to (st : St) (x_offset y_offset : Z) (oid : nat) : bool :=
  let block := heap st oid in
  forallb (fun '(dx, dy) =>
    let new_x := data_x block + dx + x_offset in
    let new_y := data_y block + dy + y_offset in
    if negb ((0 <=? new_x) && (new_x <? W) && (0 <=? new_y) && (new_y <? H))
    then false
    else match grid_state st new_x new_y with
         | Some i => Nat.eqb i oid
         | None => true
         end) (block_shape block).

(** [excel_col_to_index(col_str)] *)
Definition ascii_upper (c : ascii) : ascii :=
  let n := nat_of_ascii c in
  if (97 <=? n)%nat && (n <=? 122)%nat then ascii_of_nat (n - 32) else c.

Definition excel_col_to_index (col_str : string) : Z :=
  fold_left (fun col ch =>
    col * 26 + (Z.of_nat (nat_of_ascii (ascii_upper ch)) - Z.of_nat (nat_of_ascii "A") + 1))
    (list_ascii_of_string col_str) 0 - 1.

(** [int(row_str)] on a string of ASCII digits *)
Definition digits_value (s : string) : Z :=
  fold_left (fun n ch => n * 10 + (Z.of_nat (nat_of_ascii ch) - 48))
    (list_ascii_of_string s) 0.

Definition is_letter (c : ascii) : bool :=
  let n := nat_of_ascii c in
  ((65 <=? n)%nat && (n <=? 90)%nat) || ((97 <=? n)%nat && (n <=? 122)%nat).

Definition is_digit (c : ascii) : bool :=
  let n := nat_of_ascii c in (48 <=? n)%nat && (n <=? 57)%nat.

(** Longest prefix of [s] whose characters satisfy [p], and the rest. *)
Fixpoint span (p : ascii -> bool) (s : string) : string * string :=
  match s with
  | EmptyString => (EmptyString, EmptyString)
  | String c s' =>
      if p c then let (a, r) := span p s' in (String c a, r)
      else (EmptyString, s)
  end.

(** [re.match(r"([A-Za-z]+)([0-9]+)", s).groups()]: the two character
    classes are disjoint, so the greedy match never backtracks. *)
Definition match_target (s : string) : option (string * string) :=
  let (col_str, rest) := span is_letter s in
  let (row_str, _) := span is_digit rest in
  if String.eqb col_str "" then None
  else if String.eqb row_str "" then None
  else Some (col_str, row_str).

(** [move_to] once the dialog returned [target_position]. *)
Definition move_to (target_position : string) : M St bool :=
  st <- get ;;
  match selected_blocks st with
  | [selected_block] =>
      if String.eqb target_position "" then ret false else
      match match_target target_position with
      | None => ret false
      | Some (col_str, row_str) =>
          let col := excel_col_to_index col_str in
          let row := digits_value row_str - 1 in
          let block := heap st selected_block in
          let x_offset := col - data_x block in
          let y_offset := row - data_y block in
          if negb (can_move_to st x_offset y_offset selected_block) then ret false
          else
            for_ (block_shape block) (fun '(dx, dy) =>
              set_cell (data_x block + dx) (data_y block + dy) None) ;;
            store selected_block (update_location block (data_x block + x_offset)
                                                         (data_y block + y_offset)) ;;
            draw_block selected_block ;;
            ret true
      end
  | _ => ret false
  end.

(** The two answers of [CustomDirectionDialog], "V" and "H". *)
Inductive Direction : Type := Vertical | Horizontal.

(** [duplicate_block(block_object, direction, interval)] *)
Definition duplicate_block (oid : nat) (direction : Direction) (interval : Z) : M St unit :=
  st <- get ;;
  let block := heap st oid in
  let start_x := data_x block in
  let start_y := data_y block in
  let block_width := py_max (map fst (block_shape block)) + 1 in
  let block_height := py_max (map snd (block_shape block)) + 1 in
  match direction with
  | Vertical =>
      for_ (zrange 1 H) (fun i =>
        let new_y := start_y + i * (interval + block_height) in
        if new_y <? H then
          ok <- is_legal_location start_x new_y (cell_name block) ;;
          if ok then
            new_oid <- new_block (cell_name block) start_x new_y (block_shape block) R0 ;;
            draw_block new_oid ;;
            register new_oid
          else ret tt
        else ret tt)
  | Horizontal =>
      for_ (zrange 1 W) (fun i =>
        let new_x := start_x + i * (interval + block_width) in
        if new_x <? W then
          ok <- is_legal_location new_x start_y (cell_name block) ;;
          if ok then
            new_oid <- new_block (cell_name block) new_x start_y (block_shape block) R0 ;;
            draw_block new_oid ;;
            register new_oid
          else ret tt
        else ret tt)
  end.

(** [duplicate_main] once the dialogs returned a direction and an
    interval ([askinteger(..., minvalue=0)]). *)
Definition duplicate_main (direction : Direction) (interval : Z) : M St unit :=
  st <- get ;;
  match selected_blocks st with
  | [] => ret tt
  | sel => for_ sel (fun oid => duplicate_block oid direction interval)
  end.

Definition cell_eqb (a b : Cell) : bool :=
  (fst a =? fst b) && (snd a =? snd b).

(** Python's [==] on two lists of [(dx, dy)] tuples. *)
Fixpoint cells_eqb (l1 l2 : list Cell) : bool :=
  match l1, l2 with
  | [], [] => true
  | a :: r1, b :: r2 => cell_eqb a b && cells_eqb r1 r2
  | _, _ => false
  end.

Definition rename (b : BlockObject) (name : string) : BlockObject :=
  {| cell_name := name; data_x := data_x b; data_y := data_y b;
     orientation := orientation b; block_shape := block_shape b |}.

(** [swap_block(block_object)] with [self.selected_shape = target] *)
Definition swap_block (oid : nat) (target : string) : M St unit :=
  st <- get ;;
  let block := heap st oid in
  cur <- lookup_shape (cell_name block) ;;
  tgt <- lookup_shape target ;;
  if cells_eqb cur tgt then
    store oid (rename block target) ;;
    draw_block oid
  else ret tt.

(** [swap_main] *)
Definition swap_main : M St unit :=
  st <- get ;;
  match selected_blocks st with
  | [] => ret tt
  | sel =>
      match selected_shape st with
      | None => ret tt
      | Some target => for_ sel (fun oid => swap_block oid target)
      end
  end.

(** Clearing every cell that holds [block_id]
    ([for i ...: for j ...: if grid_state[i][j] == block_id: ... = None]). *)
Definition clear_id (g : Grid) (block_id : nat) : Grid :=
  fun x y =>
    if (0 <=? x) && (x <? W) && (0 <=? y) && (y <? H) && opt_eqb (g x y) block_id
    then None else g x y.

(** [canvas_operations] in mode "Delete" *)
Definition delete_click (x y : Z) : M St unit :=
  if (x >? W) || (y >? H) then ret tt else
  c <- get_cell x y ;;
  match c with
  | None => ret tt
  | Some block_id =>
      _ <- lookup_block block_id ;;
      st <- get ;;
      put (mkSt (clear_id (grid_state st) block_id) (heap st)
                (filter (fun j => negb (Nat.eqb j block_id)) (block_objects st))
                (selected_blocks st) (selected_shape st) (next_id st))
  end.

(** [canvas_operations] in mode "Change Orientation" *)
Definition orientation_click (x y : Z) : M St unit :=
  if (x >? W) || (y >? H) then ret tt else
  c <- get_cell x y ;;
  match c with
  | None => ret tt
  | Some block_id =>
      b <- lookup_block block_id ;;
      store block_id (update_orientation b) ;;
      draw_block block_id
  end.

(** A record of the placement file: [v.data] without the canvas handles. *)
Record Entry : Type := mkEntry {
  e_cell_name : string;
  e_x : Z;
  e_y : Z;
  e_orientation : Orientation }.

Definition entry_of (b : BlockObject) : Entry :=
  mkEntry (cell_name b) (data_x b) (data_y b) (orientation b).

(** [save_to_file]: the dictionary [{id: data}] written by [json.dumps];
    [json.loads] gives it back with the same keys, values and order. *)
Definition save_to_file (st : St) : list (nat * Entry) :=
  map (fun k => (k, entry_of (heap st k))) (block_objects st).

Definition load_entry (v : Entry) : M St unit :=
  bs <- lookup_shape (e_cell_name v) ;;
  oid <- new_block (e_cell_name v) (e_x v) (e_y v) bs (e_orientation v) ;;
  draw_block oid ;;
  register oid.

(** [load_from_file] once [json.loads] returned [restored_database]:
    Blockage records first, then the others, each in file order. *)
Definition load_from_file (restored_database : list (nat * Entry)) : M St unit :=
  st <- get ;;
  put (mkSt empty_grid (heap st) [] [] (selected_shape st) (next_id st)) ;;
  for_ restored_database (fun '(_, v) =>
    if String.eqb (e_cell_name v) "Blockage" then load_entry v else ret tt) ;;
  for_ restored_database (fun '(_, v) =>
    if negb (String.eqb (e_cell_name v) "Blockage") then load_entry v else ret tt).

(** User actions, as the event loop dispatches them. *)
Inductive Op : Type :=
| SelectShape (shape : string)
| PlaceAt (x y : Z)
| DeleteAt (x y : Z)
| RotateAt (x y : Z)
| SelectRegion (with_blockage : bool) (x0 y0 x1 y1 : Z)
| MoveBy (dx dy : Z)
| MoveTo (target : string)
| Duplicate (direction : Direction) (interval : Z)
| Swap.

Definition op_action (o : Op) : M St unit :=
  match o with
  | SelectShape s => select_shape s
  | PlaceAt x y => place_click x y
  | DeleteAt x y => delete_click x y
  | RotateAt x y => orientation_click x y
  | SelectRegion wb x0 y0 x1 y1 => select_region wb x0 y0 x1 y1
  | MoveBy dx dy => _ <- move dx dy ;; ret tt
  | MoveTo s => _ <- move_to s ;; ret tt
  | Duplicate d k => duplicate_main d k
  | Swap => swap_main
  end.

(** An exception in a Tk callback is reported and the event loop goes on
    with the state reached when it was raised. *)
Definition step (st : St) (o : Op) : St :=
  match op_action o st with
  | Ok _ st' => st'
  | Raise _ st' => st'
  end.

Definition run (st : St) (ops : list Op) : St := fold_left step ops st.

End Engine.

Definition default_block : BlockObject := mkBlock "" 0 0 R0 [].

(** A fresh session: empty grid, no blocks, nothing selected. *)
Definition init_state : St :=
  mkSt empty_grid (fun _ => default_block) [] [] None 0.

(** Grid/block agreement: every marked cell names an existing block whose
    translated footprint contains it, and every cell of every existing block's
    translated footprint is marked with that block. *)
Definition grid_agrees (st : St) : Prop :=
  (forall x y i, grid_state st x y = Some i ->
     In i (block_objects st) /\
     exists dx dy, In (dx, dy) (block_shape (heap st i)) /\
                   x = data_x (heap st i) + dx /\ y = data_y (heap st i) + dy) /\
  (forall i dx dy, In i (block_objects st) -> In (dx, dy) (block_shape (heap st i)) ->
     grid_state st (data_x (heap st i) + dx) (data_y (heap st i) + dy) = Some i).

(** ** Concrete sessions used below *)

(** A 3 x 1 grid and a one-cell shape "U". *)
Definition cfg_row3 : Cfg := mkCfg 3 1 [("U", [(0, 0)])].

(** Place "U" at (0,0) and (1,0) and select both by dragging over them. *)
Definition two_selected_ops : list Op :=
  [SelectShape "U"; PlaceAt 0 0; PlaceAt 1 0; SelectRegion true 0 0 1 0].

Definition two_selected : St := run cfg_row3 init_state two_selected_ops.

(** One "U" block at (0,0). *)
Definition one_placed : St := run cfg_row3 init_state [SelectShape "U"; PlaceAt 0 0].

(** The legality predicate the spec describes, with an excluded identity:
    a cell passes when it is in the grid and empty or held by [ignore_id]. *)
Definition is_legal_spec (cfg : Cfg) (g : Grid) (x y : Z) (bs : list Cell)
    (ignore_id : option nat) : bool :=
  forallb (fun '(dx, dy) =>
    let gx := x + dx in
    let gy := y + dy in
    (0 <=? gx) && (gx <? GRID_WIDTH cfg) && (0 <=? gy) && (gy <? GRID_HEIGHT cfg) &&
    match g gx gy, ignore_id with
    | None, _ => true
    | Some i, Some j => Nat.eqb i j
    | Some _, None => false
    end) bs.

(** The check the spec describes for a batch move: every cell of every
    selected block's footprint, shifted by [(x_offset, y_offset)], is free
    in [can_move]'s snapshot. *)
Definition full_move_check (cfg : Cfg) (st : St) (x_offset y_offset : Z) : bool :=
  let new_grid_state := cleared_grid cfg (grid_state st) (selected_blocks st) in
  forallb (fun oid =>
    let block := heap st oid in
    forallb (fun '(dx, dy) =>
      is_position_free cfg (data_x block + dx + x_offset) (data_y block + dy + y_offset)
                       new_grid_state) (block_shape block))
    (selected_blocks st).

(** Every selected block has a catalog footprint: a full [w x h] rectangle
    as [read_block_config] builds it. *)
Definition selected_rectangular (st : St) : Prop :=
  forall oid, In oid (selected_blocks st) ->
    exists w h, 1 <= w /\ 1 <= h /\ block_shape (heap st oid) = buttons_of w h.

(** Every cell of every selected block's footprint is in the grid and marked
    with that block (the agreement of C1, for the selected blocks). *)
Definition selected_marked (cfg : Cfg) (st : St) : Prop :=
  forall oid dx dy, In oid (selected_blocks st) -> In (dx, dy) (block_shape (heap st oid)) ->
    0 <= data_x (heap st oid) + dx < GRID_WIDTH cfg /\
    0 <= data_y (heap st oid) + dy < GRID_HEIGHT cfg /\
    grid_state st (data_x (heap st oid) + dx) (data_y (heap st oid) + dy) = Some oid.

(** A 5 x 2 grid with a 2 x 2 shape "S" and a one-cell shape "U". *)
Definition cfg_5x2 : Cfg := mkCfg 5 2 [("S", buttons_of 2 2); ("U", [(0, 0)])].

(** "S" at (0,0) selected, "U" at (2,0). *)
Definition square_and_unit : St :=
  run cfg_5x2 init_state
      [SelectShape "S"; PlaceAt 0 0; SelectShape "U"; PlaceAt 2 0; SelectRegion true 0 0 1 1].

(** A 6 x 2 grid with the same shapes. *)
Definition cfg_6x2 : Cfg := mkCfg 6 2 [("S", buttons_of 2 2); ("U", [(0, 0)])].

(** Two "S" blocks at (0,0) and (2,0), both selected and moved right (which
    leaves cells (2,0) and (2,1) of the first one unmarked, see C1), then a
    "U" block placed at (2,0); the two "S" blocks are still selected. *)
Definition after_split_move : St :=
  run cfg_6x2 init_state
      [SelectShape "S"; PlaceAt 0 0; PlaceAt 2 0; SelectRegion true 0 0 3 1;
       MoveBy 1 0; SelectShape "U"; PlaceAt 2 0].

(** The copies the spec describes for duplicating block [oid] of an
    [w x h] footprint: steps [i = 1, 2, ...] bounded by the grid dimension
    on the chosen axis, anchor shifted by [i * (interval + extent)], kept
    when the anchor is in the grid and the footprint there is legal. *)
Definition dup_candidates (cfg : Cfg) (st : St) (oid : nat) (direction : Direction)
    (interval w h : Z) : list BlockObject :=
  let block := heap st oid in
  match direction with
  | Vertical =>
      map (fun i => mkBlock (cell_name block) (data_x block)
                            (data_y block + i * (interval + h)) R0 (block_shape block))
        (filter (fun i =>
           (data_y block + i * (interval + h) <? GRID_HEIGHT cfg) &&
           legal_cells cfg (grid_state st) (data_x block) (data_y block + i * (interval + h))
                       (block_shape block))
           (zrange 1 (GRID_HEIGHT cfg)))
  | Horizontal =>
      map (fun i => mkBlock (cell_name block) (data_x block + i * (interval + w))
                            (data_y block) R0 (block_shape block))
        (filter (fun i =>
           (data_x block + i * (interval + w) <? GRID_WIDTH cfg) &&
           legal_cells cfg (grid_state st) (data_x block + i * (interval + w)) (data_y block)
                       (block_shape block))
           (zrange 1 (GRID_WIDTH cfg)))
  end.

(** One step of [duplicate_block]'s loop, with the candidate anchor
    [(ax i, ay i)] and the axis bound test [cond i]. *)
Definition dup_step (cfg : Cfg) (name : string) (shape : list Cell) (cond : Z -> bool)
    (ax ay : Z -> Z) (i : Z) : M St unit :=
  if cond i then
    ok <- is_legal_location cfg (ax i) (ay i) name ;;
    if ok then
      new_oid <- new_block name (ax i) (ay i) shape R0 ;;
      draw_block cfg new_oid ;;
      register new_oid
    else ret tt
  else ret tt.

(** A 10 x 10 grid with the spec's shape "A", a 2 x 1 rectangle. *)
Definition cfg_10x10 : Cfg := mkCfg 10 10 [("A", buttons_of 2 1)].

(** "A" placed at (0,0) (block 0). *)
Definition a_at_origin : St := run cfg_10x10 init_state [SelectShape "A"; PlaceAt 0 0].

(** A 3 x 1 grid with two one-cell shapes "U" and "V". *)
Definition cfg_uv : Cfg := mkCfg 3 1 [("U", [(0, 0)]); ("V", [(0, 0)])].

(** Two "U" blocks, both selected, and "V" chosen as the swap target. *)
Definition uv_two_selected : St :=
  run cfg_uv init_state
      [SelectShape "U"; PlaceAt 0 0; PlaceAt 1 0; SelectRegion true 0 0 1 0; SelectShape "V"].

(** The spec's reading of a target such as "AA42": column letters in
    bijective base 26 (A = 1, ..., Z = 26, minus one at the end), rows
    1-indexed in decimal. *)
Definition letter_value (c : ascii) : Z := Z.of_nat (nat_of_ascii (ascii_upper c)) - 65.
Definition digit_value (c : ascii) : Z := Z.of_nat (nat_of_ascii c) - 48.
Fixpoint positional (base : Z) (ds : list Z) : Z :=
  match ds with
  | [] => 0
  | d :: r => d * base ^ Z.of_nat (List.length r) + positional base r
  end.
(** Column and 0-indexed row the spec assigns to the two parts. *)
Definition col_of_letters (cs : string) : Z :=
  positional 26 (map (fun c => letter_value c + 1) (list_ascii_of_string cs)) - 1.
Definition row_of_digits (ds : string) : Z :=
  positional 10 (map digit_value (list_ascii_of_string ds)) - 1.

(** Every cell of [oid]'s footprint at anchor [(col, row)] is in the grid and
    is empty or already holds [oid]. *)
Definition target_free (cfg : Cfg) (st : St) (oid : nat) (col row : Z) : Prop :=
  forall dx dy, In (dx, dy) (block_shape (heap st oid)) ->
    0 <= col + dx < GRID_WIDTH cfg /\ 0 <= row + dy < GRID_HEIGHT cfg /\
    (grid_state st (col + dx) (row + dy) = None \/
     grid_state st (col + dx) (row + dy) = Some oid).

(** "A" at (0,0), selected. *)
Definition a_selected : St :=
  run cfg_10x10 init_state [SelectShape "A"; PlaceAt 0 0; SelectRegion true 0 0 0 0].

(** A placement record [load_entry] can load: its name is in the catalog
    with a non-empty footprint lying in the grid at its anchor. *)
Definition loadable (cfg : Cfg) (v : Entry) : Prop :=
  exists bs, assoc (e_cell_name v) (SHAPE_BUTTONS cfg) = Some bs /\ bs <> [] /\
    forall dx dy, In (dx, dy) bs ->
      0 <= e_x v + dx < GRID_WIDTH cfg /\ 0 <= e_y v + dy < GRID_HEIGHT cfg.

(** The test of the first loading pass. *)
Definition is_blockage (v : Entry) : bool := String.eqb (e_cell_name v) "Blockage".

(** A 4 x 2 grid with a one-cell shape "U" and a one-cell "Blockage". *)
Definition cfg_blk : Cfg := mkCfg 4 2 [("U", [(0, 0)]); ("Blockage", [(0, 0)])].

(** "U" at (0,0), a blockage at (1,0), "U" at (2,1). *)
Definition session_blk : St :=
  run cfg_blk init_state
      [SelectShape "U"; PlaceAt 0 0; SelectShape "Blockage"; PlaceAt 1 0;
       SelectShape "U"; PlaceAt 2 1].

(** A placement file whose second record names a shape "Q" missing from
    the catalog of [cfg_row3]. *)
Definition bad_db : list (nat * Entry) :=
  [(0%nat, mkEntry "U" 0 0 R0); (1%nat, mkEntry "Q" 1 0 R0); (2%nat, mkEntry "U" 2 0 R0)].

(** The per-block body of [can_move]'s loop. *)
Definition edge_scan (cfg : Cfg) (g : Grid) (block : BlockObject) (x_offset y_offset : Z) : bool :=
  let new_llx := llx_in_canvas block + x_offset in
  let new_lly := lly_in_canvas block + y_offset in
  let new_urx := urx_in_canvas block + x_offset in
  let new_ury := ury_in_canvas block + y_offset in
  forallb (fun y =>
    let x := if x_offset <? 0 then new_llx else new_urx in
    is_position_free cfg x y g) (zrange new_lly (new_ury + 1))
  && forallb (fun x =>
    let y := if y_offset <? 0 then new_lly else new_ury in
    is_position_free cfg x y g) (zrange new_llx (new_urx + 1)).

Definition cell_eq_dec (a b : Cell) : {a = b} + {a <> b}.
Proof. decide equality; apply Z.eq_dec. Defined.

(** The blocks the duplication loop over the steps [l] makes when the
    legality of every step is judged in the starting grid of [st0]. *)
Definition dup_made (cfg : Cfg) (name : string) (shape : list Cell) (cond : Z -> bool)
    (ax ay : Z -> Z) (st0 : St) (l : list Z) : list BlockObject :=
  map (fun i => mkBlock name (ax i) (ay i) R0 shape)
      (filter (fun i => cond i && legal_cells cfg (grid_state st0) (ax i) (ay i) shape) l).

(** The result [swap_block] gives a block when its name and [target] are in
    the catalog. *)
Definition swapped (cfg : Cfg) (target : string) (b : BlockObject) : BlockObject :=
  match assoc (cell_name b) (SHAPE_BUTTONS cfg), assoc target (SHAPE_BUTTONS cfg) with
  | Some cur, Some tgt => if cells_eqb cur tgt then rename b target else b
  | _, _ => b
  end.

(** * Session invariant, drag handlers, configuration reader and text export *)

(** Session well-formedness: marked cells lie in the grid, grid and blocks
    agree, every object ever created has its catalog footprint, and the
    registered and selected ids are ids of created objects. *)
Definition wf (cfg : Cfg) (st : St) : Prop :=
  (forall x y, grid_state st x y <> None ->
     0 <= x < GRID_WIDTH cfg /\ 0 <= y < GRID_HEIGHT cfg) /\
  grid_agrees st /\
  (forall i, (i < next_id st)%nat ->
     assoc (cell_name (heap st i)) (SHAPE_BUTTONS cfg) = Some (block_shape (heap st i))) /\
  (forall i, In i (block_objects st) -> (i < next_id st)%nat) /\
  (forall i, In i (selected_blocks st) -> (i < next_id st)%nat).

(** [m] keeps [P]: run from a state satisfying [P], it ends, normally or
    by an exception, in a state satisfying [P]. *)
Definition keeps {A} (P : St -> Prop) (m : M St A) : Prop :=
  forall st, P st -> match m st with Ok _ s => P s | Raise _ s => P s end.

(** Well formed, with the selection [sel0] and at least the blocks [bo0]. *)
Definition grows_from (cfg : Cfg) (sel0 bo0 : list nat) (s : St) : Prop :=
  wf cfg s /\ selected_blocks s = sel0 /\ incl bo0 (block_objects s).

(** The cells [select_region] picks: an in-grid cell of the rectangle that
    holds [j], a Blockage only when blockages are selected. *)
Definition picked (cfg : Cfg) (st : St) (with_blockage : bool) (x y : Z) (j : nat) : Prop :=
  0 <= x < GRID_WIDTH cfg /\ 0 <= y < GRID_HEIGHT cfg /\ grid_state st x y = Some j /\
  (with_blockage = true \/ cell_name (heap st j) <> "Blockage").

Section Release.

Variable cfg : Cfg.
Local Abbreviation W := (GRID_WIDTH cfg).
Local Abbreviation H := (GRID_HEIGHT cfg).

(** [on_release] in mode "Place Blockage", for a drag from [(x0, y0)] to
    [(x1, y1)]: a "Blockage" is placed at every empty in-grid cell of the
    rectangle where it is legal. *)
Definition release_place_blockage (x0 y0 x1 y1 : Z) : M St unit :=
  let x_start := Z.min x0 x1 in
  let x_end := Z.max x0 x1 in
  let y_start := Z.min y0 y1 in
  let y_end := Z.max y0 y1 in
  for_ (zrange x_start (x_end + 1)) (fun x =>
    for_ (zrange y_start (y_end + 1)) (fun y =>
      st <- get ;;
      if (0 <=? x) && (x <? W) && (0 <=? y) && (y <? H) && negb (is_some (grid_state st x y)) then
        ok <- is_legal_location cfg x y "Blockage" ;;
        if negb ok then ret tt else
        bs <- lookup_shape cfg "Blockage" ;;
        oid <- new_block "Blockage" x y bs R0 ;;
        draw_block cfg oid ;;
        register oid
      else ret tt)).

(** [on_release] in modes "Delete Blockage" ([only_blockage = true]) and
    "Delete Region": every block with an in-grid cell in the rectangle (a
    "Blockage" only, in the first mode) is unregistered and its cells are
    cleared; [selected_blocks] is not touched. *)
Definition release_delete (only_blockage : bool) (x0 y0 x1 y1 : Z) : M St unit :=
  let x_start := Z.min x0 x1 in
  let x_end := Z.max x0 x1 in
  let y_start := Z.min y0 y1 in
  let y_end := Z.max y0 y1 in
  for_ (zrange x_start (x_end + 1)) (fun x =>
    for_ (zrange y_start (y_end + 1)) (fun y =>
      st <- get ;;
      if (0 <=? x) && (x <? W) && (0 <=? y) && (y <? H) then
        match grid_state st x y with
        | None => ret tt
        | Some block_id =>
            b <- lookup_block block_id ;;
            if only_blockage && negb (String.eqb (cell_name b) "Blockage") then ret tt
            else
              st1 <- get ;;
              put (mkSt (clear_id cfg (grid_state st1) block_id) (heap st1)
                        (filter (fun j => negb (Nat.eqb j block_id)) (block_objects st1))
                        (selected_blocks st1) (selected_shape st1) (next_id st1))
        end
      else ret tt)).

End Release.

(** [(x, y)] is a cell of the grid. *)
Definition in_grid (cfg : Cfg) (x y : Z) : Prop :=
  0 <= x < GRID_WIDTH cfg /\ 0 <= y < GRID_HEIGHT cfg.

(** Occupied cells stay occupied. *)
Definition occ_mono (s1 s2 : St) : Prop :=
  forall a b, grid_state s1 a b <> None -> grid_state s2 a b <> None.

(** What a delete drag may do: the heap is kept, cells are only cleared,
    and "Delete Blockage" keeps every non-Blockage block registered. *)
Definition del_mono (only_blockage : bool) (s1 s2 : St) : Prop :=
  heap s2 = heap s1 /\
  (forall a b, grid_state s2 a b = None \/ grid_state s2 a b = grid_state s1 a b) /\
  (only_blockage = true -> forall j, In j (block_objects s1) ->
     cell_name (heap s1 j) <> "Blockage" -> In j (block_objects s2)).

(** After [release_delete] has visited an in-grid cell, it is empty, or,
    for "Delete Blockage", holds a block that is not a "Blockage". *)
Definition del_done (only_blockage : bool) (x y : Z) (s : St) : Prop :=
  match grid_state s x y with
  | None => True
  | Some j => only_blockage = true /\ cell_name (heap s j) <> "Blockage"
  end.

(** Sequences of actions the invariant covers: no [MoveBy] (see C1), and
    [Swap] and [MoveTo] only while the selection holds registered blocks
    ([clean]), which a [DeleteAt] may end and a [SelectRegion] restores. *)
Fixpoint ops_ok (clean : bool) (ops : list Op) : bool :=
  match ops with
  | [] => true
  | o :: r =>
      match o with
      | MoveBy _ _ => false
      | DeleteAt _ _ => ops_ok false r
      | SelectRegion _ _ _ _ _ => ops_ok true r
      | MoveTo _ | Swap => clean && ops_ok clean r
      | _ => ops_ok clean r
      end
  end.

(** When [clean] holds, every selected id is registered. *)
Definition sel_ok (clean : bool) (st : St) : Prop :=
  clean = true -> incl (selected_blocks st) (block_objects st).

(** A row of the block CSV once [int()] and [ast.literal_eval] have
    converted its fields ([pinside] is whatever value the literal denotes). *)
Record BlockRow (P : Type) : Type := mkBlockRow {
  block_name : string;
  width : Z;
  height : Z;
  color : string;
  pinside : P }.

Arguments mkBlockRow {P}.
Arguments block_name {P}.
Arguments width {P}.
Arguments height {P}.
Arguments color {P}.
Arguments pinside {P}.

(** [d[k] = v] on a Python dict: an existing key keeps its place and takes
    the new value, a new key goes at the end. *)
Fixpoint dict_set {A} (k : string) (v : A) (d : list (string * A)) : list (string * A) :=
  match d with
  | [] => [(k, v)]
  | (k', v') :: r => if String.eqb k k' then (k', v) :: r else (k', v') :: dict_set k v r
  end.

(** [read_block_config]: the three dicts [shape_buttons], [shape_colors]
    and [shape_pinsides], filled row by row. *)
Definition read_block_config {P} (rows : list (BlockRow P)) :
    list (string * list Cell) * list (string * string) * list (string * P) :=
  fold_left (fun '(shape_buttons, shape_colors, shape_pinsides) row =>
    let block_name := block_name row in
    let buttons := buttons_of (width row) (height row) in
    (dict_set block_name buttons shape_buttons,
     dict_set block_name (color row) shape_colors,
     dict_set block_name (pinside row) shape_pinsides)) rows ([], [], []).

(** [t] is empty or does not start with a digit. *)
Definition no_digit_head (t : string) : bool :=
  match t with
  | EmptyString => true
  | String c _ => negb (is_digit c)
  end.

(** The value [excel_col_to_index] gives one character ([A] or [a] = 1). *)
Definition col_digit (ch : ascii) : Z :=
  Z.of_nat (nat_of_ascii (ascii_upper ch)) - Z.of_nat (nat_of_ascii "A") + 1.

(** The base-26 fold of [excel_col_to_index], before the final [- 1]. *)
Definition horner26 (l : list ascii) : Z := fold_left (fun col ch => col * 26 + col_digit ch) l 0.

(** The state an action ends in, normally or by an exception. *)
Definition out_state {A} (o : Out St A) : St := match o with Ok _ s => s | Raise _ s => s end.

(** "U" at (0,0), selected, then deleted: the selection still names it. *)
Definition stale_selected : St :=
  run cfg_row3 init_state [SelectShape "U"; PlaceAt 0 0; SelectRegion true 0 0 0 0; DeleteAt 0 0].

(** Shape "U" chosen on an empty 3 x 1 grid. *)
Definition u_chosen : St := run cfg_row3 init_state [SelectShape "U"].

(** "U" at (0,0) and (1,0), nothing selected. *)
Definition two_placed : St := run cfg_row3 init_state [SelectShape "U"; PlaceAt 0 0; PlaceAt 1 0].

Section SaveTxt.

Variable cfg : Cfg.
(** [str(id(obj))] *)
Variable show_id : nat -> string.




End SaveTxt.


(** A file-writing action that completes from any file contents, and one
    that raises from any file contents. *)
Definition runs_ok (m : M string unit) : Prop := forall f, exists f', m f = Ok tt f'.

Definition always_raises (m : M string unit) : Prop := forall f, exists e f', m f = Raise e f'.

(** * Claims *)

(** ** Batch move and grid/block agreement *)

(** C1 (code_bug).  Grid/block agreement does not survive a batch move of
    two adjacent selected blocks: [move] clears the old cells of the second
    block after the first block has already marked its new cells there, so
    the first block's new cell is left empty.  Concretely, after placing
    one-cell blocks 0 at (0,0) and 1 at (1,0), selecting both and pressing
    "d" ([move(1, 0)]), block 0 sits at (1,0) but cell (1,0) is empty. *)
Theorem C1_move_breaks_grid_agreement :
  ~ grid_agrees (run cfg_row3 init_state (two_selected_ops ++ [MoveBy 1 0])).
Proof.
  intros [_ Hmark].
  assert (Hc := Hmark 0%nat 0 0 ltac:(vm_compute; auto) ltac:(vm_compute; auto)).
  vm_compute in Hc. discriminate Hc.
Qed.

(** C2 (code_bug, same defect as C1).  The move of two adjacent selected
    blocks passes [can_move] and shifts both anchors by (1,0), yet the grid
    does not reflect the new positions: the new cell (1,0) of block 0 is
    empty. *)
Theorem C2_move_commits_without_grid_update :
  exists st',
    move cfg_row3 1 0 two_selected = Ok true st' /\
    selected_blocks st' = [0%nat; 1%nat] /\
    data_x (heap st' 0) = data_x (heap two_selected 0) + 1 /\
    data_y (heap st' 0) = data_y (heap two_selected 0) /\
    data_x (heap st' 1) = data_x (heap two_selected 1) + 1 /\
    data_y (heap st' 1) = data_y (heap two_selected 1) /\
    data_x (heap st' 0) = 1 /\ data_y (heap st' 0) = 0 /\
    grid_state st' 1 0 = None.
Proof.
  eexists. split; [vm_compute; reflexivity |].
  vm_compute. repeat split.
Qed.

(** ** Legality gate *)

Lemma legal_cells_false_iff (cfg : Cfg) (g : Grid) (x y : Z) (bs : list Cell) :
  legal_cells cfg g x y bs = false <->
  exists dx dy, In (dx, dy) bs /\
    (x + dx < 0 \/ x + dx >= GRID_WIDTH cfg \/ y + dy < 0 \/
     y + dy >= GRID_HEIGHT cfg \/ g (x + dx) (y + dy) <> None).
Proof.
  unfold legal_cells. induction bs as [| [dx dy] bs IH]; simpl.
  - split; [discriminate | intros (? & ? & [] & _)].
  - rewrite andb_false_iff, IH. split.
    + intros [Hc | (dx' & dy' & Hin & Hc)].
      * exists dx, dy. split; [left; reflexivity |].
        apply negb_false_iff in Hc.
        repeat rewrite orb_true_iff in Hc.
        destruct Hc as [[[[Hc | Hc] | Hc] | Hc] | Hc].
        -- left. lia.
        -- right; left. lia.
        -- right; right; left. lia.
        -- right; right; right; left. lia.
        -- right; right; right; right. destruct (g (x + dx) (y + dy)); discriminate.
      * exists dx', dy'. split; [right; exact Hin | exact Hc].
    + intros (dx' & dy' & [Heq | Hin] & Hc).
      * inversion Heq; subst. left. apply negb_false_iff.
        repeat rewrite orb_true_iff.
        destruct Hc as [Hc | [Hc | [Hc | [Hc | Hc]]]].
        -- left; left; left; left. lia.
        -- left; left; left; right. lia.
        -- left; left; right. lia.
        -- left; right. lia.
        -- right. destruct (g (x + dx') (y + dy')); [reflexivity | congruence].
      * right. exists dx', dy'. split; assumption.
Qed.

(** C3 (corrected).  [is_legal_location(x, y, shape)] reads the state
    only: it returns false exactly when some cell [(x+dx, y+dy)] of the
    catalog footprint of [shape] lies outside the grid or is occupied by
    any block, and true otherwise.  It has no excluded identity. *)
Theorem C3_is_legal_location_spec (cfg : Cfg) (st : St) (x y : Z)
    (shape : string) (bs : list Cell)
    (Hcat : assoc shape (SHAPE_BUTTONS cfg) = Some bs) :
  exists legal,
    is_legal_location cfg x y shape st = Ok legal st /\
    (legal = false <->
     exists dx dy, In (dx, dy) bs /\
       (x + dx < 0 \/ x + dx >= GRID_WIDTH cfg \/ y + dy < 0 \/
        y + dy >= GRID_HEIGHT cfg \/ grid_state st (x + dx) (y + dy) <> None)).
Proof.
  exists (legal_cells cfg (grid_state st) x y bs). split.
  - unfold is_legal_location, lookup_shape, bind, get, ret. rewrite Hcat. reflexivity.
  - apply legal_cells_false_iff.
Qed.

Lemma C3_witness :
  assoc "U" (SHAPE_BUTTONS cfg_row3) = Some [(0, 0)] /\
  exists legal,
    is_legal_location cfg_row3 1 0 "U" one_placed = Ok legal one_placed /\
    (legal = false <->
     exists dx dy, In (dx, dy) [(0, 0)] /\
       (1 + dx < 0 \/ 1 + dx >= GRID_WIDTH cfg_row3 \/ 0 + dy < 0 \/
        0 + dy >= GRID_HEIGHT cfg_row3 \/ grid_state one_placed (1 + dx) (0 + dy) <> None)).
Proof.
  split; [reflexivity |].
  apply (C3_is_legal_location_spec cfg_row3 one_placed 1 0 "U" [(0, 0)]).
  reflexivity.
Defined.

(** C3 counterexample: block 0 occupies (0,0); re-validating its own anchor
    with block 0 excluded would succeed by the claim, but the code, which
    has no exclusion, answers false whatever identity one means to exclude. *)
Lemma C3_no_excluded_identity :
  ~ (forall ignore_id : option nat,
       is_legal_location cfg_row3 0 0 "U" one_placed =
       Ok (is_legal_spec cfg_row3 (grid_state one_placed) 0 0 [(0, 0)] ignore_id)
          one_placed).
Proof.
  intros Hall. specialize (Hall (Some 0%nat)).
  vm_compute in Hall. discriminate Hall.
Qed.

(** ** Batch-move validity check *)

Lemma In_zrange (a b v : Z) : In v (zrange a b) <-> a <= v < b.
Proof.
  unfold zrange. rewrite in_map_iff. split.
  - intros (i & <- & Hi). apply in_seq in Hi. lia.
  - intros Hv. exists (Z.to_nat (v - a)). split; [lia |].
    apply in_seq. lia.
Qed.

Lemma In_buttons_of (w h dx dy : Z) :
  In (dx, dy) (buttons_of w h) <-> 0 <= dx < w /\ 0 <= dy < h.
Proof.
  unfold buttons_of. rewrite in_flat_map. split.
  - intros (dy' & Hdy & Hin). apply in_map_iff in Hin.
    destruct Hin as (dx' & Heq & Hdx). inversion Heq; subst.
    apply In_zrange in Hdy. apply In_zrange in Hdx. lia.
  - intros [Hx Hy]. exists dy. split; [apply In_zrange; lia |].
    apply in_map_iff. exists dx. split; [reflexivity | apply In_zrange; lia].
Qed.

Lemma fold_max_ge (r : list Z) (v : Z) :
  v <= fold_left Z.max r v /\ Forall (fun u => u <= fold_left Z.max r v) r.
Proof.
  revert v. induction r as [| u r IH]; intros v; simpl.
  - split; [lia | constructor].
  - destruct (IH (Z.max v u)) as [H1 H2]. split; [lia |].
    constructor; [lia | exact H2].
Qed.

Lemma fold_max_in (r : list Z) (v : Z) :
  fold_left Z.max r v = v \/ In (fold_left Z.max r v) r.
Proof.
  revert v. induction r as [| u r IH]; intros v; simpl; [left; reflexivity |].
  destruct (IH (Z.max v u)) as [He | Hi].
  - rewrite He. destruct (Z.max_spec v u) as [[_ E] | [_ E]]; rewrite E; auto.
  - right; right; exact Hi.
Qed.

(** [max] of a non-empty list is its largest element. *)
Lemma py_max_spec (l : list Z) :
  l <> [] -> In (py_max l) l /\ Forall (fun u => u <= py_max l) l.
Proof.
  destruct l as [| v r]; [congruence |]. intros _. simpl.
  destruct (fold_max_ge r v) as [H1 H2]. split.
  - destruct (fold_max_in r v) as [He | Hi]; [left; congruence | right; exact Hi].
  - constructor; assumption.
Qed.

Lemma py_max_fst_buttons (w h : Z) :
  1 <= w -> 1 <= h -> py_max (map fst (buttons_of w h)) = w - 1.
Proof.
  intros Hw Hh.
  assert (Hne : map fst (buttons_of w h) <> []).
  { intros E. assert (Hin : In (0, 0) (buttons_of w h)) by (apply In_buttons_of; lia).
    apply (in_map fst) in Hin. rewrite E in Hin. destruct Hin. }
  destruct (py_max_spec _ Hne) as [Hin Hall].
  rewrite Forall_forall in Hall.
  apply in_map_iff in Hin. destruct Hin as ([a b] & Ha & Hab). simpl in Ha.
  apply In_buttons_of in Hab.
  assert (Hw1 : In (w - 1, 0) (buttons_of w h)) by (apply In_buttons_of; lia).
  apply (in_map fst) in Hw1. apply Hall in Hw1. simpl in Hw1. lia.
Qed.

Lemma py_max_snd_buttons (w h : Z) :
  1 <= w -> 1 <= h -> py_max (map snd (buttons_of w h)) = h - 1.
Proof.
  intros Hw Hh.
  assert (Hne : map snd (buttons_of w h) <> []).
  { intros E. assert (Hin : In (0, 0) (buttons_of w h)) by (apply In_buttons_of; lia).
    apply (in_map snd) in Hin. rewrite E in Hin. destruct Hin. }
  destruct (py_max_spec _ Hne) as [Hin Hall].
  rewrite Forall_forall in Hall.
  apply in_map_iff in Hin. destruct Hin as ([a b] & Ha & Hab). simpl in Ha.
  apply In_buttons_of in Hab.
  assert (Hh1 : In (0, h - 1) (buttons_of w h)) by (apply In_buttons_of; lia).
  apply (in_map snd) in Hh1. apply Hall in Hh1. simpl in Hh1. lia.
Qed.

Lemma can_move_edge_scan (cfg : Cfg) (st : St) (x_offset y_offset : Z) :
  can_move cfg st x_offset y_offset =
  forallb (fun oid => edge_scan cfg (cleared_grid cfg (grid_state st) (selected_blocks st))
                                (heap st oid) x_offset y_offset) (selected_blocks st).
Proof. reflexivity. Qed.

Lemma full_move_check_cells (cfg : Cfg) (st : St) (x_offset y_offset : Z) :
  full_move_check cfg st x_offset y_offset = true <->
  forall oid dx dy, In oid (selected_blocks st) -> In (dx, dy) (block_shape (heap st oid)) ->
    is_position_free cfg (data_x (heap st oid) + dx + x_offset)
      (data_y (heap st oid) + dy + y_offset)
      (cleared_grid cfg (grid_state st) (selected_blocks st)) = true.
Proof.
  unfold full_move_check. rewrite forallb_forall. split.
  - intros Hall oid dx dy Hoid Hin. specialize (Hall oid Hoid).
    rewrite forallb_forall in Hall. exact (Hall (dx, dy) Hin).
  - intros Hall oid Hoid. rewrite forallb_forall. intros [dx dy] Hin.
    exact (Hall oid dx dy Hoid Hin).
Qed.

Section RectangleScan.

Variable cfg : Cfg.
Variable g : Grid.
Variable block : BlockObject.
Variables w h : Z.
Hypothesis Hw : 1 <= w.
Hypothesis Hh : 1 <= h.
Hypothesis Hshape : block_shape block = buttons_of w h.

Lemma rect_urx : urx_in_canvas block = data_x block + (w - 1).
Proof. unfold urx_in_canvas. rewrite Hshape, py_max_fst_buttons; lia. Qed.

Lemma rect_ury : ury_in_canvas block = data_y block + (h - 1).
Proof. unfold ury_in_canvas. rewrite Hshape, py_max_snd_buttons; lia. Qed.

(** Every cell the scan visits is a cell of the shifted footprint. *)
Lemma full_implies_edge_scan (x_offset y_offset : Z) :
  (forall dx dy, 0 <= dx < w -> 0 <= dy < h ->
     is_position_free cfg (data_x block + dx + x_offset) (data_y block + dy + y_offset) g = true) ->
  edge_scan cfg g block x_offset y_offset = true.
Proof.
  intros Hfull. unfold edge_scan, llx_in_canvas, lly_in_canvas.
  rewrite rect_urx, rect_ury. apply andb_true_iff. split.
  - apply forallb_forall. intros y Hy. apply In_zrange in Hy.
    destruct (x_offset <? 0).
    + replace (data_x block + x_offset) with (data_x block + 0 + x_offset) by lia.
      replace y with (data_y block + (y - data_y block - y_offset) + y_offset) by lia.
      apply Hfull; lia.
    + replace (data_x block + (w - 1) + x_offset) with (data_x block + (w - 1) + x_offset) by lia.
      replace y with (data_y block + (y - data_y block - y_offset) + y_offset) by lia.
      apply Hfull; lia.
  - apply forallb_forall. intros x Hx. apply In_zrange in Hx.
    destruct (y_offset <? 0).
    + replace (data_y block + y_offset) with (data_y block + 0 + y_offset) by lia.
      replace x with (data_x block + (x - data_x block - x_offset) + x_offset) by lia.
      apply Hfull; lia.
    + replace x with (data_x block + (x - data_x block - x_offset) + x_offset) by lia.
      apply Hfull; lia.
Qed.

(** For unit offsets a shifted cell off the leading column and row is a cell
    of the footprint before the move. *)
Lemma edge_scan_implies_full (x_offset y_offset : Z) :
  -1 <= x_offset <= 1 -> -1 <= y_offset <= 1 ->
  (forall dx dy, 0 <= dx < w -> 0 <= dy < h ->
     is_position_free cfg (data_x block + dx) (data_y block + dy) g = true) ->
  edge_scan cfg g block x_offset y_offset = true ->
  forall dx dy, 0 <= dx < w -> 0 <= dy < h ->
    is_position_free cfg (data_x block + dx + x_offset) (data_y block + dy + y_offset) g = true.
Proof.
  intros Hxo Hyo Hold Hscan dx dy Hdx Hdy.
  unfold edge_scan, llx_in_canvas, lly_in_canvas in Hscan.
  rewrite rect_urx, rect_ury in Hscan.
  apply andb_true_iff in Hscan. destruct Hscan as [Hcol Hrow].
  rewrite forallb_forall in Hcol, Hrow.
  set (X := if x_offset <? 0 then data_x block + x_offset else data_x block + (w - 1) + x_offset) in Hcol.
  set (Y := if y_offset <? 0 then data_y block + y_offset else data_y block + (h - 1) + y_offset) in Hrow.
  destruct (Z.eq_dec (data_x block + dx + x_offset) X) as [EX | NX].
  - rewrite EX. apply Hcol. apply In_zrange. lia.
  - destruct (Z.eq_dec (data_y block + dy + y_offset) Y) as [EY | NY].
    + rewrite EY. apply Hrow. apply In_zrange. lia.
    + assert (Hdx' : 0 <= dx + x_offset < w).
      { unfold X in NX. destruct (Z.ltb_spec x_offset 0); lia. }
      assert (Hdy' : 0 <= dy + y_offset < h).
      { unfold Y in NY. destruct (Z.ltb_spec y_offset 0); lia. }
      replace (data_x block + dx + x_offset) with (data_x block + (dx + x_offset)) by lia.
      replace (data_y block + dy + y_offset) with (data_y block + (dy + y_offset)) by lia.
      apply Hold; assumption.
Qed.

End RectangleScan.

(** A cell of a selected block, marked with it, is free in the snapshot. *)
Lemma cleared_selected_free (cfg : Cfg) (st : St) (oid : nat) (x y : Z) :
  In oid (selected_blocks st) ->
  0 <= x < GRID_WIDTH cfg -> 0 <= y < GRID_HEIGHT cfg ->
  grid_state st x y = Some oid ->
  is_position_free cfg x y (cleared_grid cfg (grid_state st) (selected_blocks st)) = true.
Proof.
  intros Hin Hx Hy Hg. unfold is_position_free, cleared_grid.
  assert (Hb : (0 <=? x) && (x <? GRID_WIDTH cfg) && (0 <=? y) && (y <? GRID_HEIGHT cfg) = true).
  { repeat rewrite andb_true_iff. repeat split; apply Z.leb_le || apply Z.ltb_lt; lia. }
  rewrite Hb, Hg.
  assert (Hm : mem oid (selected_blocks st) = true).
  { unfold mem. apply existsb_exists. exists oid. split; [exact Hin | apply Nat.eqb_refl]. }
  rewrite Hm. reflexivity.
Qed.

Lemma full_implies_can_move (cfg : Cfg) (st : St) (x_offset y_offset : Z) :
  selected_rectangular st ->
  full_move_check cfg st x_offset y_offset = true -> can_move cfg st x_offset y_offset = true.
Proof.
  intros Hrect Hfull. rewrite full_move_check_cells in Hfull.
  rewrite can_move_edge_scan. apply forallb_forall. intros oid Hoid.
  destruct (Hrect oid Hoid) as (w & h & Hw & Hh & Hs).
  apply (full_implies_edge_scan cfg _ _ w h Hw Hh Hs).
  intros dx dy Hdx Hdy. apply Hfull; [exact Hoid |].
  rewrite Hs. apply In_buttons_of. lia.
Qed.

Lemma can_move_implies_full (cfg : Cfg) (st : St) (x_offset y_offset : Z) :
  selected_rectangular st ->
  -1 <= x_offset <= 1 -> -1 <= y_offset <= 1 ->
  selected_marked cfg st ->
  can_move cfg st x_offset y_offset = true -> full_move_check cfg st x_offset y_offset = true.
Proof.
  intros Hrect Hxo Hyo Hmark Hcan. rewrite can_move_edge_scan, forallb_forall in Hcan.
  apply full_move_check_cells. intros oid dx dy Hoid Hin.
  destruct (Hrect oid Hoid) as (w & h & Hw & Hh & Hs).
  rewrite Hs, In_buttons_of in Hin.
  apply (edge_scan_implies_full cfg _ _ w h Hw Hh Hs x_offset y_offset Hxo Hyo);
    [| apply Hcan; exact Hoid | lia | lia].
  intros dx' dy' Hdx' Hdy'.
  assert (Hc : In (dx', dy') (block_shape (heap st oid))) by (rewrite Hs; apply In_buttons_of; lia).
  destruct (Hmark oid dx' dy' Hoid Hc) as (Hx & Hy & Hg).
  apply (cleared_selected_free cfg st oid); assumption.
Qed.

Lemma square_and_unit_rectangular : selected_rectangular square_and_unit.
Proof.
  intros oid Hoid. vm_compute in Hoid. destruct Hoid as [<- | []].
  exists 2, 2. split; [lia | split; [lia | vm_compute; reflexivity]].
Qed.

Lemma square_and_unit_marked : selected_marked cfg_5x2 square_and_unit.
Proof.
  intros oid dx dy Hoid Hin. vm_compute in Hoid. destruct Hoid as [<- | []].
  vm_compute in Hin.
  destruct Hin as [E | [E | [E | [E | []]]]]; inversion E; subst;
    vm_compute; repeat split; congruence.
Qed.

(** C4 (corrected).  [can_move] scans, for each selected block, only the
    leading column and the leading row of its shifted bounding box.  For
    every offset, a move whose shifted footprint cells are all in the grid
    and free in the snapshot is accepted; the converse holds for the unit
    offsets [move] is called with, provided the selected blocks' footprints
    are in the grid and marked with their own identity. *)
Theorem C4_can_move_covers_footprint (cfg : Cfg) (st : St) (x_offset y_offset : Z)
    (Hrect : selected_rectangular st) :
  (full_move_check cfg st x_offset y_offset = true -> can_move cfg st x_offset y_offset = true) /\
  (-1 <= x_offset <= 1 -> -1 <= y_offset <= 1 -> selected_marked cfg st ->
   can_move cfg st x_offset y_offset = true -> full_move_check cfg st x_offset y_offset = true).
Proof.
  split.
  - apply full_implies_can_move. exact Hrect.
  - intros Hxo Hyo Hmark. apply can_move_implies_full; assumption.
Qed.

Lemma C4_witness :
  selected_rectangular square_and_unit /\
  ((full_move_check cfg_5x2 square_and_unit 1 0 = true ->
    can_move cfg_5x2 square_and_unit 1 0 = true) /\
   (-1 <= 1 <= 1 -> -1 <= 0 <= 1 -> selected_marked cfg_5x2 square_and_unit ->
    can_move cfg_5x2 square_and_unit 1 0 = true ->
    full_move_check cfg_5x2 square_and_unit 1 0 = true)).
Proof.
  split; [exact square_and_unit_rectangular |].
  apply (C4_can_move_covers_footprint cfg_5x2 square_and_unit 1 0).
  exact square_and_unit_rectangular.
Defined.

(** C4 counterexample: the 2 x 2 block at (0,0), selected, shifted by
    (2, 0) would cover (2,0), held by the "U" block; [can_move] checks only
    column 3 and row 1 of the new box and accepts the move. *)
Lemma C4_offset_two_skips_cells :
  selected_marked cfg_5x2 square_and_unit /\
  can_move cfg_5x2 square_and_unit 2 0 = true /\
  full_move_check cfg_5x2 square_and_unit 2 0 = false.
Proof.
  split; [exact square_and_unit_marked |].
  split; vm_compute; reflexivity.
Qed.

(** C10 (corrected).  For rectangular catalog footprints and unit offsets,
    [can_move]'s leading-edge scan accepts exactly the moves the full
    per-cell check accepts, in a state where every selected block's
    footprint lies in the grid and is marked with its own identity. *)
Theorem C10_unit_scan_equiv_full (cfg : Cfg) (st : St) (x_offset y_offset : Z)
    (Hrect : selected_rectangular st)
    (Hxo : -1 <= x_offset <= 1) (Hyo : -1 <= y_offset <= 1)
    (Hmark : selected_marked cfg st) :
  can_move cfg st x_offset y_offset = full_move_check cfg st x_offset y_offset.
Proof.
  destruct (can_move cfg st x_offset y_offset) eqn:Hc.
  - symmetry. apply can_move_implies_full; assumption.
  - destruct (full_move_check cfg st x_offset y_offset) eqn:Hf; [| reflexivity].
    rewrite (full_implies_can_move cfg st x_offset y_offset Hrect Hf) in Hc.
    discriminate.
Qed.

Lemma C10_witness :
  selected_rectangular square_and_unit /\ -1 <= -1 <= 1 /\ -1 <= 0 <= 1 /\
  selected_marked cfg_5x2 square_and_unit /\
  can_move cfg_5x2 square_and_unit (-1) 0 = full_move_check cfg_5x2 square_and_unit (-1) 0.
Proof.
  split; [exact square_and_unit_rectangular |].
  split; [lia |]. split; [lia |].
  split; [exact square_and_unit_marked |].
  apply C10_unit_scan_equiv_full;
    [exact square_and_unit_rectangular | lia | lia | exact square_and_unit_marked].
Defined.

(** C10 counterexample, in a state the GUI reaches: after the split move of
    C1 the first "S" block's cells (2,0) and (2,1) are unmarked and a "U"
    block now sits at (2,0); moving the still-selected "S" blocks right by
    one passes the scan although the first block's shifted footprint covers
    (2,0). *)
Lemma C10_scan_misses_stale_cell :
  selected_rectangular after_split_move /\
  can_move cfg_6x2 after_split_move 1 0 = true /\
  full_move_check cfg_6x2 after_split_move 1 0 = false.
Proof.
  split.
  - intros oid Hoid. vm_compute in Hoid.
    destruct Hoid as [<- | [<- | []]]; exists 2, 2;
      (split; [lia | split; [lia | vm_compute; reflexivity]]).
  - split; vm_compute; reflexivity.
Qed.

(** ** Monadic steps *)

Lemma bind_ok {A B} (m : M St A) (k : A -> M St B) (st st1 : St) (a : A) :
  m st = Ok a st1 -> bind m k st = k a st1.
Proof. intros E. unfold bind. rewrite E. reflexivity. Qed.

Lemma for_cons {A} (v : A) (l : list A) (body : A -> M St unit) (st : St) :
  for_ (v :: l) body st = bind (body v) (fun _ => for_ l body) st.
Proof. reflexivity. Qed.

Lemma py_index_in (len i : Z) : 0 <= i < len -> py_index len i = Some i.
Proof.
  intros Hi. unfold py_index.
  replace ((0 <=? i) && (i <? len)) with true; [reflexivity |].
  symmetry. apply andb_true_iff. split; [apply Z.leb_le | apply Z.ltb_lt]; lia.
Qed.

Lemma set_cell_in (cfg : Cfg) (x y : Z) (v : option nat) (st : St) :
  0 <= x < GRID_WIDTH cfg -> 0 <= y < GRID_HEIGHT cfg ->
  set_cell cfg x y v st =
  Ok tt (with_grid st (fun a b => if (a =? x) && (b =? y) then v else grid_state st a b)).
Proof.
  intros Hx Hy. unfold set_cell. rewrite (py_index_in _ _ Hx), (py_index_in _ _ Hy).
  reflexivity.
Qed.

(** Writing [v] into the translated cells of a footprint that lies in the
    grid: only the grid changes, exactly at those cells. *)
Lemma for_set_cells (cfg : Cfg) (x0 y0 : Z) (v : option nat) (cells : list Cell) :
  forall st,
  (forall dx dy, In (dx, dy) cells ->
     0 <= x0 + dx < GRID_WIDTH cfg /\ 0 <= y0 + dy < GRID_HEIGHT cfg) ->
  exists g',
    for_ cells (fun '(dx, dy) => set_cell cfg (x0 + dx) (y0 + dy) v) st = Ok tt (with_grid st g') /\
    (forall x y, (forall dx dy, In (dx, dy) cells -> x <> x0 + dx \/ y <> y0 + dy) ->
       g' x y = grid_state st x y) /\
    (forall dx dy, In (dx, dy) cells -> g' (x0 + dx) (y0 + dy) = v).
Proof.
  induction cells as [| [dx dy] cells IH]; intros st Hin.
  - exists (grid_state st). split; [destruct st; reflexivity |].
    split; [reflexivity | intros ? ? []].
  - destruct (Hin dx dy (or_introl eq_refl)) as [Hx Hy].
    rewrite for_cons. erewrite bind_ok by (apply set_cell_in; assumption).
    set (st1 := with_grid st _).
    destruct (IH st1) as (g' & Hrun & Hout & Hon).
    { intros dx' dy' H'. apply Hin. right. exact H'. }
    exists g'. split; [exact Hrun |]. split.
    + intros x y Hnot. rewrite Hout.
      * simpl. destruct (Hnot dx dy (or_introl eq_refl)) as [Nx | Ny].
        -- replace (x =? x0 + dx) with false by (symmetry; apply Z.eqb_neq; exact Nx).
           reflexivity.
        -- replace (y =? y0 + dy) with false by (symmetry; apply Z.eqb_neq; exact Ny).
           rewrite andb_false_r. reflexivity.
      * intros dx' dy' H'. apply Hnot. right. exact H'.
    + intros dx' dy' [E | H'].
      * inversion E; subst.
        destruct (in_dec cell_eq_dec (dx', dy') cells) as [Hc | Hc].
        -- apply Hon. exact Hc.
        -- rewrite Hout.
           ++ simpl. rewrite !Z.eqb_refl. reflexivity.
           ++ intros a b Hab.
              destruct (Z.eq_dec (x0 + dx') (x0 + a)) as [Ea | Na]; [| left; exact Na].
              destruct (Z.eq_dec (y0 + dy') (y0 + b)) as [Eb | Nb]; [| right; exact Nb].
              exfalso. apply Hc. replace dx' with a by lia. replace dy' with b by lia.
              exact Hab.
      * apply Hon. exact H'.
Qed.

Lemma draw_block_ok (cfg : Cfg) (oid : nat) (st : St) (bs : list Cell) :
  assoc (cell_name (heap st oid)) (SHAPE_BUTTONS cfg) = Some bs ->
  (forall dx dy, In (dx, dy) (block_shape (heap st oid)) ->
     0 <= data_x (heap st oid) + dx < GRID_WIDTH cfg /\
     0 <= data_y (heap st oid) + dy < GRID_HEIGHT cfg) ->
  exists g',
    draw_block cfg oid st = Ok tt (with_grid st g') /\
    (forall x y, (forall dx dy, In (dx, dy) (block_shape (heap st oid)) ->
                   x <> data_x (heap st oid) + dx \/ y <> data_y (heap st oid) + dy) ->
       g' x y = grid_state st x y) /\
    (forall dx dy, In (dx, dy) (block_shape (heap st oid)) ->
       g' (data_x (heap st oid) + dx) (data_y (heap st oid) + dy) = Some oid).
Proof.
  intros Hcat Hin.
  destruct (for_set_cells cfg (data_x (heap st oid)) (data_y (heap st oid)) (Some oid)
              (block_shape (heap st oid)) st Hin) as (g' & Hrun & Hout & Hon).
  exists g'. split; [| split; assumption].
  unfold draw_block, bind, get, lookup_shape. rewrite Hcat. exact Hrun.
Qed.

Lemma is_legal_location_ok (cfg : Cfg) (x y : Z) (name : string) (bs : list Cell) (st : St) :
  assoc name (SHAPE_BUTTONS cfg) = Some bs ->
  is_legal_location cfg x y name st = Ok (legal_cells cfg (grid_state st) x y bs) st.
Proof.
  intros Hcat. unfold is_legal_location, lookup_shape, bind, get, ret. rewrite Hcat.
  reflexivity.
Qed.

Lemma legal_cells_true (cfg : Cfg) (g : Grid) (x y : Z) (bs : list Cell) :
  legal_cells cfg g x y bs = true ->
  forall dx dy, In (dx, dy) bs ->
    0 <= x + dx < GRID_WIDTH cfg /\ 0 <= y + dy < GRID_HEIGHT cfg /\ g (x + dx) (y + dy) = None.
Proof.
  intros Hl dx dy Hin. unfold legal_cells in Hl. rewrite forallb_forall in Hl.
  specialize (Hl (dx, dy) Hin). simpl in Hl. apply negb_true_iff in Hl.
  repeat rewrite orb_false_iff in Hl.
  destruct Hl as [[[[H1 H2] H3] H4] H5].
  apply Z.ltb_ge in H1. rewrite Z.geb_leb in H2. apply Z.leb_gt in H2.
  apply Z.ltb_ge in H3. rewrite Z.geb_leb in H4. apply Z.leb_gt in H4.
  destruct (g (x + dx) (y + dy)); [discriminate |].
  repeat split; lia.
Qed.

Lemma legal_cells_ext (cfg : Cfg) (g1 g2 : Grid) (x y : Z) (bs : list Cell) :
  (forall dx dy, In (dx, dy) bs -> g1 (x + dx) (y + dy) = g2 (x + dx) (y + dy)) ->
  legal_cells cfg g1 x y bs = legal_cells cfg g2 x y bs.
Proof.
  intros Hext. unfold legal_cells. induction bs as [| [dx dy] bs IH]; [reflexivity |].
  simpl. rewrite (Hext dx dy (or_introl eq_refl)). f_equal.
  apply IH. intros dx' dy' H'. apply Hext. right. exact H'.
Qed.

Lemma new_block_ok (name : string) (x y : Z) (shape : list Cell) (o : Orientation) (st : St) :
  shape <> [] ->
  new_block name x y shape o st =
  Ok (next_id st)
     (mkSt (grid_state st)
           (fun j => if Nat.eqb j (next_id st) then mkBlock name x y o shape else heap st j)
           (block_objects st) (selected_blocks st) (selected_shape st) (S (next_id st))).
Proof. intros Hne. destruct shape as [| c r]; [congruence | reflexivity]. Qed.

(** One step of the duplication loop. *)
Lemma dup_step_ok (cfg : Cfg) (name : string) (shape : list Cell) (cond : Z -> bool)
    (ax ay : Z -> Z) (i : Z) (st : St) :
  assoc name (SHAPE_BUTTONS cfg) = Some shape -> shape <> [] ->
  (cond i && legal_cells cfg (grid_state st) (ax i) (ay i) shape = false ->
   dup_step cfg name shape cond ax ay i st = Ok tt st) /\
  (cond i && legal_cells cfg (grid_state st) (ax i) (ay i) shape = true ->
   exists g',
     dup_step cfg name shape cond ax ay i st =
     Ok tt (mkSt g' (fun j => if Nat.eqb j (next_id st) then mkBlock name (ax i) (ay i) R0 shape
                              else heap st j)
                 (block_objects st ++ [next_id st]) (selected_blocks st) (selected_shape st)
                 (S (next_id st))) /\
     forall x y, (forall dx dy, In (dx, dy) shape -> x <> ax i + dx \/ y <> ay i + dy) ->
       g' x y = grid_state st x y).
Proof.
  intros Hcat Hne. unfold dup_step.
  destruct (cond i); simpl; [| split; [reflexivity | discriminate]].
  rewrite (bind_ok _ _ st st _ (is_legal_location_ok cfg (ax i) (ay i) name shape st Hcat)).
  destruct (legal_cells cfg (grid_state st) (ax i) (ay i) shape) eqn:Hl;
    [| split; [reflexivity | discriminate]].
  split; [discriminate | intros _].
  rewrite (bind_ok _ _ _ _ _ (new_block_ok name (ax i) (ay i) shape R0 st Hne)).
  set (st1 := mkSt _ _ _ _ _ _).
  assert (Hb : heap st1 (next_id st) = mkBlock name (ax i) (ay i) R0 shape).
  { simpl. rewrite Nat.eqb_refl. reflexivity. }
  destruct (draw_block_ok cfg (next_id st) st1 shape) as (g' & Hrun & Hout & _).
  { rewrite Hb. exact Hcat. }
  { rewrite Hb. simpl. intros dx dy Hin.
    destruct (legal_cells_true cfg _ _ _ _ Hl dx dy Hin) as (Hx & Hy & _). split; assumption. }
  exists g'. split.
  - rewrite (bind_ok _ _ _ _ _ Hrun). reflexivity.
  - intros x y Hnot. rewrite Hout; [reflexivity |]. rewrite Hb. exact Hnot.
Qed.

(** The duplication loop: as the candidate footprints are pairwise disjoint,
    a copy made at one step never changes the legality of another step, so
    the copies made are exactly the candidates legal in the starting grid. *)
Lemma dup_loop (cfg : Cfg) (name : string) (shape : list Cell) (cond : Z -> bool)
    (ax ay : Z -> Z) (st0 : St) :
  assoc name (SHAPE_BUTTONS cfg) = Some shape -> shape <> [] ->
  forall l st,
  NoDup l ->
  (forall i j, In i l -> In j l -> i <> j ->
     forall dx1 dy1 dx2 dy2, In (dx1, dy1) shape -> In (dx2, dy2) shape ->
       ax i + dx1 <> ax j + dx2 \/ ay i + dy1 <> ay j + dy2) ->
  (forall i dx dy, In i l -> In (dx, dy) shape ->
     grid_state st (ax i + dx) (ay i + dy) = grid_state st0 (ax i + dx) (ay i + dy)) ->
  exists st',
    for_ l (dup_step cfg name shape cond ax ay) st = Ok tt st' /\
    block_objects st' = block_objects st ++
      seq (next_id st) (List.length (dup_made cfg name shape cond ax ay st0 l)) /\
    map (heap st') (seq (next_id st) (List.length (dup_made cfg name shape cond ax ay st0 l)))
      = dup_made cfg name shape cond ax ay st0 l /\
    next_id st' = (next_id st + List.length (dup_made cfg name shape cond ax ay st0 l))%nat /\
    (forall j, (j < next_id st)%nat -> heap st' j = heap st j).
Proof.
  intros Hcat Hne l. induction l as [| i l IH]; intros st Hnd Hdisj Hagree.
  - exists st. simpl.
    split; [reflexivity |]. split; [rewrite app_nil_r; reflexivity |].
    split; [reflexivity |]. split; [lia | reflexivity].
  - apply NoDup_cons_iff in Hnd. destruct Hnd as [Hnin Hnd].
    assert (Hdisj' : forall i' j, In i' l -> In j l -> i' <> j ->
              forall dx1 dy1 dx2 dy2, In (dx1, dy1) shape -> In (dx2, dy2) shape ->
                ax i' + dx1 <> ax j + dx2 \/ ay i' + dy1 <> ay j + dy2).
    { intros i' j Hi Hj Hij. apply Hdisj; [right | right |]; assumption. }
    assert (Hlegal : legal_cells cfg (grid_state st) (ax i) (ay i) shape =
                     legal_cells cfg (grid_state st0) (ax i) (ay i) shape).
    { apply legal_cells_ext. intros dx dy Hin. apply Hagree; [left; reflexivity | exact Hin]. }
    destruct (dup_step_ok cfg name shape cond ax ay i st Hcat Hne) as [Hskip Hmake].
    rewrite for_cons. unfold dup_made. simpl filter.
    destruct (cond i && legal_cells cfg (grid_state st0) (ax i) (ay i) shape) eqn:Hc.
    + rewrite <- Hlegal in Hc. destruct (Hmake Hc) as (g' & Hrun & Hout).
      rewrite (bind_ok _ _ _ _ _ Hrun).
      set (st1 := mkSt g' _ _ _ _ _).
      destruct (IH st1 Hnd Hdisj') as (st' & Hrun' & Hbo & Hheap & Hnext & Hkeep).
      { intros j dx dy Hj Hin. simpl. rewrite Hout.
        - apply Hagree; [right; exact Hj | exact Hin].
        - intros dx' dy' Hin'.
          assert (Hji : j <> i) by (intros E; subst; contradiction).
          destruct (Hdisj j i (or_intror Hj) (or_introl eq_refl) Hji dx dy dx' dy' Hin Hin')
            as [N | N]; [left | right]; exact N. }
      unfold dup_made in Hbo, Hheap, Hnext.
      exists st'. simpl List.length. split; [exact Hrun' |].
      split; [| split; [| split]].
      * rewrite Hbo. simpl. rewrite <- app_assoc. reflexivity.
      * simpl. f_equal.
        -- rewrite Hkeep by (simpl; lia). simpl. rewrite Nat.eqb_refl. reflexivity.
        -- exact Hheap.
      * rewrite Hnext. simpl. lia.
      * intros j Hj. rewrite Hkeep by (simpl; lia). simpl.
        replace (Nat.eqb j (next_id st)) with false by (symmetry; apply Nat.eqb_neq; lia).
        reflexivity.
    + rewrite <- Hlegal in Hc. rewrite (bind_ok _ _ _ _ _ (Hskip Hc)).
      apply IH; [exact Hnd | exact Hdisj' |].
      intros j dx dy Hj Hin. apply Hagree; [right; exact Hj | exact Hin].
Qed.

Lemma NoDup_zrange (a b : Z) : NoDup (zrange a b).
Proof.
  unfold zrange. generalize (seq_NoDup (Z.to_nat (b - a)) 0%nat).
  generalize (seq 0 (Z.to_nat (b - a))). intros l Hnd.
  induction Hnd as [| n l Hn Hnd IH]; simpl; constructor; [| exact IH].
  rewrite in_map_iff. intros (m & E & Hm). apply Hn.
  replace n with m by lia. exact Hm.
Qed.

Lemma duplicate_block_vertical (cfg : Cfg) (oid : nat) (interval h : Z) (st : St) :
  py_max (map snd (block_shape (heap st oid))) + 1 = h ->
  duplicate_block cfg oid Vertical interval st =
  for_ (zrange 1 (GRID_HEIGHT cfg))
       (dup_step cfg (cell_name (heap st oid)) (block_shape (heap st oid))
          (fun i => data_y (heap st oid) + i * (interval + h) <? GRID_HEIGHT cfg)
          (fun _ => data_x (heap st oid))
          (fun i => data_y (heap st oid) + i * (interval + h))) st.
Proof. intros <-. reflexivity. Qed.

Lemma duplicate_block_horizontal (cfg : Cfg) (oid : nat) (interval w : Z) (st : St) :
  py_max (map fst (block_shape (heap st oid))) + 1 = w ->
  duplicate_block cfg oid Horizontal interval st =
  for_ (zrange 1 (GRID_WIDTH cfg))
       (dup_step cfg (cell_name (heap st oid)) (block_shape (heap st oid))
          (fun i => data_x (heap st oid) + i * (interval + w) <? GRID_WIDTH cfg)
          (fun i => data_x (heap st oid) + i * (interval + w))
          (fun _ => data_y (heap st oid))) st.
Proof. intros <-. reflexivity. Qed.

(** Two different steps are at least one stride apart. *)
Lemma stride_apart (i j s d1 d2 e : Z) :
  i <> j -> e <= s -> 0 <= d1 < e -> 0 <= d2 < e ->
  i * s + d1 <> j * s + d2.
Proof.
  intros Hij Hs Hd1 Hd2 E.
  destruct (Z.lt_total i j) as [Hlt | [Heq | Hgt]]; [| contradiction |].
  - assert (Hge : (j - i) * s >= s) by nia. nia.
  - assert (Hge : (i - j) * s >= s) by nia. nia.
Qed.

(** C5 (confirmed).  Duplicating block [oid] (a [w x h] catalog
    footprint) with a non-negative interval probes the steps
    [i = 1 .. dimension - 1] along the chosen axis, anchor shifted by
    [i * (interval + extent)]; it creates one new R0 block with a fresh id at
    every step whose anchor is in the grid and whose footprint is legal, and
    skips the others without stopping: the new blocks are exactly
    [dup_candidates], in step order, and no earlier copy makes a later
    step fail. *)
Theorem C5_duplicate_block_copies (cfg : Cfg) (st : St) (oid : nat) (direction : Direction)
    (interval w h : Z)
    (Hw : 1 <= w) (Hh : 1 <= h) (Hinterval : 0 <= interval)
    (Hshape : block_shape (heap st oid) = buttons_of w h)
    (Hcat : assoc (cell_name (heap st oid)) (SHAPE_BUTTONS cfg) = Some (block_shape (heap st oid))) :
  exists st',
    duplicate_block cfg oid direction interval st = Ok tt st' /\
    block_objects st' =
      block_objects st ++
      seq (next_id st) (List.length (dup_candidates cfg st oid direction interval w h)) /\
    map (heap st') (seq (next_id st) (List.length (dup_candidates cfg st oid direction interval w h)))
      = dup_candidates cfg st oid direction interval w h.
Proof.
  assert (Hne : block_shape (heap st oid) <> []).
  { rewrite Hshape. intros E.
    assert (Hin : In (0, 0) (buttons_of w h)) by (apply In_buttons_of; lia).
    rewrite E in Hin. destruct Hin. }
  destruct direction.
  - rewrite (duplicate_block_vertical cfg oid interval h st)
      by (rewrite Hshape, py_max_snd_buttons; lia).
    assert (Hdisj : forall i j, In i (zrange 1 (GRID_HEIGHT cfg)) -> In j (zrange 1 (GRID_HEIGHT cfg)) ->
              i <> j -> forall dx1 dy1 dx2 dy2,
              In (dx1, dy1) (block_shape (heap st oid)) -> In (dx2, dy2) (block_shape (heap st oid)) ->
              data_x (heap st oid) + dx1 <> data_x (heap st oid) + dx2 \/
              data_y (heap st oid) + i * (interval + h) + dy1 <>
              data_y (heap st oid) + j * (interval + h) + dy2).
    { intros i j _ _ Hij dx1 dy1 dx2 dy2 H1 H2. right.
      rewrite Hshape, In_buttons_of in H1, H2.
      assert (N := stride_apart i j (interval + h) dy1 dy2 h Hij ltac:(lia) ltac:(lia) ltac:(lia)).
      lia. }
    destruct (dup_loop cfg (cell_name (heap st oid)) (block_shape (heap st oid))
                (fun i => data_y (heap st oid) + i * (interval + h) <? GRID_HEIGHT cfg)
                (fun _ => data_x (heap st oid))
                (fun i => data_y (heap st oid) + i * (interval + h)) st Hcat Hne
                (zrange 1 (GRID_HEIGHT cfg)) st (NoDup_zrange _ _) Hdisj
                (fun _ _ _ _ _ => eq_refl))
      as (st' & Hrun & Hbo & Hheap & _).
    exists st'. split; [exact Hrun |]. split; [exact Hbo | exact Hheap].
  - rewrite (duplicate_block_horizontal cfg oid interval w st)
      by (rewrite Hshape, py_max_fst_buttons; lia).
    assert (Hdisj : forall i j, In i (zrange 1 (GRID_WIDTH cfg)) -> In j (zrange 1 (GRID_WIDTH cfg)) ->
              i <> j -> forall dx1 dy1 dx2 dy2,
              In (dx1, dy1) (block_shape (heap st oid)) -> In (dx2, dy2) (block_shape (heap st oid)) ->
              data_x (heap st oid) + i * (interval + w) + dx1 <>
              data_x (heap st oid) + j * (interval + w) + dx2 \/
              data_y (heap st oid) + dy1 <> data_y (heap st oid) + dy2).
    { intros i j _ _ Hij dx1 dy1 dx2 dy2 H1 H2. left.
      rewrite Hshape, In_buttons_of in H1, H2.
      assert (N := stride_apart i j (interval + w) dx1 dx2 w Hij ltac:(lia) ltac:(lia) ltac:(lia)).
      lia. }
    destruct (dup_loop cfg (cell_name (heap st oid)) (block_shape (heap st oid))
                (fun i => data_x (heap st oid) + i * (interval + w) <? GRID_WIDTH cfg)
                (fun i => data_x (heap st oid) + i * (interval + w))
                (fun _ => data_y (heap st oid)) st Hcat Hne
                (zrange 1 (GRID_WIDTH cfg)) st (NoDup_zrange _ _) Hdisj
                (fun _ _ _ _ _ => eq_refl))
      as (st' & Hrun & Hbo & Hheap & _).
    exists st'. split; [exact Hrun |]. split; [exact Hbo | exact Hheap].
Qed.

(** The spec's scenario: "A" at (0,0), vertical, interval 0, 10 rows: nine
    copies, at y = 1 .. 9. *)
Lemma C5_witness :
  (1 <= 2 /\ 1 <= 1 /\ 0 <= 0 /\
   block_shape (heap a_at_origin 0) = buttons_of 2 1 /\
   assoc (cell_name (heap a_at_origin 0)) (SHAPE_BUTTONS cfg_10x10) =
     Some (block_shape (heap a_at_origin 0))) /\
  (exists st',
    duplicate_block cfg_10x10 0 Vertical 0 a_at_origin = Ok tt st' /\
    block_objects st' =
      block_objects a_at_origin ++
      seq (next_id a_at_origin)
          (List.length (dup_candidates cfg_10x10 a_at_origin 0 Vertical 0 2 1)) /\
    map (heap st') (seq (next_id a_at_origin)
                        (List.length (dup_candidates cfg_10x10 a_at_origin 0 Vertical 0 2 1)))
      = dup_candidates cfg_10x10 a_at_origin 0 Vertical 0 2 1) /\
  map (fun b => (data_x b, data_y b, orientation b))
      (dup_candidates cfg_10x10 a_at_origin 0 Vertical 0 2 1) =
    map (fun y => (0, y, R0)) [1; 2; 3; 4; 5; 6; 7; 8; 9].
Proof.
  split.
  - split; [lia |]. split; [lia |]. split; [lia |].
    split; vm_compute; reflexivity.
  - split.
    + apply (C5_duplicate_block_copies cfg_10x10 a_at_origin 0 Vertical 0 2 1);
        [lia | lia | lia | vm_compute; reflexivity | vm_compute; reflexivity].
    + vm_compute. reflexivity.
Defined.

(** ** Swap *)

Lemma cells_eqb_iff (l1 l2 : list Cell) : cells_eqb l1 l2 = true <-> l1 = l2.
Proof.
  revert l2. induction l1 as [| [a1 b1] l1 IH]; intros [| [a2 b2] l2]; simpl;
    try (split; [discriminate | congruence]).
  - split; reflexivity.
  - unfold cell_eqb. simpl. rewrite !andb_true_iff, Z.eqb_eq, Z.eqb_eq, IH.
    split; [intros [[-> ->] ->]; reflexivity | intros E; inversion E; auto].
Qed.

(** One [swap_block]: with both names in the catalog and the block's cells
    in the grid, it renames the block and redraws it when the footprints are
    equal, and does nothing otherwise. *)
Lemma swap_block_ok (cfg : Cfg) (oid : nat) (target : string) (cur tgt : list Cell) (st : St) :
  assoc (cell_name (heap st oid)) (SHAPE_BUTTONS cfg) = Some cur ->
  assoc target (SHAPE_BUTTONS cfg) = Some tgt ->
  (forall dx dy, In (dx, dy) (block_shape (heap st oid)) ->
     0 <= data_x (heap st oid) + dx < GRID_WIDTH cfg /\
     0 <= data_y (heap st oid) + dy < GRID_HEIGHT cfg) ->
  (cur <> tgt -> swap_block cfg oid target st = Ok tt st) /\
  (cur = tgt -> exists g',
     swap_block cfg oid target st =
     Ok tt (mkSt g' (fun j => if Nat.eqb j oid then rename (heap st oid) target else heap st j)
                 (block_objects st) (selected_blocks st) (selected_shape st) (next_id st))).
Proof.
  intros Hcur Htgt Hin. unfold swap_block, bind, get, lookup_shape.
  rewrite Hcur, Htgt. unfold ret. split.
  - intros Hne. destruct (cells_eqb cur tgt) eqn:E; [| reflexivity].
    apply cells_eqb_iff in E. contradiction.
  - intros <-. replace (cells_eqb cur cur) with true by (symmetry; apply cells_eqb_iff; reflexivity).
    set (st1 := with_heap st (fun j => if Nat.eqb j oid then rename (heap st oid) target
                                       else heap st j)).
    assert (Hb : heap st1 oid = rename (heap st oid) target).
    { simpl. rewrite Nat.eqb_refl. reflexivity. }
    destruct (draw_block_ok cfg oid st1 cur) as (g' & Hrun & _).
    { rewrite Hb. exact Htgt. }
    { rewrite Hb. exact Hin. }
    exists g'. unfold store. fold st1. exact Hrun.
Qed.

(** The loop of [swap_main] over distinct selected blocks. *)
Lemma swap_loop (cfg : Cfg) (target : string) (tgt : list Cell) :
  assoc target (SHAPE_BUTTONS cfg) = Some tgt ->
  forall sel st,
  NoDup sel ->
  (forall j, In j sel -> exists cur, assoc (cell_name (heap st j)) (SHAPE_BUTTONS cfg) = Some cur) ->
  (forall j, In j sel -> forall dx dy, In (dx, dy) (block_shape (heap st j)) ->
     0 <= data_x (heap st j) + dx < GRID_WIDTH cfg /\
     0 <= data_y (heap st j) + dy < GRID_HEIGHT cfg) ->
  exists st',
    for_ sel (fun oid => swap_block cfg oid target) st = Ok tt st' /\
    block_objects st' = block_objects st /\
    selected_blocks st' = selected_blocks st /\
    selected_shape st' = selected_shape st /\
    next_id st' = next_id st /\
    (forall j, heap st' j = if mem j sel then swapped cfg target (heap st j) else heap st j).
Proof.
  intros Htgt sel. induction sel as [| i sel IH]; intros st Hnd Hcat Hin.
  - exists st. repeat split.
  - apply NoDup_cons_iff in Hnd. destruct Hnd as [Hnin Hnd].
    destruct (Hcat i (or_introl eq_refl)) as [cur Hcur].
    destruct (swap_block_ok cfg i target cur tgt st Hcur Htgt (Hin i (or_introl eq_refl)))
      as [Hsame Hswap].
    rewrite for_cons.
    destruct (list_eq_dec cell_eq_dec cur tgt) as [E | N].
    + destruct (Hswap E) as (g' & Hrun).
      rewrite (bind_ok _ _ _ _ _ Hrun).
      set (st1 := mkSt g' _ _ _ _ _).
      assert (Hkeep : forall j, In j sel -> heap st1 j = heap st j).
      { intros j Hj. simpl. replace (Nat.eqb j i) with false; [reflexivity |].
        symmetry. apply Nat.eqb_neq. intros ->. contradiction. }
      destruct (IH st1 Hnd) as (st' & Hrun' & Hbo & Hsel & Hss & Hnext & Hheap).
      { intros j Hj. rewrite Hkeep by exact Hj. apply Hcat. right. exact Hj. }
      { intros j Hj. rewrite Hkeep by exact Hj. apply Hin. right. exact Hj. }
      exists st'. split; [exact Hrun' |].
      split; [exact Hbo |]. split; [exact Hsel |]. split; [exact Hss |].
      split; [exact Hnext |].
      intros j. rewrite Hheap. simpl mem.
      destruct (Nat.eqb j i) eqn:Eji.
      * apply Nat.eqb_eq in Eji. subst j.
        replace (mem i sel) with false.
        -- simpl. rewrite Nat.eqb_refl. unfold swapped. rewrite Hcur, Htgt.
           replace (cells_eqb cur tgt) with true by (symmetry; apply cells_eqb_iff; exact E).
           reflexivity.
        -- symmetry. unfold mem. apply not_true_iff_false. rewrite existsb_exists.
           intros (k & Hk & Ek). apply Nat.eqb_eq in Ek. subst k. contradiction.
      * simpl. rewrite Eji. reflexivity.
    + rewrite (bind_ok _ _ _ _ _ (Hsame N)).
      destruct (IH st Hnd) as (st' & Hrun' & Hbo & Hsel & Hss & Hnext & Hheap).
      { intros j Hj. apply Hcat. right. exact Hj. }
      { intros j Hj. apply Hin. right. exact Hj. }
      exists st'. split; [exact Hrun' |].
      split; [exact Hbo |]. split; [exact Hsel |]. split; [exact Hss |].
      split; [exact Hnext |].
      intros j. rewrite Hheap. simpl mem.
      destruct (Nat.eqb j i) eqn:Eji; [| reflexivity].
      apply Nat.eqb_eq in Eji. subst j. simpl.
      destruct (mem i sel); [reflexivity |].
      unfold swapped. rewrite Hcur, Htgt.
      replace (cells_eqb cur tgt) with false; [reflexivity |].
      symmetry. apply not_true_iff_false. rewrite cells_eqb_iff. exact N.
Qed.

Lemma mem_In (j : nat) (l : list nat) : mem j l = true <-> In j l.
Proof.
  unfold mem. rewrite existsb_exists. split.
  - intros (k & Hk & E). apply Nat.eqb_eq in E. subst k. exact Hk.
  - intros Hj. exists j. split; [exact Hj | apply Nat.eqb_refl].
Qed.

(** C6 (corrected).  [swap_main] makes no selection-count check: with a
    target shape chosen it applies [swap_block] to EVERY selected block.
    For each selected block [B] whose shape name is in the catalog, if the
    catalog footprint list of its shape equals that of the target, only
    [B]'s shape name becomes the target (identity, anchor, orientation and
    footprint kept); otherwise [B] is unchanged.  Unselected blocks, the
    block list and the selection are unchanged. *)
Theorem C6_swap_each_selected (cfg : Cfg) (st : St) (target : string) (tgt : list Cell)
    (Hshape : selected_shape st = Some target)
    (Htgt : assoc target (SHAPE_BUTTONS cfg) = Some tgt)
    (Hnd : NoDup (selected_blocks st))
    (Hcat : forall j, In j (selected_blocks st) ->
       exists cur, assoc (cell_name (heap st j)) (SHAPE_BUTTONS cfg) = Some cur)
    (Hin : forall j, In j (selected_blocks st) -> forall dx dy,
       In (dx, dy) (block_shape (heap st j)) ->
       0 <= data_x (heap st j) + dx < GRID_WIDTH cfg /\
       0 <= data_y (heap st j) + dy < GRID_HEIGHT cfg) :
  exists st',
    swap_main cfg st = Ok tt st' /\
    block_objects st' = block_objects st /\
    selected_blocks st' = selected_blocks st /\
    (forall j cur, In j (selected_blocks st) ->
       assoc (cell_name (heap st j)) (SHAPE_BUTTONS cfg) = Some cur ->
       (cur = tgt -> heap st' j = rename (heap st j) target) /\
       (cur <> tgt -> heap st' j = heap st j)) /\
    (forall j, ~ In j (selected_blocks st) -> heap st' j = heap st j).
Proof.
  destruct (swap_loop cfg target tgt Htgt (selected_blocks st) st Hnd Hcat Hin)
    as (st' & Hrun & Hbo & Hsel & _ & _ & Hheap).
  exists st'. split.
  - unfold swap_main, bind, get. rewrite Hshape.
    destruct (selected_blocks st) as [| i l] eqn:Es.
    + simpl in Hrun. inversion Hrun. subst st'. reflexivity.
    + exact Hrun.
  - split; [exact Hbo |]. split; [exact Hsel |]. split.
    + intros j cur Hj Hcur. rewrite Hheap.
      replace (mem j (selected_blocks st)) with true by (symmetry; apply mem_In; exact Hj).
      unfold swapped. rewrite Hcur, Htgt. split.
      * intros E. replace (cells_eqb cur tgt) with true by (symmetry; apply cells_eqb_iff; exact E).
        reflexivity.
      * intros N. replace (cells_eqb cur tgt) with false; [reflexivity |].
        symmetry. apply not_true_iff_false. rewrite cells_eqb_iff. exact N.
    + intros j Hj. rewrite Hheap.
      replace (mem j (selected_blocks st)) with false; [reflexivity |].
      symmetry. apply not_true_iff_false. rewrite mem_In. exact Hj.
Qed.

Lemma C6_witness :
  (selected_shape uv_two_selected = Some "V" /\
   assoc "V" (SHAPE_BUTTONS cfg_uv) = Some [(0, 0)] /\
   NoDup (selected_blocks uv_two_selected)) /\
  exists st',
    swap_main cfg_uv uv_two_selected = Ok tt st' /\
    block_objects st' = block_objects uv_two_selected /\
    selected_blocks st' = selected_blocks uv_two_selected /\
    (forall j cur, In j (selected_blocks uv_two_selected) ->
       assoc (cell_name (heap uv_two_selected j)) (SHAPE_BUTTONS cfg_uv) = Some cur ->
       (cur = [(0, 0)] -> heap st' j = rename (heap uv_two_selected j) "V") /\
       (cur <> [(0, 0)] -> heap st' j = heap uv_two_selected j)) /\
    (forall j, ~ In j (selected_blocks uv_two_selected) -> heap st' j = heap uv_two_selected j).
Proof.
  split.
  - split; [vm_compute; reflexivity |]. split; [reflexivity |].
    vm_compute. constructor; [simpl; intuition discriminate |].
    constructor; [simpl; tauto | constructor].
  - apply (C6_swap_each_selected cfg_uv uv_two_selected "V" [(0, 0)]).
    + vm_compute. reflexivity.
    + reflexivity.
    + vm_compute. constructor; [simpl; intuition discriminate |].
      constructor; [simpl; tauto | constructor].
    + intros j Hj. vm_compute in Hj. destruct Hj as [<- | [<- | []]];
        eexists; vm_compute; reflexivity.
    + intros j Hj dx dy Hc. vm_compute in Hj.
      destruct Hj as [<- | [<- | []]]; vm_compute in Hc;
        destruct Hc as [E | []]; inversion E; subst; repeat split; vm_compute; congruence.
Defined.

(** Two selected blocks and a swap: no selection-count error, both blocks
    are renamed. *)
Lemma C6_two_selected_both_swapped :
  List.length (selected_blocks uv_two_selected) = 2%nat /\
  match swap_main cfg_uv uv_two_selected with
  | Ok _ st' => cell_name (heap st' 0) = "V" /\ cell_name (heap st' 1) = "V"
  | Raise _ _ => False
  end.
Proof. vm_compute. split; [reflexivity | split; reflexivity]. Qed.

(** ** Move to a spreadsheet coordinate *)

Lemma fold_horner (base : Z) (f : ascii -> Z) (l : list ascii) (a : Z) :
  fold_left (fun acc c => acc * base + f c) l a =
  a * base ^ Z.of_nat (List.length l) + positional base (map f l).
Proof.
  revert a. induction l as [| c l IH]; intros a.
  - simpl. lia.
  - cbn [fold_left]. rewrite IH. cbn [map positional List.length].
    rewrite length_map, Nat2Z.inj_succ, Z.pow_succ_r by lia. ring.
Qed.

Lemma excel_col_to_index_spec (cs : string) : excel_col_to_index cs = col_of_letters cs.
Proof.
  unfold excel_col_to_index, col_of_letters.
  rewrite (fold_horner 26 (fun c => letter_value c + 1)). simpl. reflexivity.
Qed.

Lemma digits_value_spec (ds : string) : digits_value ds - 1 = row_of_digits ds.
Proof.
  unfold digits_value, row_of_digits.
  rewrite (fold_horner 10 digit_value). reflexivity.
Qed.

Lemma string_app_nil_r (s : string) : (s ++ "")%string = s.
Proof. induction s as [| c s IH]; simpl; [reflexivity | rewrite IH; reflexivity]. Qed.

Lemma span_app (p : ascii -> bool) (s1 s2 : string) :
  (forall c, In c (list_ascii_of_string s1) -> p c = true) ->
  span p (s1 ++ s2) = ((s1 ++ fst (span p s2))%string, snd (span p s2)).
Proof.
  induction s1 as [| c s1 IH]; intros Hp.
  - simpl. destruct (span p s2); reflexivity.
  - simpl. rewrite (Hp c (or_introl eq_refl)).
    rewrite IH by (intros c' H'; apply Hp; right; exact H'). reflexivity.
Qed.

Lemma match_target_app (cs ds : string) :
  cs <> "" -> ds <> "" ->
  (forall c, In c (list_ascii_of_string cs) -> is_letter c = true) ->
  (forall c, In c (list_ascii_of_string ds) -> is_digit c = true) ->
  match_target (cs ++ ds) = Some (cs, ds).
Proof.
  intros Hcs Hds Hl Hd. unfold match_target.
  rewrite (span_app is_letter cs ds Hl).
  assert (Hsd : span is_letter ds = ("", ds)).
  { destruct ds as [| c ds']; [congruence |].
    assert (Hc := Hd c (or_introl eq_refl)). simpl.
    replace (is_letter c) with false; [reflexivity |].
    symmetry. revert Hc. unfold is_letter, is_digit.
    destruct (nat_of_ascii c) as [| n]; [discriminate |].
    intros Hc. apply andb_true_iff in Hc. destruct Hc as [H1 H2].
    apply Nat.leb_le in H1, H2.
    apply orb_false_iff. split; apply andb_false_iff; left; apply Nat.leb_gt; lia. }
  rewrite Hsd. simpl fst. simpl snd. rewrite string_app_nil_r.
  assert (Hdd : span is_digit ds = (ds, "")).
  { rewrite <- (string_app_nil_r ds) at 1. rewrite (span_app is_digit ds "" Hd).
    simpl. rewrite string_app_nil_r. reflexivity. }
  rewrite Hdd.
  destruct cs as [| c cs']; [congruence |].
  destruct ds as [| d ds']; [congruence |].
  reflexivity.
Qed.

Lemma can_move_to_iff (cfg : Cfg) (st : St) (oid : nat) (col row : Z) :
  can_move_to cfg st (col - data_x (heap st oid)) (row - data_y (heap st oid)) oid = true <->
  target_free cfg st oid col row.
Proof.
  unfold can_move_to, target_free. rewrite forallb_forall. split.
  - intros Hall dx dy Hin. specialize (Hall _ Hin). cbv beta iota in Hall.
    replace (data_x (heap st oid) + dx + (col - data_x (heap st oid))) with (col + dx) in Hall
      by lia.
    replace (data_y (heap st oid) + dy + (row - data_y (heap st oid))) with (row + dy) in Hall
      by lia.
    destruct ((0 <=? col + dx) && (col + dx <? GRID_WIDTH cfg) && (0 <=? row + dy) &&
              (row + dy <? GRID_HEIGHT cfg)) eqn:Eb; simpl in Hall; [| discriminate].
    repeat rewrite andb_true_iff in Eb.
    destruct Eb as [[[E1 E2] E3] E4].
    apply Z.leb_le in E1, E3. apply Z.ltb_lt in E2, E4.
    split; [lia |]. split; [lia |].
    destruct (grid_state st (col + dx) (row + dy)) as [i |].
    + right. apply Nat.eqb_eq in Hall. subst i. reflexivity.
    + left. reflexivity.
  - intros Hfree [dx dy] Hin. destruct (Hfree dx dy Hin) as (Hx & Hy & Hg).
    replace (data_x (heap st oid) + dx + (col - data_x (heap st oid))) with (col + dx) by lia.
    replace (data_y (heap st oid) + dy + (row - data_y (heap st oid))) with (row + dy) by lia.
    replace ((0 <=? col + dx) && (col + dx <? GRID_WIDTH cfg) && (0 <=? row + dy) &&
             (row + dy <? GRID_HEIGHT cfg)) with true.
    + simpl. destruct Hg as [-> | ->]; [reflexivity | apply Nat.eqb_refl].
    + symmetry. repeat rewrite andb_true_iff.
      repeat split; [apply Z.leb_le | apply Z.ltb_lt | apply Z.leb_le | apply Z.ltb_lt]; lia.
Qed.

(** C7 (confirmed).  For a target made of letters followed by digits and a
    single selected block [oid] whose name is in the catalog and whose cells
    are in the grid, [move_to] decodes the column as [col_of_letters] (base 26,
    A = 0, Z = 25, AA = 26) and the row as the 1-indexed decimal number minus
    one; if every footprint cell at the target is in the grid and empty or
    held by [oid], the block is moved there (old cells cleared unless
    re-covered, new cells marked [oid]) and [move_to] answers [True];
    otherwise it answers [False] and nothing changes. *)
Theorem C7_move_to_spec (cfg : Cfg) (st : St) (oid : nat) (cs ds : string) (bs : list Cell)
    (Hsel : selected_blocks st = [oid])
    (Hcs : cs <> "") (Hds : ds <> "")
    (Hl : forall c, In c (list_ascii_of_string cs) -> is_letter c = true)
    (Hd : forall c, In c (list_ascii_of_string ds) -> is_digit c = true)
    (Hcat : assoc (cell_name (heap st oid)) (SHAPE_BUTTONS cfg) = Some bs)
    (Hold : forall dx dy, In (dx, dy) (block_shape (heap st oid)) ->
       0 <= data_x (heap st oid) + dx < GRID_WIDTH cfg /\
       0 <= data_y (heap st oid) + dy < GRID_HEIGHT cfg) :
  (target_free cfg st oid (col_of_letters cs) (row_of_digits ds) ->
   exists g',
     move_to cfg (cs ++ ds) st =
     Ok true (mkSt g'
                   (fun j => if Nat.eqb j oid
                             then update_location (heap st oid) (col_of_letters cs) (row_of_digits ds)
                             else heap st j)
                   (block_objects st) (selected_blocks st) (selected_shape st) (next_id st)) /\
     (forall dx dy, In (dx, dy) (block_shape (heap st oid)) ->
        g' (col_of_letters cs + dx) (row_of_digits ds + dy) = Some oid) /\
     (forall x y,
        (forall dx dy, In (dx, dy) (block_shape (heap st oid)) ->
           x <> col_of_letters cs + dx \/ y <> row_of_digits ds + dy) ->
        g' x y = if existsb (fun '(dx, dy) => (x =? data_x (heap st oid) + dx) &&
                                              (y =? data_y (heap st oid) + dy))
                            (block_shape (heap st oid))
                 then None else grid_state st x y)) /\
  (~ target_free cfg st oid (col_of_letters cs) (row_of_digits ds) ->
   move_to cfg (cs ++ ds) st = Ok false st).
Proof.
  assert (Hm : match_target (cs ++ ds) = Some (cs, ds)) by (apply match_target_app; assumption).
  assert (Hne : String.eqb (cs ++ ds) "" = false).
  { destruct cs; [congruence | reflexivity]. }
  split; intros Hc;
    unfold move_to, bind at 1, get; rewrite Hsel, Hne, Hm;
    rewrite excel_col_to_index_spec, digits_value_spec; cbv beta iota zeta.
  - rename Hc into Hfree. apply can_move_to_iff in Hfree. rewrite Hfree. cbn [negb].
    replace (data_x (heap st oid) + (col_of_letters cs - data_x (heap st oid)))
      with (col_of_letters cs) by lia.
    replace (data_y (heap st oid) + (row_of_digits ds - data_y (heap st oid)))
      with (row_of_digits ds) by lia.
    apply can_move_to_iff in Hfree.
    destruct (for_set_cells cfg (data_x (heap st oid)) (data_y (heap st oid)) None
                (block_shape (heap st oid)) st Hold) as (g1 & Hrun1 & Hout1 & Hon1).
    rewrite (bind_ok _ _ _ _ _ Hrun1).
    set (b' := update_location (heap st oid) (col_of_letters cs) (row_of_digits ds)).
    set (st2 := with_heap (with_grid st g1)
                  (fun j => if Nat.eqb j oid then b' else heap (with_grid st g1) j)).
    rewrite (bind_ok (store oid b') _ (with_grid st g1) st2 tt eq_refl).
    assert (Hb : heap st2 oid = b') by (simpl; rewrite Nat.eqb_refl; reflexivity).
    destruct (draw_block_ok cfg oid st2 bs) as (g' & Hrun & Hout & Hon).
    { rewrite Hb. exact Hcat. }
    { rewrite Hb. intros dx dy Hin. destruct (Hfree dx dy Hin) as (Hx & Hy & _).
      split; assumption. }
    rewrite Hb in Hout, Hon.
    exists g'. split; [| split].
    + rewrite (bind_ok _ _ _ _ _ Hrun). unfold ret, st2, with_grid, with_heap. simpl. rewrite Hsel. reflexivity.
    + intros dx dy Hin. exact (Hon dx dy Hin).
    + intros x y Hnot. rewrite Hout by exact Hnot. simpl.
      destruct (existsb _ _) eqn:Ex.
      * apply existsb_exists in Ex. destruct Ex as ([dx dy] & Hin & Ex).
        apply andb_true_iff in Ex. destruct Ex as [Ex Ey].
        apply Z.eqb_eq in Ex, Ey. subst x y. apply Hon1. exact Hin.
      * apply Hout1. intros dx dy Hin.
        assert (Hc : ((x =? data_x (heap st oid) + dx) && (y =? data_y (heap st oid) + dy))
                     = false).
        { apply not_true_iff_false. intros Ht. rewrite <- not_true_iff_false in Ex.
          apply Ex. apply existsb_exists. exists (dx, dy). split; [exact Hin | exact Ht]. }
        apply andb_false_iff in Hc. destruct Hc as [Hc | Hc]; [left | right];
          apply Z.eqb_neq; exact Hc.
  - rename Hc into Hnot. destruct (can_move_to cfg st (col_of_letters cs - data_x (heap st oid)) (row_of_digits ds - data_y (heap st oid)) oid) eqn:E.
    + exfalso. apply Hnot. apply can_move_to_iff. exact E.
    + reflexivity.
Qed.

(** The column decoding on the spec's examples, a move of "A" to "c3", and a
    refused move to "J1", where the right cell would be column 10. *)
Lemma C7_witness :
  (excel_col_to_index "A" = 0 /\ excel_col_to_index "Z" = 25 /\
   excel_col_to_index "AA" = 26 /\ excel_col_to_index "aa" = 26 /\
   excel_col_to_index "ZZ" = 701 /\ excel_col_to_index "AAA" = 702 /\
   col_of_letters "c" = 2 /\ row_of_digits "3" = 2 /\ row_of_digits "42" = 41) /\
  (exists g',
     move_to cfg_10x10 ("c" ++ "3") a_selected =
     Ok true (mkSt g'
                   (fun j => if Nat.eqb j 0
                             then update_location (heap a_selected 0)
                                    (col_of_letters "c") (row_of_digits "3")
                             else heap a_selected j)
                   (block_objects a_selected) (selected_blocks a_selected)
                   (selected_shape a_selected) (next_id a_selected)) /\
     (forall dx dy, In (dx, dy) (block_shape (heap a_selected 0)) ->
        g' (col_of_letters "c" + dx) (row_of_digits "3" + dy) = Some 0%nat) /\
     (forall x y,
        (forall dx dy, In (dx, dy) (block_shape (heap a_selected 0)) ->
           x <> col_of_letters "c" + dx \/ y <> row_of_digits "3" + dy) ->
        g' x y = if existsb (fun '(dx, dy) => (x =? data_x (heap a_selected 0) + dx) &&
                                              (y =? data_y (heap a_selected 0) + dy))
                            (block_shape (heap a_selected 0))
                 then None else grid_state a_selected x y)) /\
  move_to cfg_10x10 ("J" ++ "1") a_selected = Ok false a_selected.
Proof.
  split; [repeat split; vm_compute; reflexivity |].
  assert (Hin : forall dx dy, In (dx, dy) (block_shape (heap a_selected 0)) ->
            (dx, dy) = (0, 0) \/ (dx, dy) = (1, 0)).
  { intros dx dy H. vm_compute in H. destruct H as [E | [E | []]]; [left | right]; exact (eq_sym E). }
  assert (Hold : forall dx dy, In (dx, dy) (block_shape (heap a_selected 0)) ->
            0 <= data_x (heap a_selected 0) + dx < GRID_WIDTH cfg_10x10 /\
            0 <= data_y (heap a_selected 0) + dy < GRID_HEIGHT cfg_10x10).
  { intros dx dy H. destruct (Hin dx dy H) as [E | E]; inversion E; subst;
      repeat split; vm_compute; congruence. }
  split.
  - apply (C7_move_to_spec cfg_10x10 a_selected 0 "c" "3" [(0, 0); (1, 0)]).
    + vm_compute. reflexivity.
    + discriminate.
    + discriminate.
    + intros c Hc. destruct Hc as [<- | []]. reflexivity.
    + intros c Hc. destruct Hc as [<- | []]. reflexivity.
    + vm_compute. reflexivity.
    + exact Hold.
    + intros dx dy H. destruct (Hin dx dy H) as [E | E]; inversion E; subst;
        (split; [| split]); [| | left | | | left]; vm_compute; try reflexivity; try congruence;
        split; congruence.
  - apply (C7_move_to_spec cfg_10x10 a_selected 0 "J" "1" [(0, 0); (1, 0)]).
    + vm_compute. reflexivity.
    + discriminate.
    + discriminate.
    + intros c Hc. destruct Hc as [<- | []]. reflexivity.
    + intros c Hc. destruct Hc as [<- | []]. reflexivity.
    + vm_compute. reflexivity.
    + exact Hold.
    + intros Hf.
      assert (Hr : In (1, 0) (block_shape (heap a_selected 0))) by (vm_compute; right; left; reflexivity).
      destruct (Hf 1 0 Hr) as ((_ & Hx) & _).
      assert (E : col_of_letters "J" = 9) by (vm_compute; reflexivity).
      rewrite E in Hx. vm_compute in Hx. discriminate.
Defined.

(** ** Saving and loading *)

Lemma for_app {A} (l1 l2 : list A) (body : A -> M St unit) (st : St) :
  for_ (l1 ++ l2) body st = bind (for_ l1 body) (fun _ => for_ l2 body) st.
Proof.
  revert st. induction l1 as [| v l1 IH]; intros st; [reflexivity |].
  cbn [app for_]. unfold bind at 1 2 3.
  destruct (body v st) as [u st1 | e st1]; [| reflexivity].
  apply IH.
Qed.

Lemma load_entry_ok (cfg : Cfg) (v : Entry) (st : St) :
  loadable cfg v ->
  exists g',
    load_entry cfg v st =
    Ok tt (mkSt g' (fun j => if Nat.eqb j (next_id st)
                             then mkBlock (e_cell_name v) (e_x v) (e_y v) (e_orientation v)
                                          (match assoc (e_cell_name v) (SHAPE_BUTTONS cfg) with
                                           | Some bs => bs | None => [] end)
                             else heap st j)
                (block_objects st ++ [next_id st]) (selected_blocks st) (selected_shape st)
                (S (next_id st))).
Proof.
  intros (bs & Hcat & Hne & Hin). rewrite Hcat.
  unfold load_entry. unfold bind at 1, lookup_shape. rewrite Hcat. unfold ret.
  rewrite (bind_ok _ _ _ _ _ (new_block_ok _ _ _ bs _ st Hne)).
  set (st1 := mkSt _ _ _ _ _ _).
  assert (Hb : heap st1 (next_id st) = mkBlock (e_cell_name v) (e_x v) (e_y v) (e_orientation v) bs)
    by (simpl; rewrite Nat.eqb_refl; reflexivity).
  destruct (draw_block_ok cfg (next_id st) st1 bs) as (g' & Hrun & _).
  { rewrite Hb. exact Hcat. }
  { rewrite Hb. exact Hin. }
  exists g'. rewrite (bind_ok _ _ _ _ _ Hrun). reflexivity.
Qed.

Lemma load_pass (cfg : Cfg) (p : Entry -> bool) :
  forall (db : list (nat * Entry)) (st : St),
  (forall k v, In (k, v) db -> p v = true -> loadable cfg v) ->
  exists st',
    for_ db (fun '(_, v) => if p v then load_entry cfg v else ret tt) st = Ok tt st' /\
    block_objects st' =
      block_objects st ++ seq (next_id st) (List.length (filter p (map snd db))) /\
    map (fun k => entry_of (heap st' k)) (seq (next_id st) (List.length (filter p (map snd db))))
      = filter p (map snd db) /\
    next_id st' = (next_id st + List.length (filter p (map snd db)))%nat /\
    selected_blocks st' = selected_blocks st /\
    (forall j, (j < next_id st)%nat -> heap st' j = heap st j).
Proof.
  induction db as [| [k v] db IH]; intros st Hl.
  - exists st. simpl. rewrite app_nil_r. repeat split; lia.
  - rewrite for_cons. cbv beta iota. simpl map. simpl filter.
    destruct (p v) eqn:Hp.
    + destruct (load_entry_ok cfg v st (Hl k v (or_introl eq_refl) Hp)) as (g' & Hrun).
      rewrite (bind_ok _ _ _ _ _ Hrun).
      set (st1 := mkSt g' _ _ _ _ _).
      destruct (IH st1) as (st' & Hrun' & Hbo & Hent & Hnext & Hsel & Hkeep).
      { intros k' v' H' Hp'. apply (Hl k' v'); [right; exact H' | exact Hp']. }
      exists st'. simpl List.length. split; [exact Hrun' |].
      split; [| split; [| split; [| split]]].
      * rewrite Hbo. simpl. rewrite <- app_assoc. reflexivity.
      * simpl seq. simpl map. f_equal; [| exact Hent].
        rewrite Hkeep by (simpl; lia). simpl. rewrite Nat.eqb_refl.
        destruct v; reflexivity.
      * rewrite Hnext. simpl. lia.
      * rewrite Hsel. reflexivity.
      * intros j Hj. rewrite Hkeep by (simpl; lia). simpl.
        replace (Nat.eqb j (next_id st)) with false by (symmetry; apply Nat.eqb_neq; lia).
        reflexivity.
    + rewrite (bind_ok (ret tt) _ st st tt eq_refl).
      apply IH. intros k' v' H' Hp'. apply (Hl k' v'); [right; exact H' | exact Hp'].
Qed.

Lemma filter_split_length {A} (p : A -> bool) (l : list A) :
  (List.length (filter p l) + List.length (filter (fun x => negb (p x)) l))%nat = List.length l.
Proof. induction l as [| a l IH]; simpl; [reflexivity |]. destruct (p a); simpl; lia. Qed.

Lemma filter_split_perm {A} (p : A -> bool) (l : list A) :
  Permutation (filter p l ++ filter (fun x => negb (p x)) l) l.
Proof.
  induction l as [| a l IH]; simpl; [constructor |].
  destruct (p a); simpl.
  - constructor. exact IH.
  - apply Permutation_sym, Permutation_cons_app, Permutation_sym. exact IH.
Qed.

Lemma save_entries (st : St) :
  map snd (save_to_file st) = map (fun k => entry_of (heap st k)) (block_objects st).
Proof. unfold save_to_file. rewrite map_map. reflexivity. Qed.

(** Both passes of [load_from_file] over a database whose records of each
    pass are loadable. *)
Lemma load_from_file_ok (cfg : Cfg) (db : list (nat * Entry)) (st0 : St) :
  (forall k v, In (k, v) db -> loadable cfg v) ->
  exists st',
    load_from_file cfg db st0 = Ok tt st' /\
    block_objects st' = seq (next_id st0) (List.length db) /\
    map (fun k => entry_of (heap st' k)) (block_objects st') =
      filter is_blockage (map snd db) ++ filter (fun v => negb (is_blockage v)) (map snd db).
Proof.
  intros Hl. unfold load_from_file. unfold bind at 1, get.
  set (st1 := mkSt empty_grid (heap st0) [] [] (selected_shape st0) (next_id st0)).
  rewrite (bind_ok (put st1) _ st0 st1 tt eq_refl).
  destruct (load_pass cfg is_blockage db st1) as (st2 & Hrun2 & Hbo2 & Hent2 & Hnext2 & _ & _).
  { intros k v H _. exact (Hl k v H). }
  rewrite (bind_ok _ _ _ _ _ Hrun2).
  destruct (load_pass cfg (fun v => negb (is_blockage v)) db st2)
    as (st3 & Hrun3 & Hbo3 & Hent3 & _ & _ & Hkeep3).
  { intros k v H _. exact (Hl k v H). }
  exists st3. split; [exact Hrun3 |].
  assert (Hlen := filter_split_length is_blockage (map snd db)).
  rewrite length_map in Hlen.
  change (next_id st1) with (next_id st0) in Hbo2, Hent2, Hnext2.
  change (block_objects st1) with (@nil nat) in Hbo2.
  rewrite app_nil_l in Hbo2. rewrite Hnext2 in Hbo3, Hent3, Hkeep3.
  split.
  - rewrite Hbo3, Hbo2, <- (seq_app (List.length (filter is_blockage (map snd db)))), Hlen.
    reflexivity.
  - rewrite Hbo3, Hbo2, map_app, Hent3.
    f_equal. etransitivity; [| exact Hent2]. apply map_ext_in. intros j Hj.
    apply in_seq in Hj. rewrite Hkeep3 by lia. reflexivity.
Qed.

(** C8 (confirmed).  Saving a session whose blocks all have their catalog
    footprint (non-empty, in the grid at their anchors) and loading the file
    into any session succeeds; the loaded blocks get fresh ids and their
    [(cell_name, x, y, orientation)] records are a permutation of the saved
    ones (Blockage records come first on reload). *)
Theorem C8_save_load_round_trip (cfg : Cfg) (st st0 : St)
    (Hok : forall k, In k (block_objects st) ->
       assoc (cell_name (heap st k)) (SHAPE_BUTTONS cfg) = Some (block_shape (heap st k)) /\
       block_shape (heap st k) <> [] /\
       forall dx dy, In (dx, dy) (block_shape (heap st k)) ->
         0 <= data_x (heap st k) + dx < GRID_WIDTH cfg /\
         0 <= data_y (heap st k) + dy < GRID_HEIGHT cfg) :
  exists st',
    load_from_file cfg (save_to_file st) st0 = Ok tt st' /\
    block_objects st' = seq (next_id st0) (List.length (block_objects st)) /\
    Permutation (map (fun k => entry_of (heap st' k)) (block_objects st'))
                (map (fun k => entry_of (heap st k)) (block_objects st)).
Proof.
  destruct (load_from_file_ok cfg (save_to_file st) st0) as (st' & Hrun & Hbo & Hent).
  { intros k v H. unfold save_to_file in H. apply in_map_iff in H.
    destruct H as (k0 & E & Hk0). inversion E; subst k v.
    destruct (Hok k0 Hk0) as (Hcat & Hne & Hin).
    exists (block_shape (heap st k0)). split; [exact Hcat |]. split; [exact Hne | exact Hin]. }
  exists st'. split; [exact Hrun |]. split.
  - rewrite Hbo. unfold save_to_file. rewrite length_map. reflexivity.
  - rewrite Hent, save_entries. apply filter_split_perm.
Qed.

(** C9 (corrected).  A record whose shape name is not in the catalog is not
    skipped: [load_from_file] raises [KeyError] when the pass that handles
    it reaches it (for a non-Blockage record, the second pass).  The records
    loaded before it stay loaded (all Blockage records, then the
    non-Blockage records before it); the records after it are not loaded. *)
Theorem C9_unknown_name_raises (cfg : Cfg) (st0 : St) (db pre post : list (nat * Entry))
    (k : nat) (v : Entry)
    (Hdb : db = pre ++ (k, v) :: post)
    (Hunk : assoc (e_cell_name v) (SHAPE_BUTTONS cfg) = None)
    (Hnb : is_blockage v = false)
    (Hblk : forall k' v', In (k', v') db -> is_blockage v' = true -> loadable cfg v')
    (Hpre : forall k' v', In (k', v') pre -> is_blockage v' = false -> loadable cfg v') :
  exists st',
    load_from_file cfg db st0 = Raise KeyError st' /\
    map (fun j => entry_of (heap st' j)) (block_objects st') =
      filter is_blockage (map snd db) ++ filter (fun v' => negb (is_blockage v')) (map snd pre).
Proof.
  unfold load_from_file. unfold bind at 1, get.
  set (st1 := mkSt empty_grid (heap st0) [] [] (selected_shape st0) (next_id st0)).
  rewrite (bind_ok (put st1) _ st0 st1 tt eq_refl).
  destruct (load_pass cfg is_blockage db st1) as (st2 & Hrun2 & Hbo2 & Hent2 & Hnext2 & _ & _).
  { exact Hblk. }
  rewrite (bind_ok _ _ _ _ _ Hrun2).
  rewrite Hdb, for_app.
  destruct (load_pass cfg (fun v' => negb (is_blockage v')) pre st2)
    as (st3 & Hrun3 & Hbo3 & Hent3 & _ & _ & Hkeep3).
  { intros k' v' H' Hp. apply (Hpre k' v' H'). apply negb_true_iff. exact Hp. }
  rewrite (bind_ok _ _ _ _ _ Hrun3).
  exists st3. split.
  - rewrite for_cons. cbv beta iota. unfold is_blockage in Hnb. rewrite Hnb. simpl negb.
    cbv iota. unfold bind, load_entry, lookup_shape. rewrite Hunk. reflexivity.
  - rewrite <- Hdb.
    change (next_id st1) with (next_id st0) in Hbo2, Hent2, Hnext2.
    change (block_objects st1) with (@nil nat) in Hbo2.
    rewrite app_nil_l in Hbo2. rewrite Hnext2 in Hbo3, Hent3, Hkeep3.
    rewrite Hbo3, Hbo2, map_app, Hent3.
    f_equal. etransitivity; [| exact Hent2]. apply map_ext_in. intros j Hj.
    apply in_seq in Hj. rewrite Hkeep3 by lia. reflexivity.
Qed.

(** Saving [session_blk] and loading it back into the same session. *)
Lemma C8_witness :
  (exists st',
    load_from_file cfg_blk (save_to_file session_blk) session_blk = Ok tt st' /\
    block_objects st' =
      seq (next_id session_blk) (List.length (block_objects session_blk)) /\
    Permutation (map (fun k => entry_of (heap st' k)) (block_objects st'))
                (map (fun k => entry_of (heap session_blk k)) (block_objects session_blk))) /\
  map (fun k => entry_of (heap session_blk k)) (block_objects session_blk) =
    [mkEntry "U" 0 0 R0; mkEntry "Blockage" 1 0 R0; mkEntry "U" 2 1 R0].
Proof.
  split; [| vm_compute; reflexivity].
  apply (C8_save_load_round_trip cfg_blk session_blk session_blk).
  intros k Hk. vm_compute in Hk. destruct Hk as [<- | [<- | [<- | []]]];
    (split; [vm_compute; reflexivity | split; [vm_compute; discriminate |]]);
    intros dx dy Hin; vm_compute in Hin; destruct Hin as [E | []]; inversion E; subst;
    repeat split; vm_compute; congruence.
Defined.

(** Loading [bad_db] from a fresh session: [KeyError] at the "Q" record,
    with the first "U" loaded. *)
Lemma C9_witness :
  exists st',
    load_from_file cfg_row3 bad_db init_state = Raise KeyError st' /\
    map (fun j => entry_of (heap st' j)) (block_objects st') =
      filter is_blockage (map snd bad_db) ++
      filter (fun v' => negb (is_blockage v')) (map snd [(0%nat, mkEntry "U" 0 0 R0)]).
Proof.
  apply (C9_unknown_name_raises cfg_row3 init_state bad_db [(0%nat, mkEntry "U" 0 0 R0)]
           [(2%nat, mkEntry "U" 2 0 R0)] 1 (mkEntry "Q" 1 0 R0)).
  - reflexivity.
  - reflexivity.
  - reflexivity.
  - intros k' v' H' Hb. simpl in H'.
    destruct H' as [E | [E | [E | []]]]; inversion E; subst; discriminate.
  - intros k' v' H' _. simpl in H'. destruct H' as [E | []]. inversion E; subst.
    exists [(0, 0)]. split; [reflexivity |]. split; [discriminate |].
    intros dx dy Hin. destruct Hin as [E' | []]. inversion E'; subst.
    simpl. lia.
Defined.

(** The unknown record is not skipped: the exception escapes [load_from_file]
    and the third record, whose shape "U" is in the catalog, is not loaded. *)
Lemma C9_unknown_record_escapes :
  assoc "U" (SHAPE_BUTTONS cfg_row3) <> None /\
  match load_from_file cfg_row3 bad_db init_state with
  | Raise KeyError st' =>
      map (fun j => entry_of (heap st' j)) (block_objects st') = [mkEntry "U" 0 0 R0]
  | _ => False
  end.
Proof. split; [discriminate | vm_compute; reflexivity]. Qed.

(** * Further properties of the code *)

Lemma footprint_dec (bs : list Cell) (X Y x y : Z) :
  (exists dx dy, In (dx, dy) bs /\ x = X + dx /\ y = Y + dy) \/
  (forall dx dy, In (dx, dy) bs -> x <> X + dx \/ y <> Y + dy).
Proof.
  induction bs as [| [a b] bs IH].
  - right. intros ? ? [].
  - destruct (Z.eq_dec x (X + a)) as [Ex | Nx]; [destruct (Z.eq_dec y (Y + b)) as [Ey | Ny] |].
    + left. exists a, b. split; [left; reflexivity | split; assumption].
    + destruct IH as [(dx & dy & Hin & E1 & E2) | Hall].
      * left. exists dx, dy. split; [right; exact Hin | split; assumption].
      * right. intros dx dy [E | Hin]; [inversion E; subst; right; exact Ny | exact (Hall dx dy Hin)].
    + destruct IH as [(dx & dy & Hin & E1 & E2) | Hall].
      * left. exists dx, dy. split; [right; exact Hin | split; assumption].
      * right. intros dx dy [E | Hin]; [inversion E; subst; left; exact Nx | exact (Hall dx dy Hin)].
Qed.

Lemma wf_init (cfg : Cfg) : wf cfg init_state.
Proof.
  split; [intros x y H; exfalso; apply H; reflexivity |].
  split; [split; [intros x y i H; discriminate | intros i dx dy []] |].
  split; [intros i H; simpl in H; lia |].
  split; intros i [].
Qed.

(** A registered block's cells are in the grid. *)
Lemma wf_footprint_in (cfg : Cfg) (st : St) (i : nat) (dx dy : Z) :
  wf cfg st -> In i (block_objects st) -> In (dx, dy) (block_shape (heap st i)) ->
  0 <= data_x (heap st i) + dx < GRID_WIDTH cfg /\ 0 <= data_y (heap st i) + dy < GRID_HEIGHT cfg.
Proof.
  intros (Hb & (_ & Hag) & _) Hi Hin. apply Hb. rewrite (Hag i dx dy Hi Hin). discriminate.
Qed.

(** Redrawing a block whose cells are in the grid and already hold its id
    leaves the grid as it is. *)
Lemma redraw_same (cfg : Cfg) (st : St) (oid : nat) (bs : list Cell) :
  assoc (cell_name (heap st oid)) (SHAPE_BUTTONS cfg) = Some bs ->
  (forall dx dy, In (dx, dy) (block_shape (heap st oid)) ->
     0 <= data_x (heap st oid) + dx < GRID_WIDTH cfg /\
     0 <= data_y (heap st oid) + dy < GRID_HEIGHT cfg) ->
  (forall dx dy, In (dx, dy) (block_shape (heap st oid)) ->
     grid_state st (data_x (heap st oid) + dx) (data_y (heap st oid) + dy) = Some oid) ->
  exists g', draw_block cfg oid st = Ok tt (with_grid st g') /\
             forall x y, g' x y = grid_state st x y.
Proof.
  intros Hcat Hin Hmark.
  destruct (draw_block_ok cfg oid st bs Hcat Hin) as (g' & Hrun & Hout & Hon).
  exists g'. split; [exact Hrun |]. intros x y.
  destruct (footprint_dec (block_shape (heap st oid)) (data_x (heap st oid)) (data_y (heap st oid)) x y)
    as [(dx & dy & H & -> & ->) | Hall].
  - rewrite (Hon dx dy H), (Hmark dx dy H). reflexivity.
  - apply Hout. exact Hall.
Qed.

(** Creating, drawing and registering a block at a legal location keeps the
    session well formed; only the block's cells change, to its new id. *)
Lemma add_block_wf (cfg : Cfg) (name : string) (x y : Z) (bs : list Cell) (o : Orientation) (st : St) :
  wf cfg st -> assoc name (SHAPE_BUTTONS cfg) = Some bs -> bs <> [] ->
  legal_cells cfg (grid_state st) x y bs = true ->
  exists st',
    (oid <- new_block name x y bs o ;; draw_block cfg oid ;; register oid) st = Ok tt st' /\
    wf cfg st' /\
    block_objects st' = block_objects st ++ [next_id st] /\
    selected_blocks st' = selected_blocks st /\
    selected_shape st' = selected_shape st /\
    next_id st' = S (next_id st) /\
    heap st' (next_id st) = mkBlock name x y o bs /\
    (forall j, j <> next_id st -> heap st' j = heap st j) /\
    (forall dx dy, In (dx, dy) bs -> grid_state st' (x + dx) (y + dy) = Some (next_id st)) /\
    (forall a b, (forall dx dy, In (dx, dy) bs -> a <> x + dx \/ b <> y + dy) ->
       grid_state st' a b = grid_state st a b).
Proof.
  intros Hwf Hcat Hne Hl.
  destruct Hwf as (Hbd & (Hag1 & Hag2) & Hcons & Hbo & Hsel).
  rewrite (bind_ok _ _ _ _ _ (new_block_ok name x y bs o st Hne)).
  set (n := next_id st).
  set (h' := fun j => if Nat.eqb j n then mkBlock name x y o bs else heap st j).
  set (st1 := mkSt (grid_state st) h' (block_objects st) (selected_blocks st) (selected_shape st) (S n)).
  assert (Hb : heap st1 n = mkBlock name x y o bs) by (unfold st1, h'; cbn [heap]; rewrite Nat.eqb_refl; reflexivity).
  assert (Hlg := legal_cells_true cfg _ _ _ _ Hl).
  destruct (draw_block_ok cfg n st1 bs) as (g' & Hrun & Hout & Hon).
  { rewrite Hb. exact Hcat. }
  { rewrite Hb. intros dx dy Hin. destruct (Hlg dx dy Hin) as (H1 & H2 & _). split; assumption. }
  rewrite Hb in Hout, Hon. simpl in Hout, Hon.
  rewrite (bind_ok _ _ _ _ _ Hrun).
  assert (Hkeep : forall j, j <> n -> h' j = heap st j).
  { intros j Hj. unfold h'. apply Nat.eqb_neq in Hj. rewrite Hj. reflexivity. }
  eexists. split; [reflexivity |].
  unfold wf, grid_agrees, with_block_objects, with_grid, st1.
  cbn [heap grid_state block_objects selected_blocks selected_shape next_id].
  split; [| split; [reflexivity | split; [reflexivity | split; [reflexivity | split; [reflexivity |]]]]].
  2: { split; [exact Hb |]. split; [exact Hkeep |]. split; [exact Hon | exact Hout]. }
  split; [| split; [split |]].
  - intros a b Hnn.
    destruct (footprint_dec bs x y a b) as [(dx & dy & H & -> & ->) | Hall].
    + destruct (Hlg dx dy H) as (H1 & H2 & _). split; assumption.
    + apply Hbd. rewrite <- (Hout a b Hall). exact Hnn.
  - intros a b i Hg.
    destruct (footprint_dec bs x y a b) as [(dx & dy & H & -> & ->) | Hall].
    + rewrite Hon in Hg by exact H. inversion Hg; subst i.
      split; [apply in_or_app; right; left; reflexivity |].
      unfold h'. rewrite Nat.eqb_refl. exists dx, dy. simpl. split; [exact H | split; reflexivity].
    + rewrite Hout in Hg by exact Hall. destruct (Hag1 a b i Hg) as (Hi & Hw).
      assert (Hin : i <> n) by (specialize (Hbo i Hi); unfold n; lia).
      split; [apply in_or_app; left; exact Hi |]. rewrite Hkeep by exact Hin. exact Hw.
  - intros i dx dy Hi Hin. apply in_app_or in Hi. destruct Hi as [Hi | [<- | []]].
    + assert (Hni : i <> n) by (specialize (Hbo i Hi); unfold n; lia).
      rewrite Hkeep in Hin |- * by exact Hni.
      assert (Hm := Hag2 i dx dy Hi Hin).
      rewrite Hout; [exact Hm |].
      intros dx' dy' H'. destruct (Hlg dx' dy' H') as (_ & _ & Hf).
      destruct (Z.eq_dec (data_x (heap st i) + dx) (x + dx')) as [Ex | Nx]; [| left; exact Nx].
      destruct (Z.eq_dec (data_y (heap st i) + dy) (y + dy')) as [Ey | Ny]; [| right; exact Ny].
      exfalso. rewrite Ex, Ey, Hf in Hm. discriminate.
    + unfold h' in Hin |- *. rewrite Nat.eqb_refl in Hin |- *. simpl in Hin |- *. apply Hon. exact Hin.
  - split; [| split].
    + intros i Hi. destruct (Nat.eq_dec i n) as [-> | Hni].
      * unfold h'. rewrite Nat.eqb_refl. exact Hcat.
      * rewrite Hkeep by exact Hni. apply Hcons. lia.
    + intros i Hi. apply in_app_or in Hi. destruct Hi as [Hi | [<- | []]]; [specialize (Hbo i Hi) |]; lia.
    + intros i Hi. specialize (Hsel i Hi). lia.
Qed.

Lemma keeps_ret {A} (P : St -> Prop) (a : A) : keeps P (ret a).
Proof. intros st H. exact H. Qed.

Lemma keeps_bind {A B} (P : St -> Prop) (m : M St A) (k : A -> M St B) :
  keeps P m -> (forall a, keeps P (k a)) -> keeps P (bind m k).
Proof.
  intros Hm Hk st H. specialize (Hm st H). unfold bind.
  destruct (m st) as [a s | e s]; [apply Hk |]; exact Hm.
Qed.

Lemma keeps_for {A} (P : St -> Prop) (l : list A) (body : A -> M St unit) :
  (forall a, In a l -> keeps P (body a)) -> keeps P (for_ l body).
Proof.
  induction l as [| a l IH]; intros Hb; [apply keeps_ret |].
  apply keeps_bind; [apply Hb; left; reflexivity |].
  intros _. apply IH. intros a' H'. apply Hb. right. exact H'.
Qed.

Lemma step_keeps (cfg : Cfg) (P : St -> Prop) (o : Op) (st : St) :
  keeps P (op_action cfg o) -> P st -> P (step cfg st o).
Proof.
  intros Hk H. specialize (Hk st H). unfold step. destruct (op_action cfg o st); exact Hk.
Qed.

Lemma lookup_shape_ok (cfg : Cfg) (name : string) (bs : list Cell) (st : St) :
  assoc name (SHAPE_BUTTONS cfg) = Some bs -> lookup_shape cfg name st = Ok bs st.
Proof. intros Hcat. unfold lookup_shape. rewrite Hcat. reflexivity. Qed.

(** Creating, drawing and registering a block at a legal location: the
    state reached, normally or by [ValueError] on an empty footprint, is
    well formed, with the same selection and more blocks. *)
Lemma add_block_keeps (cfg : Cfg) (sel0 bo0 : list nat) (name : string) (x y : Z) (bs : list Cell)
    (o : Orientation) (st : St) :
  grows_from cfg sel0 bo0 st -> assoc name (SHAPE_BUTTONS cfg) = Some bs ->
  legal_cells cfg (grid_state st) x y bs = true ->
  match (oid <- new_block name x y bs o ;; draw_block cfg oid ;; register oid) st with
  | Ok _ s => grows_from cfg sel0 bo0 s | Raise _ s => grows_from cfg sel0 bo0 s end.
Proof.
  intros (Hwf & Hsel & Hinc) Hcat Hl. destruct bs as [| c r]; [split; [| split]; assumption |].
  destruct (add_block_wf cfg name x y (c :: r) o st Hwf Hcat ltac:(discriminate) Hl)
    as (st' & Hrun & Hwf' & Hbo & Hsel' & _). rewrite Hrun.
  split; [exact Hwf' | split; [congruence |]].
  rewrite Hbo. intros i Hi. apply in_or_app. left. apply Hinc. exact Hi.
Qed.

Lemma place_click_keeps (cfg : Cfg) (sel0 bo0 : list nat) (x y : Z) :
  keeps (grows_from cfg sel0 bo0) (place_click cfg x y).
Proof.
  intros st Hwf. unfold place_click.
  destruct ((x >? GRID_WIDTH cfg) || (y >? GRID_HEIGHT cfg)); [exact Hwf |].
  rewrite (bind_ok get _ st st st eq_refl). cbv beta.
  destruct (selected_shape st) as [shape |]; [| exact Hwf].
  destruct (String.eqb shape ""); [exact Hwf |].
  destruct (assoc shape (SHAPE_BUTTONS cfg)) as [bs |] eqn:Hcat;
    [| unfold is_legal_location, lookup_shape, bind; rewrite Hcat; exact Hwf].
  rewrite (bind_ok _ _ _ _ _ (is_legal_location_ok cfg x y shape bs st Hcat)).
  destruct (legal_cells cfg (grid_state st) x y bs) eqn:Hl; [| exact Hwf].
  cbn [negb]. rewrite (bind_ok _ _ _ _ _ (lookup_shape_ok cfg shape bs st Hcat)).
  exact (add_block_keeps cfg sel0 bo0 shape x y bs R0 st Hwf Hcat Hl).
Qed.

Lemma dup_step_keeps (cfg : Cfg) (sel0 bo0 : list nat) (name : string) (shape : list Cell)
    (cond : Z -> bool) (ax ay : Z -> Z) (i : Z) :
  assoc name (SHAPE_BUTTONS cfg) = Some shape ->
  keeps (grows_from cfg sel0 bo0) (dup_step cfg name shape cond ax ay i).
Proof.
  intros Hcat st Hwf. unfold dup_step. destruct (cond i); [| exact Hwf].
  rewrite (bind_ok _ _ _ _ _ (is_legal_location_ok cfg (ax i) (ay i) name shape st Hcat)).
  destruct (legal_cells cfg (grid_state st) (ax i) (ay i) shape) eqn:Hl; [| exact Hwf].
  exact (add_block_keeps cfg sel0 bo0 name (ax i) (ay i) shape R0 st Hwf Hcat Hl).
Qed.

Lemma duplicate_block_keeps (cfg : Cfg) (sel0 bo0 : list nat) (oid : nat) (direction : Direction)
    (interval : Z) :
  In oid sel0 -> keeps (grows_from cfg sel0 bo0) (duplicate_block cfg oid direction interval).
Proof.
  intros Hin st Hg.
  assert (Hcat : assoc (cell_name (heap st oid)) (SHAPE_BUTTONS cfg) = Some (block_shape (heap st oid))).
  { destruct Hg as ((_ & _ & Hcons & _ & Hs) & Hsel & _). apply Hcons, Hs. rewrite Hsel. exact Hin. }
  destruct direction.
  - rewrite (duplicate_block_vertical cfg oid interval _ st eq_refl).
    refine (keeps_for _ _ _ _ st Hg). intros i _. apply dup_step_keeps. exact Hcat.
  - rewrite (duplicate_block_horizontal cfg oid interval _ st eq_refl).
    refine (keeps_for _ _ _ _ st Hg). intros i _. apply dup_step_keeps. exact Hcat.
Qed.

Lemma duplicate_main_keeps (cfg : Cfg) (sel0 bo0 : list nat) (direction : Direction) (interval : Z) :
  keeps (grows_from cfg sel0 bo0) (duplicate_main cfg direction interval).
Proof.
  intros st Hg. unfold duplicate_main.
  rewrite (bind_ok get _ st st st eq_refl). cbv beta.
  assert (Hs : forall oid, In oid (selected_blocks st) -> In oid sel0)
    by (destruct Hg as (_ & -> & _); tauto).
  destruct (selected_blocks st) as [| a l]; [exact Hg |].
  refine (keeps_for _ _ _ _ st Hg). intros oid Hoid. apply duplicate_block_keeps. apply Hs. exact Hoid.
Qed.

(** The state [delete_click] commits for [block_id]. *)
Lemma delete_put_wf (cfg : Cfg) (st : St) (block_id : nat) :
  wf cfg st ->
  wf cfg (mkSt (clear_id cfg (grid_state st) block_id) (heap st)
               (filter (fun j => negb (Nat.eqb j block_id)) (block_objects st))
               (selected_blocks st) (selected_shape st) (next_id st)).
Proof.
  intros (Hbd & (Hag1 & Hag2) & Hcons & Hbo & Hsel).
  unfold wf, grid_agrees; cbn [grid_state heap block_objects selected_blocks next_id].
  assert (Hcl : forall x y, clear_id cfg (grid_state st) block_id x y =
            if opt_eqb (grid_state st x y) block_id then None else grid_state st x y).
  { intros x y. unfold clear_id.
    destruct (grid_state st x y) as [j |] eqn:Hg; [| destruct (_ && _); reflexivity].
    destruct (Hbd x y ltac:(rewrite Hg; discriminate)) as [[Hx1 Hx2] [Hy1 Hy2]].
    replace ((0 <=? x) && (x <? GRID_WIDTH cfg) && (0 <=? y) && (y <? GRID_HEIGHT cfg)) with true;
      [reflexivity |].
    symmetry. repeat rewrite andb_true_iff. repeat split;
      [apply Z.leb_le | apply Z.ltb_lt | apply Z.leb_le | apply Z.ltb_lt]; lia. }
  assert (Hcl2 : forall x y j, clear_id cfg (grid_state st) block_id x y = Some j ->
            grid_state st x y = Some j /\ j <> block_id).
  { intros x y j. rewrite Hcl. destruct (grid_state st x y) as [k |]; [| discriminate].
    unfold opt_eqb. destruct (Nat.eqb k block_id) eqn:E; [discriminate |].
    intros [= <-]. apply Nat.eqb_neq in E. split; [reflexivity | exact E]. }
  split; [| split; [split |]].
  - intros x y Hn. apply Hbd. rewrite Hcl in Hn. destruct (opt_eqb _ _); [contradiction | exact Hn].
  - intros x y j Hg. destruct (Hcl2 x y j Hg) as [Hg' Hne].
    destruct (Hag1 x y j Hg') as [Hj Hw]. split; [| exact Hw].
    apply filter_In. split; [exact Hj |]. apply Nat.eqb_neq in Hne. rewrite Hne. reflexivity.
  - intros j dx dy Hj Hin. apply filter_In in Hj. destruct Hj as [Hj Hne].
    rewrite Hcl, (Hag2 j dx dy Hj Hin). unfold opt_eqb.
    destruct (Nat.eqb j block_id); [discriminate | reflexivity].
  - split; [exact Hcons | split; [| exact Hsel]].
    intros j Hj. apply filter_In in Hj. apply Hbo. tauto.
Qed.

Lemma get_cell_cases (cfg : Cfg) (x y : Z) (st : St) :
  (exists i j, get_cell cfg x y st = Ok (grid_state st i j) st) \/
  get_cell cfg x y st = Raise IndexError st.
Proof.
  unfold get_cell. destruct (py_index (GRID_WIDTH cfg) x) as [i |];
    [destruct (py_index (GRID_HEIGHT cfg) y) as [j |] |]; [left; exists i, j; reflexivity | right; reflexivity ..].
Qed.

Lemma delete_click_keeps (cfg : Cfg) (sel0 : list nat) (x y : Z) :
  keeps (fun s => wf cfg s /\ selected_blocks s = sel0) (delete_click cfg x y).
Proof.
  intros st [Hwf Hsel]. unfold delete_click.
  destruct ((x >? GRID_WIDTH cfg) || (y >? GRID_HEIGHT cfg)); [split; assumption |].
  destruct (get_cell_cases cfg x y st) as [(i & j & Hc) | Hc];
    [rewrite (bind_ok _ _ _ _ _ Hc) | unfold bind; rewrite Hc; split; assumption].
  destruct (grid_state st i j) as [block_id |]; [| split; assumption].
  unfold lookup_block, bind at 1. destruct (mem block_id (block_objects st)); [| split; assumption].
  split; [exact (delete_put_wf cfg st block_id Hwf) | exact Hsel].
Qed.

Lemma in_grid_test (cfg : Cfg) (x y : Z) :
  0 <= x < GRID_WIDTH cfg -> 0 <= y < GRID_HEIGHT cfg ->
  (x >? GRID_WIDTH cfg) || (y >? GRID_HEIGHT cfg) = false.
Proof.
  intros Hx Hy. apply orb_false_iff. split; rewrite Z.gtb_ltb; apply Z.ltb_ge; lia.
Qed.

Lemma get_cell_in (cfg : Cfg) (x y : Z) (st : St) :
  0 <= x < GRID_WIDTH cfg -> 0 <= y < GRID_HEIGHT cfg ->
  get_cell cfg x y st = Ok (grid_state st x y) st.
Proof. intros Hx Hy. unfold get_cell. rewrite (py_index_in _ _ Hx), (py_index_in _ _ Hy). reflexivity. Qed.

Lemma lookup_block_in (oid : nat) (st : St) :
  In oid (block_objects st) -> lookup_block oid st = Ok (heap st oid) st.
Proof. intros H. unfold lookup_block. apply mem_In in H. rewrite H. reflexivity. Qed.

(** An orientation click on a cell of block [i]: only [i]'s orientation
    changes; the redraw marks the cells that already hold [i]. *)
Lemma orientation_click_ok (cfg : Cfg) (st : St) (x y : Z) (i : nat) :
  wf cfg st -> 0 <= x < GRID_WIDTH cfg -> 0 <= y < GRID_HEIGHT cfg ->
  grid_state st x y = Some i ->
  exists g',
    orientation_click cfg x y st =
    Ok tt (mkSt g' (fun j => if Nat.eqb j i then update_orientation (heap st i) else heap st j)
                (block_objects st) (selected_blocks st) (selected_shape st) (next_id st)) /\
    forall a b, g' a b = grid_state st a b.
Proof.
  intros Hwf Hx Hy Hg.
  assert (Hwf' := Hwf). destruct Hwf' as (Hbd & (Hag1 & Hag2) & Hcons & Hbo & Hsel).
  destruct (Hag1 x y i Hg) as [Hi _].
  unfold orientation_click. rewrite (in_grid_test cfg x y Hx Hy).
  rewrite (bind_ok _ _ _ _ _ (get_cell_in cfg x y st Hx Hy)), Hg.
  rewrite (bind_ok _ _ _ _ _ (lookup_block_in i st Hi)).
  unfold bind at 1, store.
  set (h' := fun j => if Nat.eqb j i then update_orientation (heap st i) else heap st j).
  set (st1 := with_heap st h').
  assert (Hb : heap st1 i = update_orientation (heap st i))
    by (unfold st1, h'; cbn [heap with_heap]; rewrite Nat.eqb_refl; reflexivity).
  destruct (redraw_same cfg st1 i (block_shape (heap st i))) as (g' & Hrun & Heq).
  { rewrite Hb. apply Hcons, Hbo, Hi. }
  { rewrite Hb. exact (fun dx dy H => wf_footprint_in cfg st i dx dy Hwf Hi H). }
  { rewrite Hb. intros dx dy H. exact (Hag2 i dx dy Hi H). }
  rewrite Hrun. exists g'. split; [reflexivity | exact Heq].
Qed.

(** Well formedness only reads the grid pointwise and the heap's names,
    positions and footprints. *)
Lemma wf_transfer (cfg : Cfg) (st st' : St) :
  (forall a b, grid_state st' a b = grid_state st a b) ->
  (forall j, cell_name (heap st' j) = cell_name (heap st j) /\ data_x (heap st' j) = data_x (heap st j) /\
             data_y (heap st' j) = data_y (heap st j) /\ block_shape (heap st' j) = block_shape (heap st j)) ->
  block_objects st' = block_objects st -> selected_blocks st' = selected_blocks st ->
  next_id st' = next_id st ->
  wf cfg st -> wf cfg st'.
Proof.
  intros Hg Hh Hbo' Hsel' Hn (Hbd & (Hag1 & Hag2) & Hcons & Hbo & Hsel).
  unfold wf, grid_agrees. rewrite Hbo', Hsel', Hn.
  split; [| split; [split |]].
  - intros a b. rewrite Hg. apply Hbd.
  - intros a b j. rewrite Hg. intros H. destruct (Hh j) as (E1 & E2 & E3 & E4).
    rewrite E2, E3, E4. apply Hag1. exact H.
  - intros j dx dy Hj. destruct (Hh j) as (E1 & E2 & E3 & E4).
    rewrite E2, E3, E4, Hg. apply Hag2. exact Hj.
  - split; [| split; assumption]. intros j Hj. destruct (Hh j) as (E1 & E2 & E3 & E4).
    rewrite E1, E4. apply Hcons. exact Hj.
Qed.

Lemma orientation_click_keeps (cfg : Cfg) (sel0 bo0 : list nat) (x y : Z) :
  keeps (fun s => wf cfg s /\ selected_blocks s = sel0 /\ block_objects s = bo0)
        (orientation_click cfg x y).
Proof.
  intros st Hall. assert (Hall' := Hall). destruct Hall' as (Hwf & Hsel & Hbo).
  unfold orientation_click.
  destruct ((x >? GRID_WIDTH cfg) || (y >? GRID_HEIGHT cfg)) eqn:Hgd; [exact Hall |].
  destruct (get_cell_cases cfg x y st) as [(i & j & Hc) | Hc];
    [| unfold bind; rewrite Hc; exact Hall].
  destruct (grid_state st i j) as [block_id |] eqn:Hgij; [| rewrite (bind_ok _ _ _ _ _ Hc); exact Hall].
  assert (Hin : 0 <= i < GRID_WIDTH cfg /\ 0 <= j < GRID_HEIGHT cfg)
    by (destruct Hwf as (Hbd & _); apply Hbd; rewrite Hgij; discriminate).
  destruct Hin as [Hi Hj].
  destruct (orientation_click_ok cfg st i j block_id Hwf Hi Hj Hgij) as (g' & Hrun & Heq).
  unfold orientation_click in Hrun. rewrite (in_grid_test cfg i j Hi Hj) in Hrun.
  rewrite (bind_ok _ _ _ _ _ (get_cell_in cfg i j st Hi Hj)) in Hrun.
  rewrite (bind_ok _ _ _ _ _ Hc). rewrite Hgij in Hrun. rewrite Hrun.
  split; [| split; assumption].
  apply (wf_transfer cfg st); try reflexivity; [exact Heq | | exact Hwf].
  intros j'. cbn [heap]. destruct (Nat.eqb j' block_id) eqn:E; [| tauto].
  apply Nat.eqb_eq in E. subst j'. cbn. tauto.
Qed.

Lemma with_grid_twice (st : St) (g1 g2 : Grid) : with_grid (with_grid st g1) g2 = with_grid st g2.
Proof. destruct st; reflexivity. Qed.

Lemma with_selected_twice (st : St) (s1 s2 : list nat) :
  with_selected (with_selected st s1) s2 = with_selected st s2.
Proof. destruct st; reflexivity. Qed.

(** [draw] over registered blocks of a well formed session leaves the grid
    pointwise as it is. *)
Lemma draw_loop (cfg : Cfg) (l : list nat) :
  forall st, wf cfg st -> incl l (block_objects st) ->
  exists g', for_ l (draw_block cfg) st = Ok tt (with_grid st g') /\
             forall a b, g' a b = grid_state st a b.
Proof.
  induction l as [| i l IH]; intros st Hwf Hl.
  - exists (grid_state st). split; [destruct st; reflexivity | reflexivity].
  - assert (Hi : In i (block_objects st)) by (apply Hl; left; reflexivity).
    assert (Hwf' := Hwf). destruct Hwf' as (Hbd & (Hag1 & Hag2) & Hcons & Hbo & Hsel).
    destruct (redraw_same cfg st i (block_shape (heap st i))) as (g1 & Hrun & Heq).
    { apply Hcons, Hbo, Hi. }
    { exact (fun dx dy H => wf_footprint_in cfg st i dx dy Hwf Hi H). }
    { intros dx dy H. exact (Hag2 i dx dy Hi H). }
    rewrite for_cons, (bind_ok _ _ _ _ _ Hrun).
    assert (Hwf1 : wf cfg (with_grid st g1))
      by (apply (wf_transfer cfg st); try reflexivity; [exact Heq | tauto | exact Hwf]).
    destruct (IH (with_grid st g1) Hwf1) as (g2 & Hrun2 & Heq2).
    { intros j Hj. apply Hl. right. exact Hj. }
    exists g2. rewrite Hrun2, with_grid_twice. split; [reflexivity |].
    intros a b. rewrite Heq2. apply Heq.
Qed.

Lemma draw_ok (cfg : Cfg) (st : St) :
  wf cfg st ->
  exists g', draw cfg st = Ok tt (with_grid st g') /\ forall a b, g' a b = grid_state st a b.
Proof.
  intros Hwf. unfold draw. rewrite (bind_ok get _ st st st eq_refl).
  apply draw_loop; [exact Hwf | intros i H; exact H].
Qed.

Lemma select_body_ok (cfg : Cfg) (st : St) (with_blockage : bool) (x y : Z) (s : list nat) :
  wf cfg st ->
  exists s',
    (st1 <- get ;;
     if (0 <=? x) && (x <? GRID_WIDTH cfg) && (0 <=? y) && (y <? GRID_HEIGHT cfg) then
       match grid_state st1 x y with
       | None => ret tt
       | Some block_id =>
           b <- lookup_block block_id ;;
           if mem block_id (selected_blocks st1) then ret tt
           else if negb with_blockage && String.eqb (cell_name b) "Blockage"
           then ret tt
           else put (with_selected st1 (selected_blocks st1 ++ [block_id]))
       end
     else ret tt) (with_selected st s) = Ok tt (with_selected st s') /\
    (forall j, In j s' <-> In j s \/ picked cfg st with_blockage x y j) /\
    (NoDup s -> NoDup s').
Proof.
  intros Hwf.
  rewrite (bind_ok get _ _ _ _ eq_refl). cbv beta.
  destruct ((0 <=? x) && (x <? GRID_WIDTH cfg) && (0 <=? y) && (y <? GRID_HEIGHT cfg)) eqn:Hb.
  2: { exists s. split; [reflexivity | split; [| tauto]].
       intros j. split; [tauto |]. intros [H | (Hx & Hy & _)]; [exact H |].
       exfalso. revert Hb. repeat rewrite andb_false_iff.
       rewrite Z.leb_gt, Z.ltb_ge, Z.leb_gt, Z.ltb_ge. lia. }
  repeat rewrite andb_true_iff in Hb. rewrite Z.leb_le, Z.ltb_lt, Z.leb_le, Z.ltb_lt in Hb.
  cbn [grid_state with_selected selected_blocks].
  destruct (grid_state st x y) as [block_id |] eqn:Hg.
  2: { exists s. split; [reflexivity | split; [| tauto]].
       intros j. split; [tauto |]. intros [H | (_ & _ & H & _)]; [exact H | congruence]. }
  assert (Hin : In block_id (block_objects st))
    by (destruct Hwf as (_ & (Hag1 & _) & _); exact (proj1 (Hag1 x y block_id Hg))).
  assert (Hl : lookup_block block_id (with_selected st s) = Ok (heap st block_id) (with_selected st s))
    by (apply (lookup_block_in block_id (with_selected st s)); exact Hin).
  rewrite (bind_ok _ _ _ _ _ Hl). cbn [with_selected heap].
  destruct (mem block_id s) eqn:Hm.
  { exists s. split; [reflexivity | split; [| tauto]].
    intros j. split; [tauto |]. intros [H | (_ & _ & H & _)]; [exact H |].
    apply mem_In in Hm. congruence. }
  destruct (negb with_blockage && String.eqb (cell_name (heap st block_id)) "Blockage") eqn:Hk.
  { exists s. split; [reflexivity | split; [| tauto]].
    intros j. split; [tauto |]. intros [H | (_ & _ & H & Hw)]; [exact H |].
    rewrite Hg in H. injection H as <-. apply andb_true_iff in Hk. destruct Hk as [Hk1 Hk2].
    apply String.eqb_eq in Hk2. destruct with_blockage; [discriminate |].
    destruct Hw as [Hw | Hw]; [discriminate | contradiction]. }
  exists (s ++ [block_id]). split; [unfold put; rewrite with_selected_twice; reflexivity |].
  split.
  - intros j. rewrite in_app_iff. split.
    + intros [H | [<- | []]]; [left; exact H | right].
      split; [tauto | split; [tauto | split; [exact Hg |]]].
      destruct with_blockage; [left; reflexivity | right].
      cbn in Hk. intros E. rewrite E in Hk. discriminate.
    + intros [H | (_ & _ & H & _)]; [left; exact H | right; left; congruence].
  - intros Hnd. apply NoDup_app; [exact Hnd | constructor; [intros [] | constructor] |].
    intros j Hj [<- | []]. apply mem_In in Hj. congruence.
Qed.

Lemma select_loop (st : St) (body : Z -> M St unit) (P : Z -> nat -> Prop) :
  (forall y s, exists s', body y (with_selected st s) = Ok tt (with_selected st s') /\
      (forall j, In j s' <-> In j s \/ P y j) /\ (NoDup s -> NoDup s')) ->
  forall ys s, exists s', for_ ys body (with_selected st s) = Ok tt (with_selected st s') /\
      (forall j, In j s' <-> In j s \/ exists y, In y ys /\ P y j) /\ (NoDup s -> NoDup s').
Proof.
  intros Hb ys. induction ys as [| y ys IH]; intros s.
  - exists s. split; [reflexivity |]. split; [| tauto]. intros j. split; [tauto |].
    intros [H | (y & [] & _)]; exact H.
  - destruct (Hb y s) as (s1 & Hrun & Hmem & Hnd).
    destruct (IH s1) as (s2 & Hrun2 & Hmem2 & Hnd2).
    exists s2. rewrite for_cons, (bind_ok _ _ _ _ _ Hrun). split; [exact Hrun2 |].
    split; [| tauto]. intros j. rewrite Hmem2, Hmem. split.
    + intros [[H | H] | (y' & Hy' & H)]; [left; exact H | right; exists y; split; [left; reflexivity | exact H] |].
      right. exists y'. split; [right; exact Hy' | exact H].
    + intros [H | (y' & [<- | Hy'] & H)]; [left; left; exact H | left; right; exact H |].
      right. exists y'. split; assumption.
Qed.

Lemma wf_with_selected (cfg : Cfg) (st : St) (s : list nat) :
  wf cfg st -> incl s (block_objects st) -> wf cfg (with_selected st s).
Proof.
  intros (Hbd & Hag & Hcons & Hbo & Hsel) Hs.
  split; [exact Hbd | split; [exact Hag | split; [exact Hcons | split; [exact Hbo |]]]].
  intros j Hj. apply Hbo, Hs, Hj.
Qed.

(** [select_region]: the selection becomes exactly the blocks with a cell
    picked in the rectangle, without duplicates; nothing else changes. *)
Lemma select_region_ok (cfg : Cfg) (st : St) (with_blockage : bool) (x0 y0 x1 y1 : Z) :
  wf cfg st ->
  exists s g',
    select_region cfg with_blockage x0 y0 x1 y1 st = Ok tt (with_grid (with_selected st s) g') /\
    (forall a b, g' a b = grid_state st a b) /\
    NoDup s /\
    (forall j, In j s <-> exists x y, Z.min x0 x1 <= x <= Z.max x0 x1 /\
                                      Z.min y0 y1 <= y <= Z.max y0 y1 /\
                                      picked cfg st with_blockage x y j).
Proof.
  intros Hwf. unfold select_region.
  rewrite (bind_ok get _ st st st eq_refl). cbv beta.
  rewrite (bind_ok (put (with_selected st [])) _ st (with_selected st []) tt eq_refl).
  edestruct (select_loop st) as (s & Hrun & Hmem & Hnd).
  2: rewrite (bind_ok _ _ _ _ _ Hrun).
  { intros x s0. apply select_loop. intros y s1. apply select_body_ok. exact Hwf. }
  assert (Hincl : incl s (block_objects st)).
  { intros j Hj. apply Hmem in Hj. destruct Hj as [[] | (x & _ & y & _ & (_ & _ & Hg & _))].
    destruct Hwf as (_ & (Hag1 & _) & _). exact (proj1 (Hag1 x y j Hg)). }
  destruct (draw_ok cfg (with_selected st s) (wf_with_selected cfg st s Hwf Hincl)) as (g' & Hd & Heq).
  exists s, g'. rewrite Hd. split; [reflexivity |]. split; [exact Heq |].
  split; [apply Hnd; constructor |].
  intros j. rewrite Hmem. split.
  - intros [[] | (x & Hx & y & Hy & Hp)]. apply In_zrange in Hx, Hy.
    exists x, y. split; [lia | split; [lia | exact Hp]].
  - intros (x & y & Hx & Hy & Hp). right. exists x. split; [apply In_zrange; lia |].
    exists y. split; [apply In_zrange; lia | exact Hp].
Qed.

Lemma swap_block_keeps (cfg : Cfg) (sel0 bo0 : list nat) (oid : nat) (target : string) :
  In oid bo0 ->
  keeps (fun s => wf cfg s /\ selected_blocks s = sel0 /\ block_objects s = bo0)
        (swap_block cfg oid target).
Proof.
  intros Hin st Hall. assert (Hall' := Hall). destruct Hall' as (Hwf & Hsel & Hbo).
  assert (Hi : In oid (block_objects st)) by (rewrite Hbo; exact Hin).
  assert (Hwf' := Hwf). destruct Hwf' as (Hbd & (Hag1 & Hag2) & Hcons & Hlt & Hslt).
  assert (Hcur := Hcons oid (Hlt oid Hi)).
  unfold swap_block. rewrite (bind_ok get _ st st st eq_refl). cbv beta.
  rewrite (bind_ok _ _ _ _ _ (lookup_shape_ok cfg _ _ st Hcur)).
  destruct (assoc target (SHAPE_BUTTONS cfg)) as [tgt |] eqn:Ht;
    [| unfold bind, lookup_shape; rewrite Ht; exact Hall].
  rewrite (bind_ok _ _ _ _ _ (lookup_shape_ok cfg _ _ st Ht)).
  destruct (cells_eqb (block_shape (heap st oid)) tgt) eqn:E; [| exact Hall].
  apply cells_eqb_iff in E.
  set (h' := fun j => if Nat.eqb j oid then rename (heap st oid) target else heap st j).
  rewrite (bind_ok (store oid (rename (heap st oid) target)) _ st (with_heap st h') tt eq_refl).
  assert (Hb : heap (with_heap st h') oid = rename (heap st oid) target)
    by (unfold h'; cbn [heap with_heap]; rewrite Nat.eqb_refl; reflexivity).
  destruct (redraw_same cfg (with_heap st h') oid tgt) as (g' & Hrun & Heq).
  { rewrite Hb. exact Ht. }
  { rewrite Hb. exact (fun dx dy H => wf_footprint_in cfg st oid dx dy Hwf Hi H). }
  { rewrite Hb. intros dx dy H. exact (Hag2 oid dx dy Hi H). }
  rewrite Hrun. split; [| split; assumption].
  assert (Hh : forall j, data_x (h' j) = data_x (heap st j) /\ data_y (h' j) = data_y (heap st j) /\
                         block_shape (h' j) = block_shape (heap st j)).
  { intros j. unfold h'. destruct (Nat.eqb j oid) eqn:Ej; [| tauto].
    apply Nat.eqb_eq in Ej. subst j. cbn. tauto. }
  unfold wf, grid_agrees. cbn [with_grid with_heap grid_state heap block_objects selected_blocks next_id].
  split; [| split; [split |]].
  - intros a b. rewrite Heq. apply Hbd.
  - intros a b j. rewrite Heq. intros H. destruct (Hh j) as (E1 & E2 & E3).
    rewrite E1, E2, E3. apply Hag1. exact H.
  - intros j dx dy Hj. destruct (Hh j) as (E1 & E2 & E3).
    rewrite E1, E2, E3, Heq. apply Hag2. exact Hj.
  - split; [| split; assumption]. intros j Hj. unfold h'.
    destruct (Nat.eqb j oid) eqn:Ej; [| apply Hcons; exact Hj].
    apply Nat.eqb_eq in Ej. subst j. cbn. rewrite Ht, E. reflexivity.
Qed.

Lemma swap_main_keeps (cfg : Cfg) (sel0 bo0 : list nat) :
  incl sel0 bo0 ->
  keeps (fun s => wf cfg s /\ selected_blocks s = sel0 /\ block_objects s = bo0) (swap_main cfg).
Proof.
  intros Hinc st Hall. assert (Hsel : selected_blocks st = sel0) by apply Hall.
  unfold swap_main. rewrite (bind_ok get _ st st st eq_refl). cbv beta.
  case_eq (selected_blocks st); [intros _; exact Hall | intros a l Hs].
  destruct (selected_shape st) as [target |]; [| exact Hall].
  refine (keeps_for _ _ _ _ st Hall). intros oid Hoid. apply swap_block_keeps.
  apply Hinc. rewrite <- Hsel, Hs. exact Hoid.
Qed.

(** The relocation [move_to] commits once [can_move_to] agreed, for a
    registered block of a well formed session. *)
Lemma relocate_wf (cfg : Cfg) (st : St) (oid : nat) (xo yo : Z) :
  wf cfg st -> In oid (block_objects st) -> can_move_to cfg st xo yo oid = true ->
  exists st',
    (for_ (block_shape (heap st oid)) (fun '(dx, dy) =>
       set_cell cfg (data_x (heap st oid) + dx) (data_y (heap st oid) + dy) None) ;;
     store oid (update_location (heap st oid) (data_x (heap st oid) + xo) (data_y (heap st oid) + yo)) ;;
     draw_block cfg oid ;;
     ret true) st = Ok true st' /\
    wf cfg st' /\ selected_blocks st' = selected_blocks st /\ block_objects st' = block_objects st /\
    heap st' oid = update_location (heap st oid) (data_x (heap st oid) + xo) (data_y (heap st oid) + yo) /\
    (forall j, j <> oid -> heap st' j = heap st j) /\
    (forall dx dy, In (dx, dy) (block_shape (heap st oid)) ->
       grid_state st' (data_x (heap st oid) + xo + dx) (data_y (heap st oid) + yo + dy) = Some oid).
Proof.
  intros Hwf Hi Hc.
  assert (Hwf' := Hwf). destruct Hwf' as (Hbd & (Hag1 & Hag2) & Hcons & Hlt & Hslt).
  set (X := data_x (heap st oid)). set (Y := data_y (heap st oid)). set (bs := block_shape (heap st oid)).
  assert (Hfree : target_free cfg st oid (X + xo) (Y + yo)).
  { apply can_move_to_iff. unfold X, Y. replace (data_x (heap st oid) + xo - data_x (heap st oid)) with xo by lia.
    replace (data_y (heap st oid) + yo - data_y (heap st oid)) with yo by lia. exact Hc. }
  destruct (for_set_cells cfg X Y None bs st (fun dx dy H => wf_footprint_in cfg st oid dx dy Hwf Hi H))
    as (g1 & Hrun1 & Hout1 & Hon1).
  rewrite (bind_ok _ _ _ _ _ Hrun1).
  set (b' := update_location (heap st oid) (X + xo) (Y + yo)).
  set (h' := fun j => if Nat.eqb j oid then b' else heap st j).
  rewrite (bind_ok (store oid b') _ (with_grid st g1) (with_heap (with_grid st g1) h') tt eq_refl).
  assert (Hb : heap (with_heap (with_grid st g1) h') oid = b')
    by (unfold h'; cbn [heap with_heap with_grid]; rewrite Nat.eqb_refl; reflexivity).
  assert (Hcat := Hcons oid (Hlt oid Hi)).
  destruct (draw_block_ok cfg oid (with_heap (with_grid st g1) h') bs) as (g' & Hrun & Hout & Hon).
  { rewrite Hb. exact Hcat. }
  { rewrite Hb. intros dx dy Hin. destruct (Hfree dx dy Hin) as (Hx & Hy & _). split; assumption. }
  rewrite Hb in Hout, Hon. cbn [b' update_location data_x data_y block_shape] in Hout, Hon.
  unfold with_heap, with_grid in Hout. cbn [grid_state] in Hout.
  rewrite (bind_ok _ _ _ _ _ Hrun).
  assert (Hkeep : forall j, j <> oid -> h' j = heap st j).
  { intros j Hj. unfold h'. apply Nat.eqb_neq in Hj. rewrite Hj. reflexivity. }
  assert (Hh' : h' oid = b') by (unfold h'; rewrite Nat.eqb_refl; reflexivity).
  eexists. split; [reflexivity |].
  unfold wf, grid_agrees, ret, with_grid, with_heap.
  cbn [grid_state heap block_objects selected_blocks next_id].
  (* a cell holding [oid] before the move lies in its old footprint *)
  assert (Hold : forall a b, grid_state st a b = Some oid ->
            exists dx dy, In (dx, dy) bs /\ a = X + dx /\ b = Y + dy)
    by (intros a b Hg; exact (proj2 (Hag1 a b oid Hg))).
  split; [split; [| split; [split |]] |].
  - intros a b Hn.
    destruct (footprint_dec bs (X + xo) (Y + yo) a b) as [(dx & dy & H & -> & ->) | Hall].
    + destruct (Hfree dx dy H) as (H1 & H2 & _). split; assumption.
    + rewrite (Hout a b Hall) in Hn. apply Hbd.
      destruct (footprint_dec bs X Y a b) as [(dx & dy & H & -> & ->) | Hall1].
      * rewrite (Hon1 dx dy H) in Hn. contradiction.
      * rewrite <- (Hout1 a b Hall1). exact Hn.
  - intros a b j Hg.
    destruct (footprint_dec bs (X + xo) (Y + yo) a b) as [(dx & dy & H & -> & ->) | Hall].
    + rewrite (Hon dx dy H) in Hg. injection Hg as <-. split; [exact Hi |].
      rewrite Hh'. exists dx, dy. cbn. split; [exact H | split; reflexivity].
    + rewrite (Hout a b Hall) in Hg.
      destruct (footprint_dec bs X Y a b) as [(dx & dy & H & -> & ->) | Hall1];
        [rewrite (Hon1 dx dy H) in Hg; discriminate |].
      rewrite (Hout1 a b Hall1) in Hg.
      destruct (Nat.eq_dec j oid) as [-> | Hne].
      * exfalso. destruct (Hold a b Hg) as (dx & dy & H & -> & ->).
        destruct (Hall1 dx dy H) as [N | N]; apply N; reflexivity.
      * rewrite (Hkeep j Hne). exact (Hag1 a b j Hg).
  - intros j dx dy Hj Hin. destruct (Nat.eq_dec j oid) as [-> | Hne].
    + rewrite Hh' in Hin |- *. cbn in Hin |- *. exact (Hon dx dy Hin).
    + rewrite (Hkeep j Hne) in Hin |- *.
      assert (Hm := Hag2 j dx dy Hj Hin).
      rewrite Hout.
      * rewrite Hout1; [exact Hm |]. intros dx' dy' H'.
        destruct (Z.eq_dec (data_x (heap st j) + dx) (X + dx')) as [Ex | Nx]; [| left; exact Nx].
        destruct (Z.eq_dec (data_y (heap st j) + dy) (Y + dy')) as [Ey | Ny]; [| right; exact Ny].
        exfalso. rewrite Ex, Ey in Hm.
        assert (Ho : grid_state st (X + dx') (Y + dy') = Some oid) by exact (Hag2 oid dx' dy' Hi H').
        rewrite Ho in Hm. injection Hm as E. congruence.
      * intros dx' dy' H'. destruct (Hfree dx' dy' H') as (_ & _ & Hf).
        destruct (Z.eq_dec (data_x (heap st j) + dx) (X + xo + dx')) as [Ex | Nx]; [| left; exact Nx].
        destruct (Z.eq_dec (data_y (heap st j) + dy) (Y + yo + dy')) as [Ey | Ny]; [| right; exact Ny].
        exfalso. rewrite Ex, Ey in Hm. rewrite Hm in Hf. destruct Hf as [Hf | Hf]; [discriminate |].
        injection Hf as E. congruence.
  - split; [| split; [exact Hlt | exact Hslt]].
    intros j Hj. destruct (Nat.eq_dec j oid) as [-> | Hne].
    + rewrite Hh'. exact Hcat.
    + rewrite (Hkeep j Hne). apply Hcons. exact Hj.
  - split; [reflexivity | split; [reflexivity | split; [exact Hh' | split; [exact Hkeep | exact Hon]]]].
Qed.

Lemma move_to_keeps (cfg : Cfg) (sel0 bo0 : list nat) (target : string) :
  incl sel0 bo0 ->
  keeps (fun s => wf cfg s /\ selected_blocks s = sel0 /\ block_objects s = bo0) (move_to cfg target).
Proof.
  intros Hinc st Hall. assert (Hall' := Hall). destruct Hall' as (Hwf & Hsel & Hbo).
  unfold move_to. rewrite (bind_ok get _ st st st eq_refl). cbv beta.
  case_eq (selected_blocks st); [intros _; exact Hall | intros oid l Hs].
  destruct l as [| o2 l]; [| exact Hall].
  destruct (String.eqb target ""); [exact Hall |].
  destruct (match_target target) as [[col_str row_str] |]; [| exact Hall].
  cbv zeta.
  destruct (can_move_to cfg st _ _ oid) eqn:Hc; [| exact Hall]. cbn [negb].
  assert (Hi : In oid (block_objects st)) by (rewrite Hbo; apply Hinc; rewrite <- Hsel, Hs; left; reflexivity).
  destruct (relocate_wf cfg st oid _ _ Hwf Hi Hc) as (st' & Hrun & Hwf' & Hsel' & Hbo' & _).
  rewrite Hrun. split; [exact Hwf' | split; congruence].
Qed.

(** A loop whose every step reaches [Good p] and moves along a preorder
    [R] that keeps [Good] reaches all of them. *)
Lemma loop_reach {A} (Inv : St -> Prop) (R : St -> St -> Prop) (Good : A -> St -> Prop)
    (body : A -> M St unit) :
  (forall s, R s s) -> (forall s1 s2 s3, R s1 s2 -> R s2 s3 -> R s1 s3) ->
  (forall p s1 s2, Good p s1 -> R s1 s2 -> Good p s2) ->
  (forall p st, Inv st -> exists st', body p st = Ok tt st' /\ Inv st' /\ R st st' /\ Good p st') ->
  forall l st, Inv st ->
  exists st', for_ l body st = Ok tt st' /\ Inv st' /\ R st st' /\ forall p, In p l -> Good p st'.
Proof.
  intros Hrefl Htrans Hstab Hb l. induction l as [| p l IH]; intros st Hi.
  - exists st. split; [reflexivity | split; [exact Hi | split; [apply Hrefl | intros p []]]].
  - destruct (Hb p st Hi) as (st1 & Hrun1 & Hi1 & R1 & G1).
    destruct (IH st1 Hi1) as (st2 & Hrun2 & Hi2 & R2 & G2).
    exists st2. rewrite for_cons, (bind_ok _ _ _ _ _ Hrun1).
    split; [exact Hrun2 | split; [exact Hi2 | split; [exact (Htrans _ _ _ R1 R2) |]]].
    intros q [<- | Hq]; [exact (Hstab _ _ _ G1 R2) | exact (G2 q Hq)].
Qed.

Lemma in_grid_test_true (cfg : Cfg) (x y : Z) :
  (0 <=? x) && (x <? GRID_WIDTH cfg) && (0 <=? y) && (y <? GRID_HEIGHT cfg) = true <-> in_grid cfg x y.
Proof.
  unfold in_grid. repeat rewrite andb_true_iff. rewrite Z.leb_le, Z.ltb_lt, Z.leb_le, Z.ltb_lt. tauto.
Qed.

Lemma place_blockage_body_keeps (cfg : Cfg) (sel0 bo0 : list nat) (x y : Z) :
  keeps (grows_from cfg sel0 bo0)
    (st <- get ;;
     if (0 <=? x) && (x <? GRID_WIDTH cfg) && (0 <=? y) && (y <? GRID_HEIGHT cfg)
        && negb (is_some (grid_state st x y)) then
       ok <- is_legal_location cfg x y "Blockage" ;;
       if negb ok then ret tt else
       bs <- lookup_shape cfg "Blockage" ;;
       oid <- new_block "Blockage" x y bs R0 ;;
       draw_block cfg oid ;;
       register oid
     else ret tt).
Proof.
  intros st Hg. rewrite (bind_ok get _ st st st eq_refl). cbv beta.
  destruct (_ && negb _); [| exact Hg].
  destruct (assoc "Blockage" (SHAPE_BUTTONS cfg)) as [bs |] eqn:Hcat;
    [| unfold is_legal_location, lookup_shape, bind; rewrite Hcat; exact Hg].
  rewrite (bind_ok _ _ _ _ _ (is_legal_location_ok cfg x y "Blockage" bs st Hcat)).
  destruct (legal_cells cfg (grid_state st) x y bs) eqn:Hl; [| exact Hg].
  cbn [negb]. rewrite (bind_ok _ _ _ _ _ (lookup_shape_ok cfg "Blockage" bs st Hcat)).
  exact (add_block_keeps cfg sel0 bo0 "Blockage" x y bs R0 st Hg Hcat Hl).
Qed.

Lemma release_place_blockage_keeps (cfg : Cfg) (sel0 bo0 : list nat) (x0 y0 x1 y1 : Z) :
  keeps (grows_from cfg sel0 bo0) (release_place_blockage cfg x0 y0 x1 y1).
Proof.
  unfold release_place_blockage. apply keeps_for. intros x _. apply keeps_for. intros y _.
  apply place_blockage_body_keeps.
Qed.

Lemma place_blockage_unit (cfg : Cfg) (sel0 bo0 : list nat) (x0 y0 x1 y1 : Z) (st : St) :
  assoc "Blockage" (SHAPE_BUTTONS cfg) = Some [(0, 0)] ->
  grows_from cfg sel0 bo0 st ->
  exists st', release_place_blockage cfg x0 y0 x1 y1 st = Ok tt st' /\
    grows_from cfg sel0 bo0 st' /\ occ_mono st st' /\
    forall x y, Z.min x0 x1 <= x <= Z.max x0 x1 -> Z.min y0 y1 <= y <= Z.max y0 y1 ->
      in_grid cfg x y -> grid_state st' x y <> None.
Proof.
  intros Hcat Hg0. unfold release_place_blockage.
  assert (Hrefl : forall s, occ_mono s s) by (intros s a b H; exact H).
  assert (Htrans : forall s1 s2 s3, occ_mono s1 s2 -> occ_mono s2 s3 -> occ_mono s1 s3)
    by (intros s1 s2 s3 H1 H2 a b H; apply H2, H1, H).
  match goal with |- exists st', for_ ?L ?B st = _ /\ _ =>
  edestruct (loop_reach (grows_from cfg sel0 bo0) occ_mono
               (fun x s => forall y, In y (zrange (Z.min y0 y1) (Z.max y0 y1 + 1)) ->
                                     in_grid cfg x y -> grid_state s x y <> None) B)
    with (l := L) (st := st)
    as (st' & Hrun & Hg' & Hm & Hgood) end.
  - exact Hrefl.
  - exact Htrans.
  - intros x s1 s2 H1 H12 y Hy Hin. apply H12, H1; assumption.
  - intros x s Hs.
    apply (loop_reach (grows_from cfg sel0 bo0) occ_mono
             (fun y s => in_grid cfg x y -> grid_state s x y <> None)); [exact Hrefl | exact Htrans | | | exact Hs].
    + intros y s1 s2 H1 H12 Hin. apply H12, H1, Hin.
    + intros y s1 Hs1. rewrite (bind_ok get _ s1 s1 s1 eq_refl). cbv beta.
      destruct ((0 <=? x) && (x <? GRID_WIDTH cfg) && (0 <=? y) && (y <? GRID_HEIGHT cfg)) eqn:Hb;
        cbn [andb].
      2: { exists s1. split; [reflexivity | split; [exact Hs1 | split; [apply Hrefl |]]].
           intros Hin. apply in_grid_test_true in Hin. congruence. }
      destruct (grid_state s1 x y) as [k |] eqn:Hxy; cbn [is_some negb].
      { exists s1. split; [reflexivity | split; [exact Hs1 | split; [apply Hrefl |]]].
        intros _. rewrite Hxy. discriminate. }
      apply in_grid_test_true in Hb.
      assert (Hl : legal_cells cfg (grid_state s1) x y [(0, 0)] = true).
      { unfold legal_cells. cbn [forallb]. rewrite !Z.add_0_r, Hxy. destruct Hb as [[Hx1 Hx2] [Hy1 Hy2]].
        replace (x <? 0) with false by (symmetry; apply Z.ltb_ge; lia).
        replace (x >=? GRID_WIDTH cfg) with false by (symmetry; rewrite Z.geb_leb; apply Z.leb_gt; lia).
        replace (y <? 0) with false by (symmetry; apply Z.ltb_ge; lia).
        replace (y >=? GRID_HEIGHT cfg) with false by (symmetry; rewrite Z.geb_leb; apply Z.leb_gt; lia).
        reflexivity. }
      rewrite (bind_ok _ _ _ _ _ (is_legal_location_ok cfg x y "Blockage" _ s1 Hcat)), Hl. cbn [negb].
      rewrite (bind_ok _ _ _ _ _ (lookup_shape_ok cfg "Blockage" _ s1 Hcat)).
      destruct Hs1 as (Hwf1 & Hsel1 & Hinc1).
      destruct (add_block_wf cfg "Blockage" x y [(0, 0)] R0 s1 Hwf1 Hcat ltac:(discriminate) Hl)
        as (s2 & Hrun2 & Hwf2 & Hbo2 & Hsel2 & _ & _ & _ & _ & Hon & Hout).
      exists s2. split; [exact Hrun2 |]. split; [| split].
      * split; [exact Hwf2 | split; [congruence |]].
        rewrite Hbo2. intros i Hi. apply in_or_app. left. apply Hinc1, Hi.
      * intros a b Hn. destruct (footprint_dec [(0, 0)] x y a b) as [(dx & dy & Hin & -> & ->) | Hall].
        -- rewrite (Hon dx dy Hin). discriminate.
        -- rewrite (Hout a b Hall). exact Hn.
      * intros _. specialize (Hon 0 0 (or_introl eq_refl)). rewrite !Z.add_0_r in Hon. rewrite Hon. discriminate.
  - exact Hg0.
  - exists st'. split; [exact Hrun |]. split; [exact Hg' |]. split; [exact Hm |].
    intros x y Hx Hy Hin. apply (Hgood x); [apply In_zrange; lia | apply In_zrange; lia | exact Hin].
Qed.

Lemma release_delete_ok (cfg : Cfg) (only_blockage : bool) (x0 y0 x1 y1 : Z) (st : St) :
  wf cfg st ->
  exists st', release_delete cfg only_blockage x0 y0 x1 y1 st = Ok tt st' /\
    wf cfg st' /\ selected_blocks st' = selected_blocks st /\ del_mono only_blockage st st' /\
    forall x y, Z.min x0 x1 <= x <= Z.max x0 x1 -> Z.min y0 y1 <= y <= Z.max y0 y1 ->
      in_grid cfg x y -> del_done only_blockage x y st'.
Proof.
  intros Hwf0. unfold release_delete.
  set (Inv := fun s => wf cfg s /\ selected_blocks s = selected_blocks st).
  assert (Hrefl : forall s, del_mono only_blockage s s)
    by (intros s; split; [reflexivity | split; [intros a b; right; reflexivity | tauto]]).
  assert (Htrans : forall s1 s2 s3, del_mono only_blockage s1 s2 -> del_mono only_blockage s2 s3 ->
                     del_mono only_blockage s1 s3).
  { intros s1 s2 s3 (E1 & G1 & B1) (E2 & G2 & B2).
    split; [congruence | split].
    - intros a b. destruct (G2 a b) as [N | E]; [left; exact N |]. rewrite E. apply G1.
    - intros Hob j Hj Hn. apply (B2 Hob); [apply (B1 Hob); assumption | rewrite E1; exact Hn]. }
  assert (Hstab : forall x y s1 s2, del_done only_blockage x y s1 -> del_mono only_blockage s1 s2 ->
                    del_done only_blockage x y s2).
  { intros x y s1 s2 H1 (E & G & _). unfold del_done in *.
    destruct (G x y) as [-> | ->]; [exact I |]. rewrite E. exact H1. }
  match goal with |- exists st', for_ ?L ?B st = _ /\ _ =>
  edestruct (loop_reach Inv (del_mono only_blockage)
               (fun x s => forall y, In y (zrange (Z.min y0 y1) (Z.max y0 y1 + 1)) ->
                                     in_grid cfg x y -> del_done only_blockage x y s) B)
    with (l := L) (st := st)
    as (st' & Hrun & (Hwf' & Hsel') & Hm & Hgood) end.
  - exact Hrefl.
  - exact Htrans.
  - intros x s1 s2 H1 H12 y Hy Hin. apply (Hstab x y s1 s2); [apply H1; assumption | exact H12].
  - intros x s Hs.
    apply (loop_reach Inv (del_mono only_blockage)
             (fun y s => in_grid cfg x y -> del_done only_blockage x y s));
      [exact Hrefl | exact Htrans | | | exact Hs].
    + intros y s1 s2 H1 H12 Hin. apply (Hstab x y s1 s2); [apply H1, Hin | exact H12].
    + intros y s1 Hs1. rewrite (bind_ok get _ s1 s1 s1 eq_refl). cbv beta.
      destruct ((0 <=? x) && (x <? GRID_WIDTH cfg) && (0 <=? y) && (y <? GRID_HEIGHT cfg)) eqn:Hb.
      2: { exists s1. split; [reflexivity | split; [exact Hs1 | split; [apply Hrefl |]]].
           intros Hin. apply in_grid_test_true in Hin. congruence. }
      destruct (grid_state s1 x y) as [k |] eqn:Hxy.
      2: { exists s1. split; [reflexivity | split; [exact Hs1 | split; [apply Hrefl |]]].
           intros _. unfold del_done. rewrite Hxy. exact I. }
      destruct Hs1 as [Hwf1 Hsel1].
      assert (Hk : In k (block_objects s1))
        by (destruct Hwf1 as (_ & (Hag1 & _) & _); exact (proj1 (Hag1 x y k Hxy))).
      rewrite (bind_ok _ _ _ _ _ (lookup_block_in k s1 Hk)).
      destruct (only_blockage && negb (String.eqb (cell_name (heap s1 k)) "Blockage")) eqn:Hskip.
      { exists s1. split; [reflexivity | split; [split; assumption | split; [apply Hrefl |]]].
        intros _. unfold del_done. rewrite Hxy. apply andb_true_iff in Hskip.
        destruct Hskip as [Ho Hn]. split; [exact Ho |]. apply negb_true_iff, String.eqb_neq in Hn. exact Hn. }
      rewrite (bind_ok get _ s1 s1 s1 eq_refl). cbv beta.
      eexists. split; [reflexivity |]. unfold Inv, del_mono. split; [| split; [split; [| split] |]].
      * split; [apply delete_put_wf; exact Hwf1 | exact Hsel1].
      * reflexivity.
      * cbn [grid_state]. intros a b. unfold clear_id.
        destruct (_ && opt_eqb _ _); [left | right]; reflexivity.
      * intros Hob j Hj Hn. cbn [block_objects]. apply filter_In. split; [exact Hj |].
        apply negb_true_iff, Nat.eqb_neq. intros ->. rewrite Hob in Hskip. cbn in Hskip.
        apply negb_false_iff, String.eqb_eq in Hskip. contradiction.
      * intros Hin. unfold del_done. cbn [grid_state]. unfold clear_id.
        apply in_grid_test_true in Hin. rewrite Hin, Hxy. cbn. rewrite Nat.eqb_refl. exact I.
  - split; [exact Hwf0 | reflexivity].
  - exists st'. split; [exact Hrun |]. split; [exact Hwf' |]. split; [exact Hsel' |]. split; [exact Hm |].
    intros x y Hx Hy Hin. apply (Hgood x); [apply In_zrange; lia | apply In_zrange; lia | exact Hin].
Qed.

Lemma step_wf (cfg : Cfg) (st : St) (o : Op) (clean : bool) :
  wf cfg st -> sel_ok clean st ->
  match o with MoveBy _ _ => False | MoveTo _ | Swap => clean = true | _ => True end ->
  wf cfg (step cfg st o) /\
  sel_ok (match o with DeleteAt _ _ => false | SelectRegion _ _ _ _ _ => true | _ => clean end)
         (step cfg st o).
Proof.
  intros Hwf Hok Ho.
  assert (Hgrow : forall m : M St unit, keeps (grows_from cfg (selected_blocks st) (block_objects st)) m ->
            wf cfg (match m st with Ok _ s | Raise _ s => s end) /\
            sel_ok clean (match m st with Ok _ s | Raise _ s => s end)).
  { intros m Hk. specialize (Hk st (conj Hwf (conj eq_refl (fun i H => H)))).
    destruct (m st) as [_ s | _ s]; destruct Hk as (Hw & Hs & Hi);
      (split; [exact Hw | intros Hc j Hj; apply Hi, Hok; [exact Hc | rewrite <- Hs; exact Hj]]). }
  assert (Hsame : forall m : M St unit,
            keeps (fun s => wf cfg s /\ selected_blocks s = selected_blocks st /\
                            block_objects s = block_objects st) m ->
            wf cfg (match m st with Ok _ s | Raise _ s => s end) /\
            sel_ok clean (match m st with Ok _ s | Raise _ s => s end)).
  { intros m Hk. specialize (Hk st (conj Hwf (conj eq_refl eq_refl))).
    destruct (m st) as [_ s | _ s]; destruct Hk as (Hw & Hs & Hb);
      (split; [exact Hw | intros Hc; rewrite Hs, Hb; exact (Hok Hc)]). }
  unfold step. destruct o as [s | x y | x y | x y | wb x0 y0 x1 y1 | dx dy | s | d k |]; cbn [op_action].
  - apply Hsame. intros st1 (Hw & Hs & Hb). unfold select_shape, bind, get, put.
    split; [| split; assumption]. exact Hw.
  - apply Hgrow, place_click_keeps.
  - assert (Hk := delete_click_keeps cfg (selected_blocks st) x y st (conj Hwf eq_refl)).
    destruct (delete_click cfg x y st); destruct Hk as [Hw _]; (split; [exact Hw | discriminate]).
  - apply Hsame, orientation_click_keeps.
  - destruct (select_region_ok cfg st wb x0 y0 x1 y1 Hwf) as (sl & g' & Hrun & Heq & _ & Hmem).
    rewrite Hrun.
    assert (Hinc : incl sl (block_objects st)).
    { intros j Hj. apply Hmem in Hj. destruct Hj as (x & y & _ & _ & (_ & _ & Hg & _)).
      destruct Hwf as (_ & (Hag1 & _) & _). exact (proj1 (Hag1 x y j Hg)). }
    split; [| intros _; exact Hinc].
    apply (wf_transfer cfg (with_selected st sl)); try reflexivity; [exact Heq | tauto |].
    apply wf_with_selected; assumption.
  - contradiction.
  - apply Hsame. apply keeps_bind; [apply move_to_keeps; exact (Hok Ho) | intros _; apply keeps_ret].
  - apply Hgrow, duplicate_main_keeps.
  - apply Hsame, swap_main_keeps. exact (Hok Ho).
Qed.

Lemma run_wf (cfg : Cfg) (ops : list Op) :
  forall clean st, wf cfg st -> sel_ok clean st -> ops_ok clean ops = true -> wf cfg (run cfg st ops).
Proof.
  induction ops as [| o ops IH]; intros clean st Hwf Hok Hops; [exact Hwf |].
  unfold run. cbn [fold_left]. fold (run cfg (step cfg st o) ops).
  assert (Ho : match o with MoveBy _ _ => False | MoveTo _ | Swap => clean = true | _ => True end).
  { destruct o; cbn [ops_ok] in Hops; try exact I; try discriminate;
      apply andb_true_iff in Hops; exact (proj1 Hops). }
  destruct (step_wf cfg st o clean Hwf Hok Ho) as [Hw Hs].
  apply (IH _ _ Hw Hs).
  destruct o; cbn [ops_ok] in Hops; try exact Hops; try discriminate;
    apply andb_true_iff in Hops; exact (proj2 Hops).
Qed.

Lemma wf_not_marked_out (cfg : Cfg) (st : St) (a b : Z) (i : nat) :
  wf cfg st -> grid_state st a b = Some i -> in_grid cfg a b.
Proof. intros (Hbd & _) Hg. apply Hbd. rewrite Hg. discriminate. Qed.

Lemma delete_at_effect_aux (cfg : Cfg) (st : St) (x y : Z) (i : nat) :
  wf cfg st -> in_grid cfg x y -> grid_state st x y = Some i ->
  step cfg st (DeleteAt x y) =
  mkSt (clear_id cfg (grid_state st) i) (heap st)
       (filter (fun j => negb (Nat.eqb j i)) (block_objects st))
       (selected_blocks st) (selected_shape st) (next_id st).
Proof.
  intros Hwf [Hx Hy] Hg.
  assert (Hi : In i (block_objects st)) by (destruct Hwf as (_ & (Hag1 & _) & _); exact (proj1 (Hag1 x y i Hg))).
  unfold step. cbn [op_action]. unfold delete_click. rewrite (in_grid_test cfg x y Hx Hy).
  rewrite (bind_ok _ _ _ _ _ (get_cell_in cfg x y st Hx Hy)), Hg.
  rewrite (bind_ok _ _ _ _ _ (lookup_block_in i st Hi)). reflexivity.
Qed.

Lemma iter_next_orientation_mod (n : nat) (o : Orientation) :
  Nat.iter n next_orientation o = Nat.iter (n mod 5)%nat next_orientation o.
Proof.
  induction n as [n IH] using lt_wf_ind.
  destruct (Nat.lt_ge_cases n 5) as [Hlt | Hge]; [rewrite Nat.mod_small by exact Hlt; reflexivity |].
  replace n with ((n - 5) + 5)%nat by lia.
  rewrite Nat.iter_add.
  replace (Nat.iter 5 next_orientation o) with o by (destruct o; reflexivity).
  rewrite IH by lia. f_equal. rewrite Nat.Div0.add_mod, Nat.Div0.mod_same, Nat.add_0_r, Nat.Div0.mod_mod.
  reflexivity.
Qed.

Lemma iter_next_orientation_id (n : nat) (o : Orientation) :
  Nat.iter n next_orientation o = o <-> (n mod 5 = 0)%nat.
Proof.
  rewrite iter_next_orientation_mod.
  assert (Hr : (n mod 5 < 5)%nat) by (apply Nat.mod_upper_bound; lia).
  destruct (n mod 5)%nat as [| [| [| [| [| r]]]]]; [| | | | | lia];
    (split; [destruct o; cbn; congruence | intros E; try discriminate; reflexivity]).
Qed.

Lemma iter_update_orientation (n : nat) (b : BlockObject) :
  Nat.iter n update_orientation b =
  mkBlock (cell_name b) (data_x b) (data_y b) (Nat.iter n next_orientation (orientation b)) (block_shape b).
Proof.
  induction n as [| n IH]; [destruct b; reflexivity |].
  rewrite Nat.iter_succ, IH. reflexivity.
Qed.

(** [n] orientation clicks on a cell of block [i]. *)
Lemma rotate_clicks_aux (cfg : Cfg) (x y : Z) (i : nat) (n : nat) :
  forall st, wf cfg st -> in_grid cfg x y -> grid_state st x y = Some i ->
  let st' := run cfg st (repeat (RotateAt x y) n) in
  wf cfg st' /\ (forall a b, grid_state st' a b = grid_state st a b) /\
  heap st' i = Nat.iter n update_orientation (heap st i) /\
  (forall j, j <> i -> heap st' j = heap st j) /\
  block_objects st' = block_objects st /\ selected_blocks st' = selected_blocks st /\
  selected_shape st' = selected_shape st /\ next_id st' = next_id st.
Proof.
  induction n as [| n IH]; intros st Hwf Hin Hg; cbv zeta.
  - cbn. split; [exact Hwf | split; [reflexivity | split; [reflexivity | split; [reflexivity | tauto]]]].
  - destruct Hin as [Hx Hy].
    destruct (orientation_click_ok cfg st x y i Hwf Hx Hy Hg) as (g' & Hrun & Heq).
    assert (Hs : step cfg st (RotateAt x y) =
                 mkSt g' (fun j => if Nat.eqb j i then update_orientation (heap st i) else heap st j)
                      (block_objects st) (selected_blocks st) (selected_shape st) (next_id st))
      by (unfold step; cbn [op_action]; rewrite Hrun; reflexivity).
    set (st1 := mkSt _ _ _ _ _ _) in Hs.
    assert (Hwf1 : wf cfg st1).
    { apply (wf_transfer cfg st); try reflexivity; [exact Heq | | exact Hwf].
      intros j. cbn [st1 heap]. destruct (Nat.eqb j i) eqn:E; [apply Nat.eqb_eq in E; subst j; cbn; tauto | tauto]. }
    assert (Hg1 : grid_state st1 x y = Some i) by (cbn [st1 grid_state]; rewrite Heq; exact Hg).
    destruct (IH st1 Hwf1 (conj Hx Hy) Hg1) as (Hw & Hgr & Hhi & Hhj & Hbo & Hsel & Hsh & Hn).
    change (run cfg st (repeat (RotateAt x y) (S n))) with (run cfg (step cfg st (RotateAt x y)) (repeat (RotateAt x y) n)).
    rewrite Hs.
    split; [exact Hw |]. split; [intros a b; rewrite Hgr; apply Heq |].
    split; [| split; [| exact (conj Hbo (conj Hsel (conj Hsh Hn)))]].
    + rewrite Hhi. cbn [st1 heap]. rewrite Nat.eqb_refl. rewrite <- Nat.iter_succ_r. reflexivity.
    + intros j Hj. rewrite (Hhj j Hj). cbn [st1 heap]. apply Nat.eqb_neq in Hj. rewrite Hj. reflexivity.
Qed.

Lemma assoc_dict_set {A} (k k' : string) (v : A) (d : list (string * A)) :
  assoc k (dict_set k' v d) = if String.eqb k k' then Some v else assoc k d.
Proof.
  induction d as [| [k1 v1] d IH]; cbn [dict_set].
  - cbn. reflexivity.
  - destruct (String.eqb k' k1) eqn:E1.
    + apply String.eqb_eq in E1. subst k1. cbn. destruct (String.eqb k k'); reflexivity.
    + cbn. rewrite IH. destruct (String.eqb k k1) eqn:E2; [| reflexivity].
      apply String.eqb_eq in E2. subst k1.
      destruct (String.eqb k k') eqn:E3; [| reflexivity].
      apply String.eqb_eq in E3. subst k'. rewrite String.eqb_refl in E1. discriminate.
Qed.

Lemma keys_dict_set {A} (k : string) (v : A) (d : list (string * A)) :
  map fst (dict_set k v d) = if existsb (String.eqb k) (map fst d) then map fst d else map fst d ++ [k].
Proof.
  induction d as [| [k1 v1] d IH]; [reflexivity |].
  cbn [dict_set map existsb fst].
  destruct (String.eqb k k1) eqn:E; cbn [orb map fst]; [reflexivity |].
  rewrite IH. destruct (existsb (String.eqb k) (map fst d)); reflexivity.
Qed.

Lemma keys_dict_set_same {A B} (k : string) (v : A) (w : B) (d : list (string * A)) (e : list (string * B)) :
  map fst d = map fst e -> map fst (dict_set k v d) = map fst (dict_set k w e).
Proof. intros E. rewrite !keys_dict_set, E. reflexivity. Qed.

Lemma NoDup_keys_dict_set {A} (k : string) (v : A) (d : list (string * A)) :
  NoDup (map fst d) -> NoDup (map fst (dict_set k v d)).
Proof.
  intros Hnd. rewrite keys_dict_set. destruct (existsb (String.eqb k) (map fst d)) eqn:E; [exact Hnd |].
  apply NoDup_app; [exact Hnd | constructor; [intros [] | constructor] |].
  intros x Hx [-> | []]. rewrite <- not_true_iff_false in E. apply E.
  apply existsb_exists. exists x. split; [exact Hx | apply String.eqb_refl].
Qed.

Lemma read_block_config_app {P} (rows1 rows2 : list (BlockRow P)) :
  read_block_config (rows1 ++ rows2) =
  fold_left (fun '(shape_buttons, shape_colors, shape_pinsides) row =>
    (dict_set (block_name row) (buttons_of (width row) (height row)) shape_buttons,
     dict_set (block_name row) (color row) shape_colors,
     dict_set (block_name row) (pinside row) shape_pinsides)) rows2 (read_block_config rows1).
Proof. unfold read_block_config. rewrite fold_left_app. reflexivity. Qed.

Lemma read_rows_absent {P} (name : string) (rows : list (BlockRow P)) :
  forall sb sc sp,
  (forall r, In r rows -> block_name r <> name) ->
  let '(sb', sc', sp') :=
    fold_left (fun '(shape_buttons, shape_colors, shape_pinsides) row =>
      (dict_set (block_name row) (buttons_of (width row) (height row)) shape_buttons,
       dict_set (block_name row) (color row) shape_colors,
       dict_set (block_name row) (pinside row) shape_pinsides)) rows (sb, sc, sp) in
  assoc name sb' = assoc name sb /\ assoc name sc' = assoc name sc /\ assoc name sp' = assoc name sp /\
  (map fst sb = map fst sc -> map fst sb = map fst sp ->
     map fst sb' = map fst sc' /\ map fst sb' = map fst sp') /\
  (NoDup (map fst sb) -> NoDup (map fst sb')).
Proof.
  induction rows as [| r rows IH]; intros sb sc sp Hn; [cbn; tauto |].
  cbn [fold_left].
  assert (Hr : String.eqb name (block_name r) = false)
    by (apply String.eqb_neq; intros E; apply (Hn r (or_introl eq_refl)); symmetry; exact E).
  specialize (IH (dict_set (block_name r) (buttons_of (width r) (height r)) sb)
                 (dict_set (block_name r) (color r) sc) (dict_set (block_name r) (pinside r) sp)
                 (fun r' H => Hn r' (or_intror H))).
  destruct (fold_left _ rows _) as [[sb' sc'] sp'].
  destruct IH as (E1 & E2 & E3 & Hk & Hnd).
  rewrite E1, E2, E3, !assoc_dict_set, Hr.
  split; [reflexivity | split; [reflexivity | split; [reflexivity | split]]].
  - intros K1 K2. apply Hk; apply keys_dict_set_same; assumption.
  - intros H. apply Hnd, NoDup_keys_dict_set, H.
Qed.

Lemma In_keys_dict_set {A} (k k' : string) (v : A) (d : list (string * A)) :
  In k' (map fst (dict_set k v d)) <-> k' = k \/ In k' (map fst d).
Proof.
  rewrite keys_dict_set. destruct (existsb (String.eqb k) (map fst d)) eqn:E.
  - apply existsb_exists in E. destruct E as (k1 & Hk1 & Ek). apply String.eqb_eq in Ek. subst k1.
    split; [tauto | intros [-> | H]; assumption].
  - rewrite in_app_iff. cbn [In]. split.
    + intros [H | [<- | []]]; tauto.
    + intros [-> | H]; tauto.
Qed.

Lemma read_rows_keys {P} (rows : list (BlockRow P)) :
  forall sb sc sp,
  map fst sb = map fst sc -> map fst sb = map fst sp -> NoDup (map fst sb) ->
  let '(sb', sc', sp') :=
    fold_left (fun '(shape_buttons, shape_colors, shape_pinsides) row =>
      (dict_set (block_name row) (buttons_of (width row) (height row)) shape_buttons,
       dict_set (block_name row) (color row) shape_colors,
       dict_set (block_name row) (pinside row) shape_pinsides)) rows (sb, sc, sp) in
  map fst sb' = map fst sc' /\ map fst sb' = map fst sp' /\ NoDup (map fst sb') /\
  (forall name, In name (map fst sb') <-> In name (map fst sb) \/ exists r, In r rows /\ block_name r = name).
Proof.
  induction rows as [| r rows IH]; intros sb sc sp K1 K2 Hnd.
  - cbn. split; [exact K1 | split; [exact K2 | split; [exact Hnd |]]].
    intros name. split; [tauto | intros [H | (r & [] & _)]; exact H].
  - cbn [fold_left].
    specialize (IH (dict_set (block_name r) (buttons_of (width r) (height r)) sb)
                   (dict_set (block_name r) (color r) sc) (dict_set (block_name r) (pinside r) sp)
                   (keys_dict_set_same _ _ _ _ _ K1) (keys_dict_set_same _ _ _ _ _ K2)
                   (NoDup_keys_dict_set _ _ _ Hnd)).
    destruct (fold_left _ rows _) as [[sb' sc'] sp'].
    destruct IH as (E1 & E2 & Hnd' & Hin).
    split; [exact E1 | split; [exact E2 | split; [exact Hnd' |]]].
    intros name. rewrite Hin, In_keys_dict_set. split.
    + intros [[-> | H] | (r' & Hr' & <-)]; [right; exists r; split; [left |]; reflexivity | left; exact H |].
      right. exists r'. split; [right |]; trivial.
    + intros [H | (r' & [<- | Hr'] & <-)]; [left; right; exact H | left; left; reflexivity |].
      right. exists r'. split; trivial.
Qed.

Lemma digit_not_letter (c : ascii) : is_digit c = true -> is_letter c = false.
Proof.
  unfold is_letter, is_digit. intros Hc. apply andb_true_iff in Hc. destruct Hc as [H1 H2].
  apply Nat.leb_le in H1, H2.
  apply orb_false_iff. split; apply andb_false_iff; left; apply Nat.leb_gt; lia.
Qed.

Lemma span_digit_head (t : string) : no_digit_head t = true -> span is_digit t = (""%string, t).
Proof.
  destruct t as [| c t]; [reflexivity |]. cbn. intros H. apply negb_true_iff in H. rewrite H. reflexivity.
Qed.

Lemma match_target_suffix (cs ds t : string) :
  cs <> "" -> ds <> "" ->
  (forall c, In c (list_ascii_of_string cs) -> is_letter c = true) ->
  (forall c, In c (list_ascii_of_string ds) -> is_digit c = true) ->
  no_digit_head t = true ->
  match_target (cs ++ ds ++ t) = Some (cs, ds).
Proof.
  intros Hcs Hds Hl Hd Ht. unfold match_target.
  rewrite (span_app is_letter cs (ds ++ t) Hl).
  assert (Hsd : span is_letter (ds ++ t) = (""%string, (ds ++ t)%string)).
  { destruct ds as [| c ds']; [congruence |].
    cbn. rewrite (digit_not_letter c (Hd c (or_introl eq_refl))). reflexivity. }
  rewrite Hsd. cbn [fst snd]. rewrite string_app_nil_r.
  rewrite (span_app is_digit ds t Hd), (span_digit_head t Ht). cbn [fst snd].
  rewrite string_app_nil_r.
  destruct cs as [| c cs']; [congruence |].
  destruct ds as [| d ds']; [congruence |].
  reflexivity.
Qed.

Lemma nonempty_app_l (s t : string) : s <> ""%string -> (s ++ t)%string <> ""%string.
Proof. destruct s; [congruence | discriminate]. Qed.

Lemma move_to_suffix_aux (cfg : Cfg) (cs ds t : string) (st : St) :
  cs <> "" -> ds <> "" ->
  (forall c, In c (list_ascii_of_string cs) -> is_letter c = true) ->
  (forall c, In c (list_ascii_of_string ds) -> is_digit c = true) ->
  no_digit_head t = true ->
  move_to cfg (cs ++ ds ++ t) st = move_to cfg (cs ++ ds) st.
Proof.
  intros Hcs Hds Hl Hd Ht. unfold move_to.
  rewrite (bind_ok get _ st st st eq_refl), (bind_ok get _ st st st eq_refl). cbv beta.
  destruct (selected_blocks st) as [| oid [| ? ?]]; [reflexivity | | reflexivity].
  rewrite (proj2 (String.eqb_neq _ _) (nonempty_app_l cs (ds ++ t) Hcs)).
  rewrite (proj2 (String.eqb_neq _ _) (nonempty_app_l cs ds Hcs)).
  rewrite (match_target_suffix cs ds t Hcs Hds Hl Hd Ht), (match_target_app cs ds Hcs Hds Hl Hd).
  reflexivity.
Qed.

Lemma excel_col_to_index_fold (s : string) :
  excel_col_to_index s = fold_left (fun col ch => col * 26 + col_digit ch) (list_ascii_of_string s) 0 - 1.
Proof. reflexivity. Qed.

Lemma col_digit_range (c : ascii) : is_letter c = true -> 1 <= col_digit c <= 26.
Proof.
  unfold is_letter, col_digit, ascii_upper. intros H.
  assert (Hn : (nat_of_ascii c < 256)%nat) by apply nat_ascii_bounded.
  destruct ((97 <=? nat_of_ascii c)%nat && (nat_of_ascii c <=? 122)%nat) eqn:E.
  - apply andb_true_iff in E. destruct E as [E1 E2]. apply Nat.leb_le in E1, E2.
    rewrite nat_ascii_embedding by lia. cbn - [Z.of_nat]. lia.
  - apply orb_true_iff in H. destruct H as [H | H]; [| discriminate].
    apply andb_true_iff in H. destruct H as [H1 H2]. apply Nat.leb_le in H1, H2.
    cbn - [Z.of_nat]. lia.
Qed.

Lemma col_digit_inj (c1 c2 : ascii) : is_letter c1 = true -> is_letter c2 = true ->
  col_digit c1 = col_digit c2 -> ascii_upper c1 = ascii_upper c2.
Proof.
  intros _ _. unfold col_digit. intros E.
  assert (E' : nat_of_ascii (ascii_upper c1) = nat_of_ascii (ascii_upper c2)) by lia.
  rewrite <- (ascii_nat_embedding (ascii_upper c1)), <- (ascii_nat_embedding (ascii_upper c2)), E'.
  reflexivity.
Qed.

Lemma horner26_snoc (l : list ascii) (c : ascii) : horner26 (l ++ [c]) = horner26 l * 26 + col_digit c.
Proof. unfold horner26. rewrite fold_left_app. reflexivity. Qed.

Lemma horner26_pos (l : list ascii) : (forall c, In c l -> is_letter c = true) ->
  (l = [] /\ horner26 l = 0) \/ (l <> [] /\ 1 <= horner26 l).
Proof.
  induction l as [| c l IH] using rev_ind; intros Hl; [left; split; reflexivity |].
  right. split; [destruct l; discriminate |].
  rewrite horner26_snoc.
  assert (Hc : is_letter c = true) by (apply Hl, in_or_app; right; left; reflexivity).
  assert (R := col_digit_range c Hc).
  assert (Hl' : forall c', In c' l -> is_letter c' = true) by (intros c' H; apply Hl, in_or_app; left; exact H).
  destruct (IH Hl') as [[_ E] | [_ E]]; lia.
Qed.

Lemma horner26_inj (l1 l2 : list ascii) :
  (forall c, In c l1 -> is_letter c = true) -> (forall c, In c l2 -> is_letter c = true) ->
  horner26 l1 = horner26 l2 -> map ascii_upper l1 = map ascii_upper l2.
Proof.
  revert l2. induction l1 as [| c1 l1 IH] using rev_ind; intros l2 H1 H2 E.
  - destruct (horner26_pos l2 H2) as [[-> _] | [_ E2]]; [reflexivity |]. cbn in E. lia.
  - destruct l2 as [| c2 l2 _] using rev_ind.
    + destruct (horner26_pos (l1 ++ [c1]) H1) as [[E1 _] | [_ E1]]; [destruct l1; discriminate |].
      cbn in E. lia.
    + rewrite !horner26_snoc in E.
      assert (Hl1 : forall c, In c l1 -> is_letter c = true) by (intros c H; apply H1, in_or_app; left; exact H).
      assert (Hl2 : forall c, In c l2 -> is_letter c = true) by (intros c H; apply H2, in_or_app; left; exact H).
      assert (Hc1 : is_letter c1 = true) by (apply H1, in_or_app; right; left; reflexivity).
      assert (Hc2 : is_letter c2 = true) by (apply H2, in_or_app; right; left; reflexivity).
      assert (R1 := col_digit_range c1 Hc1). assert (R2 := col_digit_range c2 Hc2).
      assert (Ed : col_digit c1 = col_digit c2).
      { destruct (horner26_pos l1 Hl1) as [[_ P1] | [_ P1]];
        destruct (horner26_pos l2 Hl2) as [[_ P2] | [_ P2]]; lia. }
      assert (Eh : horner26 l1 = horner26 l2) by lia.
      rewrite !map_app, (IH l2 Hl1 Hl2 Eh). cbn [map]. rewrite (col_digit_inj c1 c2 Hc1 Hc2 Ed). reflexivity.
Qed.

Lemma horner26_map_upper (l1 l2 : list ascii) :
  map ascii_upper l1 = map ascii_upper l2 -> horner26 l1 = horner26 l2.
Proof.
  revert l2. induction l1 as [| c1 l1 IH]; intros [| c2 l2] E; try discriminate; [reflexivity |].
  cbn in E. injection E as Ec El.
  unfold horner26. cbn [fold_left].
  assert (Hd : col_digit c1 = col_digit c2) by (unfold col_digit; rewrite Ec; reflexivity).
  rewrite Hd.
  assert (G : forall l1 l2 a, map ascii_upper l1 = map ascii_upper l2 ->
            fold_left (fun col ch => col * 26 + col_digit ch) l1 a =
            fold_left (fun col ch => col * 26 + col_digit ch) l2 a).
  { clear. induction l1 as [| c1 l1 IH]; intros [| c2 l2] a E; try discriminate; [reflexivity |].
    cbn in E. injection E as Ec El. cbn [fold_left].
    assert (Hd : col_digit c1 = col_digit c2) by (unfold col_digit; rewrite Ec; reflexivity).
    rewrite Hd. apply IH, El. }
  apply G, El.
Qed.

Lemma excel_col_to_index_inj_aux (s1 s2 : string) :
  (forall c, In c (list_ascii_of_string s1) -> is_letter c = true) ->
  (forall c, In c (list_ascii_of_string s2) -> is_letter c = true) ->
  excel_col_to_index s1 = excel_col_to_index s2 <->
  map ascii_upper (list_ascii_of_string s1) = map ascii_upper (list_ascii_of_string s2).
Proof.
  intros H1 H2. rewrite !excel_col_to_index_fold. fold (horner26 (list_ascii_of_string s1)).
  fold (horner26 (list_ascii_of_string s2)). split.
  - intros E. apply horner26_inj; [exact H1 | exact H2 | lia].
  - intros E. rewrite (horner26_map_upper _ _ E). reflexivity.
Qed.

Lemma edge_guard_passes (cfg : Cfg) (x y : Z) :
  x <= GRID_WIDTH cfg -> y <= GRID_HEIGHT cfg -> ((x >? GRID_WIDTH cfg) || (y >? GRID_HEIGHT cfg))%bool = false.
Proof.
  intros Hx Hy. apply orb_false_iff. split; rewrite Z.gtb_ltb; apply Z.ltb_ge; lia.
Qed.

Lemma py_index_len (len : Z) : 0 <= len -> py_index len len = None.
Proof.
  intros H. unfold py_index.
  destruct (Z.ltb_spec len len); [lia |]. rewrite andb_false_r.
  destruct (Z.ltb_spec len 0); [lia |]. rewrite andb_false_r. reflexivity.
Qed.

Lemma get_cell_edge (cfg : Cfg) (x y : Z) (st : St) :
  0 <= GRID_WIDTH cfg -> 0 <= GRID_HEIGHT cfg ->
  (x = GRID_WIDTH cfg \/ y = GRID_HEIGHT cfg) ->
  get_cell cfg x y st = Raise IndexError st.
Proof.
  intros Hw Hh Hxy. unfold get_cell.
  destruct Hxy as [-> | ->].
  - rewrite (py_index_len _ Hw). reflexivity.
  - rewrite (py_index_len _ Hh). destruct (py_index (GRID_WIDTH cfg) x); reflexivity.
Qed.


Lemma stale_swap_aux (cfg : Cfg) (st : St) (oid : nat) (target : string) (dx dy : Z) :
  wf cfg st -> selected_blocks st = [oid] -> ~ In oid (block_objects st) ->
  selected_shape st = Some target ->
  assoc target (SHAPE_BUTTONS cfg) = Some (block_shape (heap st oid)) ->
  (forall dx dy, In (dx, dy) (block_shape (heap st oid)) ->
     0 <= data_x (heap st oid) + dx < GRID_WIDTH cfg /\ 0 <= data_y (heap st oid) + dy < GRID_HEIGHT cfg) ->
  In (dx, dy) (block_shape (heap st oid)) ->
  let st' := step cfg st Swap in
  grid_state st' (data_x (heap st oid) + dx) (data_y (heap st oid) + dy) = Some oid /\
  ~ In oid (block_objects st') /\ ~ grid_agrees st'.
Proof.
  intros Hwf Hsel Hnot Hsh Ht Hin Hd. cbv zeta.
  assert (Hwf' := Hwf). destruct Hwf' as (Hbd & _ & Hcons & _ & Hslt).
  assert (Hcur := Hcons oid (Hslt oid (ltac:(rewrite Hsel; left; reflexivity)))).
  unfold step. cbn [op_action]. unfold swap_main.
  rewrite (bind_ok get _ st st st eq_refl). cbv beta. rewrite Hsel, Hsh.
  rewrite for_cons.
  assert (Heq : cells_eqb (block_shape (heap st oid)) (block_shape (heap st oid)) = true)
    by (apply cells_eqb_iff; reflexivity).
  set (h' := fun j => if Nat.eqb j oid then rename (heap st oid) target else heap st j).
  assert (Hb : heap (with_heap st h') oid = rename (heap st oid) target)
    by (unfold h'; cbn [heap with_heap]; rewrite Nat.eqb_refl; reflexivity).
  destruct (draw_block_ok cfg oid (with_heap st h') (block_shape (heap st oid))) as (g' & Hrun & _ & Hon).
  { rewrite Hb. exact Ht. }
  { rewrite Hb. exact Hin. }
  assert (Hsw : swap_block cfg oid target st = Ok tt (with_grid (with_heap st h') g')).
  { unfold swap_block. rewrite (bind_ok get _ st st st eq_refl). cbv beta.
    rewrite (bind_ok _ _ _ _ _ (lookup_shape_ok cfg _ _ st Hcur)).
    rewrite (bind_ok _ _ _ _ _ (lookup_shape_ok cfg _ _ st Ht)). rewrite Heq.
    rewrite (bind_ok (store oid (rename (heap st oid) target)) _ st (with_heap st h') tt eq_refl).
    exact Hrun. }
  rewrite (bind_ok _ _ _ _ _ Hsw). cbn [for_ ret].
  rewrite Hb in Hon. cbn [data_x data_y block_shape rename] in Hon.
  assert (Hg : grid_state (with_grid (with_heap st h') g') (data_x (heap st oid) + dx) (data_y (heap st oid) + dy) = Some oid)
    by (cbn [with_grid grid_state]; apply Hon; exact Hd).
  split; [exact Hg |]. split; [exact Hnot |].
  intros (Hag1 & _). apply Hnot. exact (proj1 (Hag1 _ _ _ Hg)).
Qed.

Lemma place_click_reach (cfg : Cfg) (x y : Z) (st : St) (shape : string) :
  x <= GRID_WIDTH cfg -> y <= GRID_HEIGHT cfg ->
  selected_shape st = Some shape -> shape <> ""%string ->
  place_click cfg x y st =
  (ok <- is_legal_location cfg x y shape ;;
   if negb ok then ret tt else
   bs <- lookup_shape cfg shape ;;
   oid <- new_block shape x y bs R0 ;;
   draw_block cfg oid ;;
   register oid) st.
Proof.
  intros Hx Hy Hsh Hne. unfold place_click. rewrite (edge_guard_passes cfg x y Hx Hy).
  rewrite (bind_ok get _ st st st eq_refl). cbv beta. rewrite Hsh.
  rewrite (proj2 (String.eqb_neq _ _) Hne). reflexivity.
Qed.

Lemma place_at_aux (cfg : Cfg) (st : St) (x y : Z) (shape : string) (bs : list Cell) :
  wf cfg st -> selected_shape st = Some shape -> shape <> ""%string ->
  x <= GRID_WIDTH cfg -> y <= GRID_HEIGHT cfg ->
  assoc shape (SHAPE_BUTTONS cfg) = Some bs -> bs <> [] ->
  legal_cells cfg (grid_state st) x y bs = true ->
  let st' := step cfg st (PlaceAt x y) in
  wf cfg st' /\
  block_objects st' = block_objects st ++ [next_id st] /\
  selected_blocks st' = selected_blocks st /\
  heap st' (next_id st) = mkBlock shape x y R0 bs /\
  (forall j, j <> next_id st -> heap st' j = heap st j) /\
  (forall dx dy, In (dx, dy) bs -> grid_state st' (x + dx) (y + dy) = Some (next_id st)) /\
  (forall a b, (forall dx dy, In (dx, dy) bs -> a <> x + dx \/ b <> y + dy) ->
     grid_state st' a b = grid_state st a b).
Proof.
  intros Hwf Hsh Hne Hx Hy Hcat Hbs Hl. cbv zeta.
  destruct (add_block_wf cfg shape x y bs R0 st Hwf Hcat Hbs Hl)
    as (st' & Hrun & Hwf' & Hbo & Hsel & _ & _ & Hh & Hk & Hon & Hout).
  assert (E : step cfg st (PlaceAt x y) = st').
  { unfold step. cbn [op_action]. rewrite (place_click_reach cfg x y st shape Hx Hy Hsh Hne).
    rewrite (bind_ok _ _ _ _ _ (is_legal_location_ok cfg x y shape bs st Hcat)), Hl. cbn [negb].
    rewrite (bind_ok _ _ _ _ _ (lookup_shape_ok cfg shape bs st Hcat)), Hrun. reflexivity. }
  rewrite E. tauto.
Qed.

Lemma place_click_refusals (cfg : Cfg) (st : St) (x y : Z) (shape : string) :
  selected_shape st = Some shape -> shape <> ""%string ->
  x <= GRID_WIDTH cfg -> y <= GRID_HEIGHT cfg ->
  (assoc shape (SHAPE_BUTTONS cfg) = None -> place_click cfg x y st = Raise KeyError st) /\
  (assoc shape (SHAPE_BUTTONS cfg) = Some [] -> place_click cfg x y st = Raise ValueError st) /\
  (forall bs, assoc shape (SHAPE_BUTTONS cfg) = Some bs ->
     legal_cells cfg (grid_state st) x y bs = false -> place_click cfg x y st = Ok tt st).
Proof.
  intros Hsh Hne Hx Hy. rewrite (place_click_reach cfg x y st shape Hx Hy Hsh Hne).
  split; [| split].
  - intros Hn. unfold is_legal_location, lookup_shape, bind. rewrite Hn. reflexivity.
  - intros He. rewrite (bind_ok _ _ _ _ _ (is_legal_location_ok cfg x y shape [] st He)). cbn [legal_cells forallb negb].
    rewrite (bind_ok _ _ _ _ _ (lookup_shape_ok cfg shape [] st He)). reflexivity.
  - intros bs Hc Hl. rewrite (bind_ok _ _ _ _ _ (is_legal_location_ok cfg x y shape bs st Hc)), Hl.
    reflexivity.
Qed.

Lemma wf_session (cfg : Cfg) (ops : list Op) : ops_ok true ops = true -> wf cfg (run cfg init_state ops).
Proof. intros H. apply (run_wf cfg ops true init_state (wf_init cfg)); [intros _ a [] | exact H]. Qed.

Lemma wf_one_placed : wf cfg_row3 one_placed.
Proof. apply wf_session. reflexivity. Qed.

Lemma wf_two_placed : wf cfg_row3 two_placed.
Proof. apply wf_session. reflexivity. Qed.

Lemma wf_u_chosen : wf cfg_row3 u_chosen.
Proof. apply wf_session. reflexivity. Qed.

Lemma wf_stale_selected : wf cfg_row3 stale_selected.
Proof. apply wf_session. reflexivity. Qed.

Lemma wf_a_selected : wf cfg_10x10 a_selected.
Proof. apply wf_session. reflexivity. Qed.

(** X1. In Place mode, a click at (x, y) inside the click guard with a
    non-empty selected shape whose catalog footprint is non-empty and legal
    there registers exactly one new block: next id, the shape's name, anchor
    (x, y), orientation R0, the catalog footprint; its cells are marked with
    its id, other cells, blocks and the selection are unchanged. *)
Theorem X1_place_at_adds_block (cfg : Cfg) (st : St) (x y : Z) (shape : string) (bs : list Cell)
    (Hwf : wf cfg st) (Hsh : selected_shape st = Some shape) (Hne : shape <> ""%string)
    (Hx : x <= GRID_WIDTH cfg) (Hy : y <= GRID_HEIGHT cfg)
    (Hcat : assoc shape (SHAPE_BUTTONS cfg) = Some bs) (Hbs : bs <> [])
    (Hl : legal_cells cfg (grid_state st) x y bs = true) :
  let st' := step cfg st (PlaceAt x y) in
  wf cfg st' /\
  block_objects st' = block_objects st ++ [next_id st] /\
  selected_blocks st' = selected_blocks st /\
  heap st' (next_id st) = mkBlock shape x y R0 bs /\
  (forall j, j <> next_id st -> heap st' j = heap st j) /\
  (forall dx dy, In (dx, dy) bs -> grid_state st' (x + dx) (y + dy) = Some (next_id st)) /\
  (forall a b, (forall dx dy, In (dx, dy) bs -> a <> x + dx \/ b <> y + dy) ->
     grid_state st' a b = grid_state st a b).
Proof. exact (place_at_aux cfg st x y shape bs Hwf Hsh Hne Hx Hy Hcat Hbs Hl). Qed.

Lemma X1_witness :
  wf cfg_row3 u_chosen /\
  (let st' := step cfg_row3 u_chosen (PlaceAt 1 0) in
   wf cfg_row3 st' /\
   block_objects st' = block_objects u_chosen ++ [next_id u_chosen] /\
   selected_blocks st' = selected_blocks u_chosen /\
   heap st' (next_id u_chosen) = mkBlock "U" 1 0 R0 [(0, 0)] /\
   (forall j, j <> next_id u_chosen -> heap st' j = heap u_chosen j) /\
   (forall dx dy, In (dx, dy) [(0, 0)] -> grid_state st' (1 + dx) (0 + dy) = Some (next_id u_chosen)) /\
   (forall a b, (forall dx dy, In (dx, dy) [(0, 0)] -> a <> 1 + dx \/ b <> 0 + dy) ->
      grid_state st' a b = grid_state u_chosen a b)).
Proof.
  split; [exact wf_u_chosen |].
  apply (X1_place_at_adds_block cfg_row3 u_chosen 1 0 "U" [(0, 0)] wf_u_chosen);
    [reflexivity | discriminate | vm_compute; discriminate | vm_compute; discriminate
    | reflexivity | discriminate | vm_compute; reflexivity].
Defined.

(** X2. Any Place-mode click keeps a well formed session well formed, keeps
    the selection and removes no registered block. *)
Theorem X2_place_keeps_wf (cfg : Cfg) (st : St) (x y : Z) (Hwf : wf cfg st) :
  let st' := step cfg st (PlaceAt x y) in
  wf cfg st' /\ selected_blocks st' = selected_blocks st /\ incl (block_objects st) (block_objects st').
Proof.
  apply (step_keeps cfg (grows_from cfg (selected_blocks st) (block_objects st))).
  - apply place_click_keeps.
  - split; [exact Hwf | split; [reflexivity | apply incl_refl]].
Qed.

Lemma X2_witness :
  wf cfg_row3 one_placed /\
  (let st' := step cfg_row3 one_placed (PlaceAt 0 0) in
   wf cfg_row3 st' /\ selected_blocks st' = selected_blocks one_placed /\
   incl (block_objects one_placed) (block_objects st')).
Proof. split; [exact wf_one_placed | exact (X2_place_keeps_wf cfg_row3 one_placed 0 0 wf_one_placed)]. Defined.

(** X3. A Place click that passes the guard, with a non-empty selected shape,
    raises KeyError when the shape is not in the catalog, ValueError when its
    footprint is empty, and does nothing when the location is illegal; the
    state is unchanged in all three cases. *)
Theorem X3_place_click_refusals (cfg : Cfg) (st : St) (x y : Z) (shape : string)
    (Hsh : selected_shape st = Some shape) (Hne : shape <> ""%string)
    (Hx : x <= GRID_WIDTH cfg) (Hy : y <= GRID_HEIGHT cfg) :
  (assoc shape (SHAPE_BUTTONS cfg) = None -> place_click cfg x y st = Raise KeyError st) /\
  (assoc shape (SHAPE_BUTTONS cfg) = Some [] -> place_click cfg x y st = Raise ValueError st) /\
  (forall bs, assoc shape (SHAPE_BUTTONS cfg) = Some bs ->
     legal_cells cfg (grid_state st) x y bs = false -> place_click cfg x y st = Ok tt st).
Proof. exact (place_click_refusals cfg st x y shape Hsh Hne Hx Hy). Qed.

Lemma X3_witness :
  let cfg := mkCfg 3 1 [("U", [(0, 0)]); ("E", [])] in
  let st := run cfg init_state [SelectShape "V"] in
  selected_shape st = Some "V" /\ "V" <> ""%string /\ 0 <= GRID_WIDTH cfg /\ 0 <= GRID_HEIGHT cfg /\
  ((assoc "V" (SHAPE_BUTTONS cfg) = None -> place_click cfg 0 0 st = Raise KeyError st) /\
   (assoc "V" (SHAPE_BUTTONS cfg) = Some [] -> place_click cfg 0 0 st = Raise ValueError st) /\
   (forall bs, assoc "V" (SHAPE_BUTTONS cfg) = Some bs ->
      legal_cells cfg (grid_state st) 0 0 bs = false -> place_click cfg 0 0 st = Ok tt st)).
Proof.
  cbv zeta. split; [reflexivity |]. split; [discriminate |]. split; [vm_compute; discriminate |].
  split; [vm_compute; discriminate |].
  apply X3_place_click_refusals; [reflexivity | discriminate | vm_compute; discriminate | vm_compute; discriminate].
Defined.

(** X4. A Duplicate keeps a well formed session well formed, keeps the
    selection and only adds blocks. *)
Theorem X4_duplicate_keeps_wf (cfg : Cfg) (st : St) (direction : Direction) (interval : Z)
    (Hwf : wf cfg st) :
  let st' := step cfg st (Duplicate direction interval) in
  wf cfg st' /\ selected_blocks st' = selected_blocks st /\ incl (block_objects st) (block_objects st').
Proof.
  apply (step_keeps cfg (grows_from cfg (selected_blocks st) (block_objects st))).
  - apply duplicate_main_keeps.
  - split; [exact Hwf | split; [reflexivity | apply incl_refl]].
Qed.

Lemma X4_witness :
  wf cfg_10x10 a_selected /\
  (let st' := step cfg_10x10 a_selected (Duplicate Horizontal 1) in
   wf cfg_10x10 st' /\ selected_blocks st' = selected_blocks a_selected /\
   incl (block_objects a_selected) (block_objects st')).
Proof. split; [exact wf_a_selected | exact (X4_duplicate_keeps_wf cfg_10x10 a_selected Horizontal 1 wf_a_selected)]. Defined.

(** X5. A Delete click on an in-grid cell holding block [i] unregisters [i]
    and clears its in-grid cells, keeping the heap, the selection, the shape
    and the counter; the result is well formed and no cell holds [i]. *)
Theorem X5_delete_at_effect (cfg : Cfg) (st : St) (x y : Z) (i : nat)
    (Hwf : wf cfg st) (Hin : in_grid cfg x y) (Hg : grid_state st x y = Some i) :
  let st' := step cfg st (DeleteAt x y) in
  st' = mkSt (clear_id cfg (grid_state st) i) (heap st)
             (filter (fun j => negb (Nat.eqb j i)) (block_objects st))
             (selected_blocks st) (selected_shape st) (next_id st) /\
  wf cfg st' /\ ~ In i (block_objects st') /\ (forall a b, grid_state st' a b <> Some i).
Proof.
  cbv zeta. assert (E := delete_at_effect_aux cfg st x y i Hwf Hin Hg).
  assert (Hwf' : wf cfg (step cfg st (DeleteAt x y))).
  { refine (proj1 (step_keeps cfg (fun s => wf cfg s /\ selected_blocks s = selected_blocks st) _ st _ _)).
    - apply delete_click_keeps.
    - split; [exact Hwf | reflexivity]. }
  assert (Hni : ~ In i (block_objects (step cfg st (DeleteAt x y)))).
  { rewrite E. cbn [block_objects]. rewrite filter_In, Nat.eqb_refl. intros [_ H]. discriminate. }
  split; [exact E |]. split; [exact Hwf' |]. split; [exact Hni |].
  intros a b Hab. destruct Hwf' as (_ & (Hag1 & _) & _). exact (Hni (proj1 (Hag1 a b i Hab))).
Qed.

Lemma X5_witness :
  wf cfg_row3 one_placed /\ in_grid cfg_row3 0 0 /\ grid_state one_placed 0 0 = Some 0%nat /\
  (let st' := step cfg_row3 one_placed (DeleteAt 0 0) in
   st' = mkSt (clear_id cfg_row3 (grid_state one_placed) 0) (heap one_placed)
              (filter (fun j => negb (Nat.eqb j 0)) (block_objects one_placed))
              (selected_blocks one_placed) (selected_shape one_placed) (next_id one_placed) /\
   wf cfg_row3 st' /\ ~ In 0%nat (block_objects st') /\ (forall a b, grid_state st' a b <> Some 0%nat)).
Proof.
  assert (Hin : in_grid cfg_row3 0 0) by (unfold in_grid; cbn; lia).
  assert (Hg : grid_state one_placed 0 0 = Some 0%nat) by (vm_compute; reflexivity).
  split; [exact wf_one_placed | split; [exact Hin | split; [exact Hg |]]].
  exact (X5_delete_at_effect cfg_row3 one_placed 0 0 0 wf_one_placed Hin Hg).
Defined.

Lemma bind_raise {A B} (m : M St A) (k : A -> M St B) (st st1 : St) (e : exn) :
  m st = Raise e st1 -> bind m k st = Raise e st1.
Proof. intros E. unfold bind. rewrite E. reflexivity. Qed.

(** X6. The click guard only rejects x > GRID_WIDTH or y > GRID_HEIGHT: a
    click on the column x = GRID_WIDTH or the row y = GRID_HEIGHT makes Delete
    and Change Orientation raise IndexError with the state unchanged. *)
Theorem X6_edge_click_index_error (cfg : Cfg) (st : St) (x y : Z)
    (Hw : 0 <= GRID_WIDTH cfg) (Hh : 0 <= GRID_HEIGHT cfg)
    (Hx : x <= GRID_WIDTH cfg) (Hy : y <= GRID_HEIGHT cfg)
    (Hedge : x = GRID_WIDTH cfg \/ y = GRID_HEIGHT cfg) :
  delete_click cfg x y st = Raise IndexError st /\
  orientation_click cfg x y st = Raise IndexError st.
Proof.
  unfold delete_click, orientation_click. rewrite (edge_guard_passes cfg x y Hx Hy).
  split; apply bind_raise; exact (get_cell_edge cfg x y st Hw Hh Hedge).
Qed.

Lemma X6_witness :
  0 <= GRID_WIDTH cfg_row3 /\ 0 <= GRID_HEIGHT cfg_row3 /\ 3 <= GRID_WIDTH cfg_row3 /\
  0 <= GRID_HEIGHT cfg_row3 /\ (3 = GRID_WIDTH cfg_row3 \/ 0 = GRID_HEIGHT cfg_row3) /\
  delete_click cfg_row3 3 0 one_placed = Raise IndexError one_placed /\
  orientation_click cfg_row3 3 0 one_placed = Raise IndexError one_placed.
Proof.
  assert (Hw : 0 <= GRID_WIDTH cfg_row3) by (cbn; lia).
  assert (Hh : 0 <= GRID_HEIGHT cfg_row3) by (cbn; lia).
  assert (Hx : 3 <= GRID_WIDTH cfg_row3) by (cbn; lia).
  assert (He : 3 = GRID_WIDTH cfg_row3 \/ 0 = GRID_HEIGHT cfg_row3) by (left; reflexivity).
  split; [exact Hw | split; [exact Hh | split; [exact Hx | split; [exact Hh | split; [exact He |]]]]].
  exact (X6_edge_click_index_error cfg_row3 one_placed 3 0 Hw Hh Hx Hh He).
Defined.

(** X7. [n] rotation clicks on block [i] keep the session well formed and the
    grid, the registered blocks, the selection and the other blocks unchanged;
    the orientation advances [n] steps and the block is back to what it was
    exactly when [n] is a multiple of 5. *)
Theorem X7_rotation_cycle (cfg : Cfg) (st : St) (x y : Z) (i : nat) (n : nat)
    (Hwf : wf cfg st) (Hin : in_grid cfg x y) (Hg : grid_state st x y = Some i) :
  let st' := run cfg st (repeat (RotateAt x y) n) in
  wf cfg st' /\ (forall a b, grid_state st' a b = grid_state st a b) /\
  heap st' i = mkBlock (cell_name (heap st i)) (data_x (heap st i)) (data_y (heap st i))
                       (Nat.iter n next_orientation (orientation (heap st i))) (block_shape (heap st i)) /\
  (heap st' i = heap st i <-> (n mod 5 = 0)%nat) /\
  (forall j, j <> i -> heap st' j = heap st j) /\
  block_objects st' = block_objects st /\ selected_blocks st' = selected_blocks st.
Proof.
  cbv zeta.
  destruct (rotate_clicks_aux cfg x y i n st Hwf Hin Hg) as (Hw & Hgr & Hh & Hk & Hbo & Hsel & _).
  rewrite iter_update_orientation in Hh. rewrite Hh.
  split; [exact Hw | split; [exact Hgr | split; [reflexivity | split; [| split; [exact Hk | split; assumption]]]]].
  rewrite <- (iter_next_orientation_id n (orientation (heap st i))).
  destruct (heap st i) as [nm bx by_ o bs]. cbn. split.
  - intros E. injection E. tauto.
  - intros ->. reflexivity.
Qed.

Lemma X7_witness :
  wf cfg_row3 one_placed /\ in_grid cfg_row3 0 0 /\ grid_state one_placed 0 0 = Some 0%nat /\
  (let st' := run cfg_row3 one_placed (repeat (RotateAt 0 0) 5) in
   wf cfg_row3 st' /\ (forall a b, grid_state st' a b = grid_state one_placed a b) /\
   heap st' 0 = mkBlock (cell_name (heap one_placed 0)) (data_x (heap one_placed 0)) (data_y (heap one_placed 0))
                        (Nat.iter 5 next_orientation (orientation (heap one_placed 0))) (block_shape (heap one_placed 0)) /\
   (heap st' 0 = heap one_placed 0 <-> (5 mod 5 = 0)%nat) /\
   (forall j, j <> 0%nat -> heap st' j = heap one_placed j) /\
   block_objects st' = block_objects one_placed /\ selected_blocks st' = selected_blocks one_placed).
Proof.
  assert (Hin : in_grid cfg_row3 0 0) by (unfold in_grid; cbn; lia).
  assert (Hg : grid_state one_placed 0 0 = Some 0%nat) by (vm_compute; reflexivity).
  split; [exact wf_one_placed | split; [exact Hin | split; [exact Hg |]]].
  exact (X7_rotation_cycle cfg_row3 one_placed 0 0 0 5 wf_one_placed Hin Hg).
Defined.

(** X8. A region selection makes the selection exactly the blocks owning an
    in-grid cell of the rectangle (no Blockage unless selected with them),
    without duplicates; grid, heap and blocks are unchanged. *)
Theorem X8_select_region_result (cfg : Cfg) (st : St) (with_blockage : bool) (x0 y0 x1 y1 : Z)
    (Hwf : wf cfg st) :
  let st' := step cfg st (SelectRegion with_blockage x0 y0 x1 y1) in
  wf cfg st' /\ NoDup (selected_blocks st') /\
  (forall j, In j (selected_blocks st') <->
     exists x y, Z.min x0 x1 <= x <= Z.max x0 x1 /\ Z.min y0 y1 <= y <= Z.max y0 y1 /\
                 picked cfg st with_blockage x y j) /\
  (forall a b, grid_state st' a b = grid_state st a b) /\
  heap st' = heap st /\ block_objects st' = block_objects st /\ next_id st' = next_id st.
Proof.
  cbv zeta. destruct (select_region_ok cfg st with_blockage x0 y0 x1 y1 Hwf) as (s & g' & Hrun & Heq & Hnd & Hin).
  assert (E : step cfg st (SelectRegion with_blockage x0 y0 x1 y1) = with_grid (with_selected st s) g')
    by (unfold step; cbn [op_action]; rewrite Hrun; reflexivity).
  rewrite E.
  assert (Hwf1 : wf cfg (with_selected st s)).
  { apply wf_with_selected; [exact Hwf |]. intros j Hj.
    destruct (proj1 (Hin j) Hj) as (x & y & _ & _ & _ & _ & Hg & _).
    destruct Hwf as (_ & (Hag1 & _) & _). exact (proj1 (Hag1 x y j Hg)). }
  split.
  - apply (wf_transfer cfg (with_selected st s)); try reflexivity; [exact Heq | | exact Hwf1].
    intros j. tauto.
  - split; [exact Hnd | split; [exact Hin | split; [exact Heq | tauto]]].
Qed.

Lemma X8_witness :
  wf cfg_row3 two_placed /\
  (let st' := step cfg_row3 two_placed (SelectRegion false 0 0 2 0) in
   wf cfg_row3 st' /\ NoDup (selected_blocks st') /\
   (forall j, In j (selected_blocks st') <->
      exists x y, Z.min 0 2 <= x <= Z.max 0 2 /\ Z.min 0 0 <= y <= Z.max 0 0 /\
                  picked cfg_row3 two_placed false x y j) /\
   (forall a b, grid_state st' a b = grid_state two_placed a b) /\
   heap st' = heap two_placed /\ block_objects st' = block_objects two_placed /\
   next_id st' = next_id two_placed).
Proof. split; [exact wf_two_placed | exact (X8_select_region_result cfg_row3 two_placed false 0 0 2 0 wf_two_placed)]. Defined.

(** X9. A Swap with registered selected ids keeps the session well formed,
    the selection and the registered blocks. *)
Theorem X9_swap_keeps_wf (cfg : Cfg) (st : St)
    (Hwf : wf cfg st) (Hinc : incl (selected_blocks st) (block_objects st)) :
  let st' := step cfg st Swap in
  wf cfg st' /\ selected_blocks st' = selected_blocks st /\ block_objects st' = block_objects st.
Proof.
  apply (step_keeps cfg (fun s => wf cfg s /\ selected_blocks s = selected_blocks st /\
                                   block_objects s = block_objects st)).
  - apply swap_main_keeps. exact Hinc.
  - split; [exact Hwf | split; reflexivity].
Qed.

Lemma X9_witness :
  wf cfg_10x10 a_selected /\ incl (selected_blocks a_selected) (block_objects a_selected) /\
  (let st' := step cfg_10x10 a_selected Swap in
   wf cfg_10x10 st' /\ selected_blocks st' = selected_blocks a_selected /\
   block_objects st' = block_objects a_selected).
Proof.
  assert (Hinc : incl (selected_blocks a_selected) (block_objects a_selected))
    by (vm_compute; intros a Ha; exact Ha).
  split; [exact wf_a_selected | split; [exact Hinc |]].
  exact (X9_swap_keeps_wf cfg_10x10 a_selected wf_a_selected Hinc).
Defined.

(** X10. A Move-to with registered selected ids keeps the session well
    formed, the selection and the registered blocks, whatever the target. *)
Theorem X10_move_to_keeps_wf (cfg : Cfg) (st : St) (target : string)
    (Hwf : wf cfg st) (Hinc : incl (selected_blocks st) (block_objects st)) :
  let st' := step cfg st (MoveTo target) in
  wf cfg st' /\ selected_blocks st' = selected_blocks st /\ block_objects st' = block_objects st.
Proof.
  apply (step_keeps cfg (fun s => wf cfg s /\ selected_blocks s = selected_blocks st /\
                                   block_objects s = block_objects st)).
  - apply keeps_bind; [apply move_to_keeps; exact Hinc | intros _; apply keeps_ret].
  - split; [exact Hwf | split; reflexivity].
Qed.

Lemma X10_witness :
  wf cfg_10x10 a_selected /\ incl (selected_blocks a_selected) (block_objects a_selected) /\
  (let st' := step cfg_10x10 a_selected (MoveTo "C3") in
   wf cfg_10x10 st' /\ selected_blocks st' = selected_blocks a_selected /\
   block_objects st' = block_objects a_selected).
Proof.
  assert (Hinc : incl (selected_blocks a_selected) (block_objects a_selected))
    by (vm_compute; intros a Ha; exact Ha).
  split; [exact wf_a_selected | split; [exact Hinc |]].
  exact (X10_move_to_keeps_wf cfg_10x10 a_selected "C3" wf_a_selected Hinc).
Defined.

(** X11. A target of letters and digits followed by text that does not start
    with a digit is parsed as the letters and digits alone, and [move_to]
    behaves as for them. *)
Theorem X11_move_to_ignores_suffix (cfg : Cfg) (st : St) (cs ds t : string)
    (Hcs : cs <> ""%string) (Hds : ds <> ""%string)
    (Hl : forall c, In c (list_ascii_of_string cs) -> is_letter c = true)
    (Hd : forall c, In c (list_ascii_of_string ds) -> is_digit c = true)
    (Ht : no_digit_head t = true) :
  match_target (cs ++ ds ++ t) = Some (cs, ds) /\
  move_to cfg (cs ++ ds ++ t) st = move_to cfg (cs ++ ds) st.
Proof.
  split; [exact (match_target_suffix cs ds t Hcs Hds Hl Hd Ht) |].
  exact (move_to_suffix_aux cfg cs ds t st Hcs Hds Hl Hd Ht).
Qed.

Lemma X11_witness :
  match_target ("B" ++ "2" ++ " left") = Some ("B", "2") /\
  move_to cfg_10x10 ("B" ++ "2" ++ " left") a_selected = move_to cfg_10x10 ("B" ++ "2") a_selected.
Proof.
  apply (X11_move_to_ignores_suffix cfg_10x10 a_selected "B" "2" " left");
    [discriminate | discriminate | | | reflexivity];
    intros c [<- | []]; reflexivity.
Defined.

(** X12. When the only selected block has been deleted, a Swap to a shape of
    the same footprint redraws it: its cells hold an id that is not
    registered and grid and blocks no longer agree. *)
Theorem X12_stale_swap_breaks_agreement (cfg : Cfg) (st : St) (oid : nat) (target : string) (dx dy : Z)
    (Hwf : wf cfg st) (Hsel : selected_blocks st = [oid]) (Hnot : ~ In oid (block_objects st))
    (Hsh : selected_shape st = Some target)
    (Ht : assoc target (SHAPE_BUTTONS cfg) = Some (block_shape (heap st oid)))
    (Hin : forall dx dy, In (dx, dy) (block_shape (heap st oid)) ->
       0 <= data_x (heap st oid) + dx < GRID_WIDTH cfg /\ 0 <= data_y (heap st oid) + dy < GRID_HEIGHT cfg)
    (Hd : In (dx, dy) (block_shape (heap st oid))) :
  let st' := step cfg st Swap in
  grid_state st' (data_x (heap st oid) + dx) (data_y (heap st oid) + dy) = Some oid /\
  ~ In oid (block_objects st') /\ ~ grid_agrees st'.
Proof. exact (stale_swap_aux cfg st oid target dx dy Hwf Hsel Hnot Hsh Ht Hin Hd). Qed.

Lemma X12_witness :
  wf cfg_row3 stale_selected /\ selected_blocks stale_selected = [0%nat] /\
  ~ In 0%nat (block_objects stale_selected) /\
  (let st' := step cfg_row3 stale_selected Swap in
   grid_state st' (data_x (heap stale_selected 0) + 0) (data_y (heap stale_selected 0) + 0) = Some 0%nat /\
   ~ In 0%nat (block_objects st') /\ ~ grid_agrees st').
Proof.
  assert (Hsel : selected_blocks stale_selected = [0%nat]) by (vm_compute; reflexivity).
  assert (Hnot : ~ In 0%nat (block_objects stale_selected)) by (vm_compute; intros []).
  split; [exact wf_stale_selected | split; [exact Hsel | split; [exact Hnot |]]].
  apply (X12_stale_swap_breaks_agreement cfg_row3 stale_selected 0 "U" 0 0 wf_stale_selected Hsel Hnot).
  - vm_compute. reflexivity.
  - vm_compute. reflexivity.
  - vm_compute. intros dx dy [E | []]. injection E as <- <-. split; split; first [reflexivity | intros H; discriminate].
  - vm_compute. left. reflexivity.
Defined.



(** X14. A Place Blockage drag keeps the session well formed, normally or by
    an exception, keeps the selection and removes no block. *)
Theorem X14_place_blockage_keeps_wf (cfg : Cfg) (st : St) (x0 y0 x1 y1 : Z) (Hwf : wf cfg st) :
  let st' := out_state (release_place_blockage cfg x0 y0 x1 y1 st) in
  wf cfg st' /\ selected_blocks st' = selected_blocks st /\ incl (block_objects st) (block_objects st').
Proof.
  cbv zeta. assert (Hk := release_place_blockage_keeps cfg (selected_blocks st) (block_objects st) x0 y0 x1 y1 st
                            (conj Hwf (conj eq_refl (incl_refl _)))).
  destruct (release_place_blockage cfg x0 y0 x1 y1 st); exact Hk.
Qed.

Lemma X14_witness :
  wf cfg_blk session_blk /\
  (let st' := out_state (release_place_blockage cfg_blk 0 0 3 1 session_blk) in
   wf cfg_blk st' /\ selected_blocks st' = selected_blocks session_blk /\
   incl (block_objects session_blk) (block_objects st')).
Proof.
  assert (Hwf : wf cfg_blk session_blk) by (apply wf_session; vm_compute; reflexivity).
  split; [exact Hwf | exact (X14_place_blockage_keeps_wf cfg_blk session_blk 0 0 3 1 Hwf)].
Defined.

(** X15. With a one-cell Blockage, a Place Blockage drag completes, keeps the
    session well formed, keeps occupied cells occupied and leaves every
    in-grid cell of the rectangle occupied. *)
Theorem X15_blockage_drag_fills (cfg : Cfg) (st : St) (x0 y0 x1 y1 : Z)
    (Hcat : assoc "Blockage" (SHAPE_BUTTONS cfg) = Some [(0, 0)]) (Hwf : wf cfg st) :
  exists st', release_place_blockage cfg x0 y0 x1 y1 st = Ok tt st' /\
    wf cfg st' /\ selected_blocks st' = selected_blocks st /\
    incl (block_objects st) (block_objects st') /\
    (forall a b, grid_state st a b <> None -> grid_state st' a b <> None) /\
    (forall x y, Z.min x0 x1 <= x <= Z.max x0 x1 -> Z.min y0 y1 <= y <= Z.max y0 y1 ->
       in_grid cfg x y -> grid_state st' x y <> None).
Proof.
  destruct (place_blockage_unit cfg (selected_blocks st) (block_objects st) x0 y0 x1 y1 st Hcat
              (conj Hwf (conj eq_refl (incl_refl _)))) as (st' & Hrun & (Hw & Hs & Hi) & Hm & Hf).
  exists st'. split; [exact Hrun |]. split; [exact Hw |]. split; [exact Hs |]. split; [exact Hi |].
  split; [exact Hm | exact Hf].
Qed.

Lemma X15_witness :
  assoc "Blockage" (SHAPE_BUTTONS cfg_blk) = Some [(0, 0)] /\ wf cfg_blk session_blk /\
  exists st', release_place_blockage cfg_blk 0 0 3 1 session_blk = Ok tt st' /\
    wf cfg_blk st' /\ selected_blocks st' = selected_blocks session_blk /\
    incl (block_objects session_blk) (block_objects st') /\
    (forall a b, grid_state session_blk a b <> None -> grid_state st' a b <> None) /\
    (forall x y, Z.min 0 3 <= x <= Z.max 0 3 -> Z.min 0 1 <= y <= Z.max 0 1 ->
       in_grid cfg_blk x y -> grid_state st' x y <> None).
Proof.
  assert (Hc : assoc "Blockage" (SHAPE_BUTTONS cfg_blk) = Some [(0, 0)]) by reflexivity.
  assert (Hwf : wf cfg_blk session_blk) by (apply wf_session; vm_compute; reflexivity).
  split; [exact Hc | split; [exact Hwf | exact (X15_blockage_drag_fills cfg_blk session_blk 0 0 3 1 Hc Hwf)]].
Defined.

(** X16. A Delete Region or Delete Blockage drag completes, keeps the session
    well formed, the heap and the selection, only clears cells, keeps the
    non-Blockage blocks in Delete Blockage mode, and leaves each in-grid cell
    of the rectangle empty or, in Delete Blockage mode, holding a
    non-Blockage block. *)
Theorem X16_region_delete (cfg : Cfg) (only_blockage : bool) (st : St) (x0 y0 x1 y1 : Z)
    (Hwf : wf cfg st) :
  exists st', release_delete cfg only_blockage x0 y0 x1 y1 st = Ok tt st' /\
    wf cfg st' /\ selected_blocks st' = selected_blocks st /\ heap st' = heap st /\
    (forall a b, grid_state st' a b = None \/ grid_state st' a b = grid_state st a b) /\
    (only_blockage = true -> forall j, In j (block_objects st) ->
       cell_name (heap st j) <> "Blockage" -> In j (block_objects st')) /\
    (forall x y, Z.min x0 x1 <= x <= Z.max x0 x1 -> Z.min y0 y1 <= y <= Z.max y0 y1 ->
       in_grid cfg x y ->
       match grid_state st' x y with
       | None => True
       | Some j => only_blockage = true /\ cell_name (heap st' j) <> "Blockage"
       end).
Proof.
  destruct (release_delete_ok cfg only_blockage x0 y0 x1 y1 st Hwf)
    as (st' & Hrun & Hw & Hs & (Hh & Hg & Hk) & Hd).
  exists st'. split; [exact Hrun |]. split; [exact Hw |]. split; [exact Hs |]. split; [exact Hh |].
  split; [exact Hg |]. split; [exact Hk |]. exact Hd.
Qed.

Lemma X16_witness :
  wf cfg_blk session_blk /\
  exists st', release_delete cfg_blk true 0 0 3 1 session_blk = Ok tt st' /\
    wf cfg_blk st' /\ selected_blocks st' = selected_blocks session_blk /\ heap st' = heap session_blk /\
    (forall a b, grid_state st' a b = None \/ grid_state st' a b = grid_state session_blk a b) /\
    (true = true -> forall j, In j (block_objects session_blk) ->
       cell_name (heap session_blk j) <> "Blockage" -> In j (block_objects st')) /\
    (forall x y, Z.min 0 3 <= x <= Z.max 0 3 -> Z.min 0 1 <= y <= Z.max 0 1 ->
       in_grid cfg_blk x y ->
       match grid_state st' x y with
       | None => True
       | Some j => true = true /\ cell_name (heap st' j) <> "Blockage"
       end).
Proof.
  assert (Hwf : wf cfg_blk session_blk) by (apply wf_session; vm_compute; reflexivity).
  split; [exact Hwf | exact (X16_region_delete cfg_blk true session_blk 0 0 3 1 Hwf)].
Defined.

(** X17. Two strings of letters get the same column index exactly when they
    are equal up to case. *)
Theorem X17_column_index_injective (s1 s2 : string)
    (H1 : forall c, In c (list_ascii_of_string s1) -> is_letter c = true)
    (H2 : forall c, In c (list_ascii_of_string s2) -> is_letter c = true) :
  excel_col_to_index s1 = excel_col_to_index s2 <->
  map ascii_upper (list_ascii_of_string s1) = map ascii_upper (list_ascii_of_string s2).
Proof. exact (excel_col_to_index_inj_aux s1 s2 H1 H2). Qed.

Lemma X17_witness :
  (excel_col_to_index "ab" = excel_col_to_index "AB" <->
   map ascii_upper (list_ascii_of_string "ab") = map ascii_upper (list_ascii_of_string "AB")) /\
  (excel_col_to_index "AB" = excel_col_to_index "BA" <->
   map ascii_upper (list_ascii_of_string "AB") = map ascii_upper (list_ascii_of_string "BA")).
Proof.
  split; apply X17_column_index_injective; intros c Hc; repeat (destruct Hc as [<- | Hc]; [reflexivity |]);
    destruct Hc.
Defined.

(** X18. In [read_block_config] the last row with a given name sets that
    name's footprint, colour and pinside. *)
Theorem X18_config_last_row_wins {P} (rows1 rows2 : list (BlockRow P)) (r : BlockRow P)
    (Hlast : forall r', In r' rows2 -> block_name r' <> block_name r) :
  let '(shape_buttons, shape_colors, shape_pinsides) := read_block_config (rows1 ++ r :: rows2) in
  assoc (block_name r) shape_buttons = Some (buttons_of (width r) (height r)) /\
  assoc (block_name r) shape_colors = Some (color r) /\
  assoc (block_name r) shape_pinsides = Some (pinside r).
Proof.
  rewrite read_block_config_app. destruct (read_block_config rows1) as [[sb sc] sp].
  cbn [fold_left].
  assert (Ha := read_rows_absent (block_name r) rows2
                  (dict_set (block_name r) (buttons_of (width r) (height r)) sb)
                  (dict_set (block_name r) (color r) sc) (dict_set (block_name r) (pinside r) sp)
                  (fun r' H E => Hlast r' H E)).
  destruct (fold_left _ rows2 _) as [[sb' sc'] sp'].
  destruct Ha as (E1 & E2 & E3 & _).
  rewrite E1, E2, E3, !assoc_dict_set, String.eqb_refl. tauto.
Qed.

Lemma X18_witness :
  (forall r' : BlockRow Z, In r' [] -> block_name r' <> block_name (mkBlockRow "A" 1 3 "green" 2%Z)) /\
  let '(shape_buttons, shape_colors, shape_pinsides) :=
    read_block_config ([mkBlockRow "A" 2 1 "red" 0%Z; mkBlockRow "B" 1 1 "blue" 1%Z] ++
                       mkBlockRow "A" 1 3 "green" 2%Z :: []) in
  assoc "A" shape_buttons = Some (buttons_of 1 3) /\
  assoc "A" shape_colors = Some "green"%string /\
  assoc "A" shape_pinsides = Some 2%Z.
Proof.
  assert (H : forall r' : BlockRow Z, In r' [] -> block_name r' <> block_name (mkBlockRow "A" 1 3 "green" 2%Z))
    by (intros r' []).
  split; [exact H | exact (X18_config_last_row_wins [mkBlockRow "A" 2 1 "red" 0%Z; mkBlockRow "B" 1 1 "blue" 1%Z] [] (mkBlockRow "A" 1 3 "green" 2%Z) H)].
Defined.

(** X19. The three dicts of [read_block_config] have the same keys in the same
    order, without duplicates, and the keys are the names of the rows. *)
Theorem X19_config_keys {P} (rows : list (BlockRow P)) :
  let '(shape_buttons, shape_colors, shape_pinsides) := read_block_config rows in
  map fst shape_buttons = map fst shape_colors /\ map fst shape_buttons = map fst shape_pinsides /\
  NoDup (map fst shape_buttons) /\
  (forall name, In name (map fst shape_buttons) <-> exists r, In r rows /\ block_name r = name).
Proof.
  assert (H := read_rows_keys rows [] [] [] eq_refl eq_refl (NoDup_nil _)).
  unfold read_block_config. destruct (fold_left _ rows _) as [[sb sc] sp].
  destruct H as (E1 & E2 & Hnd & Hin). split; [exact E1 | split; [exact E2 | split; [exact Hnd |]]].
  intros name. rewrite Hin. cbn [map In]. tauto.
Qed.

Lemma load_entry_marks (cfg : Cfg) (v : Entry) (bs : list Cell) (st : St) :
  assoc (e_cell_name v) (SHAPE_BUTTONS cfg) = Some bs -> bs <> [] ->
  (forall dx dy, In (dx, dy) bs -> 0 <= e_x v + dx < GRID_WIDTH cfg /\ 0 <= e_y v + dy < GRID_HEIGHT cfg) ->
  exists st', load_entry cfg v st = Ok tt st' /\
    block_objects st' = block_objects st ++ [next_id st] /\ next_id st' = S (next_id st) /\
    heap st' (next_id st) = mkBlock (e_cell_name v) (e_x v) (e_y v) (e_orientation v) bs /\
    (forall j, j <> next_id st -> heap st' j = heap st j) /\
    (forall dx dy, In (dx, dy) bs -> grid_state st' (e_x v + dx) (e_y v + dy) = Some (next_id st)).
Proof.
  intros Hcat Hne Hin.
  unfold load_entry. rewrite (bind_ok _ _ _ _ _ (lookup_shape_ok cfg _ bs st Hcat)).
  rewrite (bind_ok _ _ _ _ _ (new_block_ok _ _ _ bs _ st Hne)).
  set (st1 := mkSt _ _ _ _ _ _).
  assert (Hb : heap st1 (next_id st) = mkBlock (e_cell_name v) (e_x v) (e_y v) (e_orientation v) bs)
    by (cbn [st1 heap]; rewrite Nat.eqb_refl; reflexivity).
  destruct (draw_block_ok cfg (next_id st) st1 bs) as (g' & Hrun & _ & Hon).
  { rewrite Hb. exact Hcat. }
  { rewrite Hb. exact Hin. }
  rewrite Hb in Hon. cbn [data_x data_y block_shape] in Hon.
  rewrite (bind_ok _ _ _ _ _ Hrun).
  eexists. split; [reflexivity |].
  cbn [register with_block_objects with_grid block_objects next_id heap grid_state st1].
  split; [reflexivity | split; [reflexivity | split; [| split]]].
  - rewrite Nat.eqb_refl. reflexivity.
  - intros j Hj. apply Nat.eqb_neq in Hj. rewrite Hj. reflexivity.
  - exact Hon.
Qed.

Lemma load_twice_aux (cfg : Cfg) (st0 : St) (k1 k2 : nat) (v : Entry) (bs : list Cell) :
  assoc (e_cell_name v) (SHAPE_BUTTONS cfg) = Some bs -> bs <> [] ->
  (forall dx dy, In (dx, dy) bs -> 0 <= e_x v + dx < GRID_WIDTH cfg /\ 0 <= e_y v + dy < GRID_HEIGHT cfg) ->
  exists st', load_from_file cfg [(k1, v); (k2, v)] st0 = Ok tt st' /\
    block_objects st' = [next_id st0; S (next_id st0)] /\
    heap st' (next_id st0) = mkBlock (e_cell_name v) (e_x v) (e_y v) (e_orientation v) bs /\
    (forall dx dy, In (dx, dy) bs -> grid_state st' (e_x v + dx) (e_y v + dy) = Some (S (next_id st0))) /\
    ~ grid_agrees st'.
Proof.
  intros Hcat Hne Hin.
  set (st1 := mkSt empty_grid (heap st0) [] [] (selected_shape st0) (next_id st0)).
  destruct (load_entry_marks cfg v bs st1 Hcat Hne Hin) as (s1 & R1 & B1 & N1 & H1 & K1 & G1).
  destruct (load_entry_marks cfg v bs s1 Hcat Hne Hin) as (s2 & R2 & B2 & N2 & H2 & K2 & G2).
  rewrite N1 in B2, N2, H2, K2, G2.
  assert (Hnm : S (next_id st1) <> next_id st1) by lia.
  assert (Hrun : load_from_file cfg [(k1, v); (k2, v)] st0 = Ok tt s2).
  { unfold load_from_file. unfold bind at 1, get.
    rewrite (bind_ok (put st1) _ st0 st1 tt eq_refl).
    cbv beta. cbn [for_]. unfold bind, ret.
    destruct (String.eqb (e_cell_name v) "Blockage"); cbn [negb].
    - rewrite R1, R2. reflexivity.
    - rewrite R1, R2. reflexivity. }
  exists s2. split; [exact Hrun |].
  assert (Hh : heap s2 (next_id st0) = mkBlock (e_cell_name v) (e_x v) (e_y v) (e_orientation v) bs)
    by (rewrite K2 by exact (not_eq_sym Hnm); exact H1).
  split; [rewrite B2, B1; reflexivity |]. split; [exact Hh |]. split; [exact G2 |].
  intros (_ & Hag2). destruct bs as [| [dx dy] bs']; [congruence |].
  assert (Hi : In (next_id st0) (block_objects s2)) by (rewrite B2, B1; left; reflexivity).
  assert (E := Hag2 (next_id st0) dx dy Hi ltac:(rewrite Hh; left; reflexivity)).
  rewrite Hh in E. cbn [data_x data_y] in E. rewrite (G2 dx dy (or_introl eq_refl)) in E.
  injection E. lia.
Qed.

(** X20. Loading a file whose two records are the same loadable entry gives
    two registered blocks; the later one's id overwrites the earlier one's
    cells, so grid and blocks no longer agree. *)
Theorem X20_duplicate_record_overlaps (cfg : Cfg) (st0 : St) (k1 k2 : nat) (v : Entry) (bs : list Cell)
    (Hcat : assoc (e_cell_name v) (SHAPE_BUTTONS cfg) = Some bs) (Hne : bs <> [])
    (Hin : forall dx dy, In (dx, dy) bs ->
       0 <= e_x v + dx < GRID_WIDTH cfg /\ 0 <= e_y v + dy < GRID_HEIGHT cfg) :
  exists st', load_from_file cfg [(k1, v); (k2, v)] st0 = Ok tt st' /\
    block_objects st' = [next_id st0; S (next_id st0)] /\
    heap st' (next_id st0) = mkBlock (e_cell_name v) (e_x v) (e_y v) (e_orientation v) bs /\
    (forall dx dy, In (dx, dy) bs -> grid_state st' (e_x v + dx) (e_y v + dy) = Some (S (next_id st0))) /\
    ~ grid_agrees st'.
Proof. exact (load_twice_aux cfg st0 k1 k2 v bs Hcat Hne Hin). Qed.

Lemma X20_witness :
  exists st', load_from_file cfg_row3 [(7%nat, mkEntry "U" 1 0 R0); (8%nat, mkEntry "U" 1 0 R0)] one_placed
                = Ok tt st' /\
    block_objects st' = [next_id one_placed; S (next_id one_placed)] /\
    heap st' (next_id one_placed) = mkBlock "U" 1 0 R0 [(0, 0)] /\
    (forall dx dy, In (dx, dy) [(0, 0)] -> grid_state st' (1 + dx) (0 + dy) = Some (S (next_id one_placed))) /\
    ~ grid_agrees st'.
Proof.
  apply (X20_duplicate_record_overlaps cfg_row3 one_placed 7 8 (mkEntry "U" 1 0 R0) [(0, 0)]);
    [reflexivity | discriminate |].
  intros dx dy [E | []]. injection E as <- <-. cbn. lia.
Defined.





Lemma ok_not_raises (m : M string unit) : runs_ok m -> always_raises m -> False.
Proof. intros Ho Hr. destruct (Ho ""%string) as (f1 & E1). destruct (Hr ""%string) as (e & f2 & E2). congruence. Qed.


Section SaveTxtFacts.

Variable cfg : Cfg.
Variable show_id : nat -> string.
Variable st : St.






End SaveTxtFacts.


